(** * The SAM simulator engagement core: detection engine and beam tracker

    A shallow embedding of [src/classes/SAM.ts] (class [SAM], the
    detection engine) and of the tracking radar class [SNR] (the beam
    tracker), followed by the properties of their per-tick recomputation
    and of the two capture state machines.

    Conventions of the embedding.
    - A JavaScript [number] is read as a real number: [Math.sqrt],
      [Math.cos], [Math.atan2], [Math.hypot] and [Math.PI] are the
      functions and the constant of real analysis, and rounding is
      outside the model.  The two places of the detection engine
      where an IEEE double leaves the reals decide whether a target
      is recognized, and are written out: the square root of a
      negative height is NaN and a quotient by a ground distance of 0
      is an infinity or NaN, and each makes the comparison it feeds
      false.  The beam tracker divides by the ground distance of an
      object, by the beam width and by [maxDistance] without a guard,
      and stores one such quotient in [this.verticalAngle]: there a
      value is a [JS.number], a real, an infinity or NaN, with the
      IEEE rules for the operations.  Arguments and fields of flight
      objects are reals, so a zero among them is the positive zero.
    - A method that mutates [this] is a function from the state before
      to the state after, paired with the list of effects it produced
      in order: events handed to [eventListener], calls to the display
      collaborators, calls to [kill()] and [destroyMissile()].
    - A JavaScript object used as a table ([Record<string, T>]) is an
      association list in insertion order: assignment to an existing
      key keeps its place, assignment to a new key appends, [delete]
      removes.  (Keys that are canonical array indices are enumerated
      by JavaScript in numeric order; only the enumeration order, which
      no statement below depends on, would differ for them.)
    - A timer created by [setInterval] is represented by what its
      callback closes over. *)

From Stdlib Require Import Reals Lra Lia List String ZArith Bool.
Import ListNotations.
Local Open Scope string_scope.
Local Open Scope list_scope.
Local Open Scope R_scope.

(** ** JavaScript numbers and [Math] *)

Module JS.

(** [a < b], [a <= b] and [a > b] as the booleans the program tests. *)
Definition ltb (a b : R) : bool := if Rlt_dec a b then true else false.
Definition leb (a b : R) : bool := if Rle_dec a b then true else false.
Definition gtb (a b : R) : bool := ltb b a.
Definition eqb (a b : R) : bool := if Req_dec_T a b then true else false.

(** [Math.hypot(x, y)]. *)
Definition hypot (x y : R) : R := sqrt (x * x + y * y).

(** [Math.pow(x, 2)]. *)
Definition pow2 (x : R) : R := x * x.

(** [Math.atan2(y, x)]: the angle of the point [(x, y)], in
    (-PI, PI]. *)
Definition atan2 (y x : R) : R :=
  if Rlt_dec 0 x then atan (y / x)
  else if Rlt_dec x 0 then
    if Rle_dec 0 y then atan (y / x) + PI else atan (y / x) - PI
  else if Rlt_dec 0 y then PI / 2
  else if Rlt_dec y 0 then - (PI / 2)
  else 0.

(** *** Values that leave the reals

    The value of an expression that contains a quotient or a square
    root: a real, [Infinity], [-Infinity] or [NaN].  The operations
    follow IEEE 754 on these four kinds; between reals they are the
    operations of the reals. *)
Inductive number : Type :=
| Num (r : R)
| PosInfinity
| NegInfinity
| NaN.

(** [-a] *)
Definition nneg (a : number) : number :=
  match a with
  | Num x => Num (- x)
  | PosInfinity => NegInfinity
  | NegInfinity => PosInfinity
  | NaN => NaN
  end.

(** [Math.abs(a)] *)
Definition nabs (a : number) : number :=
  match a with
  | Num x => Num (Rabs x)
  | PosInfinity | NegInfinity => PosInfinity
  | NaN => NaN
  end.

(** [a + b]: infinities of opposite sign add up to NaN. *)
Definition nadd (a b : number) : number :=
  match a, b with
  | NaN, _ | _, NaN => NaN
  | Num x, Num y => Num (x + y)
  | PosInfinity, NegInfinity | NegInfinity, PosInfinity => NaN
  | PosInfinity, _ | _, PosInfinity => PosInfinity
  | NegInfinity, _ | _, NegInfinity => NegInfinity
  end.

(** [a - b] *)
Definition nsub (a b : number) : number := nadd a (nneg b).

(** An infinity with the sign of a real factor; NaN for the factor 0. *)
Definition signed (positive : bool) (y : R) : number :=
  if ltb 0 y then (if positive then PosInfinity else NegInfinity)
  else if ltb y 0 then (if positive then NegInfinity else PosInfinity)
  else NaN.

(** [a * b]: an infinity times 0 is NaN. *)
Definition nmul (a b : number) : number :=
  match a, b with
  | NaN, _ | _, NaN => NaN
  | Num x, Num y => Num (x * y)
  | PosInfinity, Num y | Num y, PosInfinity => signed true y
  | NegInfinity, Num y | Num y, NegInfinity => signed false y
  | PosInfinity, PosInfinity | NegInfinity, NegInfinity => PosInfinity
  | PosInfinity, NegInfinity | NegInfinity, PosInfinity => NegInfinity
  end.

(** [a / b]: a non-zero real over 0 is an infinity with the sign of
    the real, 0 over 0 is NaN, a real over an infinity is 0, an
    infinity over an infinity is NaN. *)
Definition ndiv (a b : number) : number :=
  match a, b with
  | NaN, _ | _, NaN => NaN
  | Num x, Num y => if eqb y 0 then signed true x else Num (x / y)
  | Num _, (PosInfinity | NegInfinity) => Num 0
  | PosInfinity, Num y => if ltb y 0 then NegInfinity else PosInfinity
  | NegInfinity, Num y => if ltb y 0 then PosInfinity else NegInfinity
  | (PosInfinity | NegInfinity), (PosInfinity | NegInfinity) => NaN
  end.

(** [a < b] and [a > b]: false as soon as one side is NaN. *)
Definition nltb (a b : number) : bool :=
  match a, b with
  | NaN, _ | _, NaN => false
  | Num x, Num y => ltb x y
  | Num _, PosInfinity => true
  | Num _, NegInfinity => false
  | PosInfinity, _ => false
  | NegInfinity, NegInfinity => false
  | NegInfinity, _ => true
  end.

Definition ngtb (a b : number) : bool := nltb b a.

(** [Math.sqrt(x)]: NaN for a negative argument. *)
Definition Math_sqrt (x : R) : number :=
  if ltb x 0 then NaN else Num (sqrt x).

End JS.

(** ** JavaScript objects used as tables *)

Module JSObject.
Section Table.
Context {K V : Type} (eqb : K -> K -> bool).

Definition t := list (K * V).

(** [o[k]] *)
Fixpoint get (k : K) (o : t) : option V :=
  match o with
  | [] => None
  | (k', v) :: o' => if eqb k k' then Some v else get k o'
  end.

(** [k in o] *)
Definition has (k : K) (o : t) : bool :=
  match get k o with Some _ => true | None => false end.

(** [o[k] = v] *)
Fixpoint set (k : K) (v : V) (o : t) : t :=
  match o with
  | [] => [(k, v)]
  | (k', v') :: o' =>
      if eqb k k' then (k', v) :: o' else (k', v') :: set k v o'
  end.

(** [delete o[k]] *)
Fixpoint delete (k : K) (o : t) : t :=
  match o with
  | [] => []
  | (k', v') :: o' =>
      if eqb k k' then delete k o' else (k', v') :: delete k o'
  end.

(** [Object.keys(o)] *)
Definition keys (o : t) : list K := map fst o.

(** [Object.keys(o).map(id => o[id])] *)
Definition values (o : t) : list V := map snd o.

End Table.
End JSObject.

(** ** The flight entities read by the core *)

Module Point.
Record t : Type := mk { x : R; y : R; z : R; v : R }.
End Point.

(** Modelled from the spec: the class [FlightObject] is imported by the
  sources but not part of them.  Its fields are the ones the core
  reads; the identifier is the unique string of the data model. *)
Module FlightObject.
Record t : Type := mk {
  identifier : string;
  currentPoint : Point.t;
  currentRotation : R;
  velocity : R;
  rcs : R;
  isLaunched : bool;
  isDestroyed : bool
}.

(** Modelled from the spec: the capability [kill()] marks the object
    destroyed; it is independent per object and idempotent. *)
Definition kill (fo : t) : t :=
  mk (identifier fo) (currentPoint fo) (currentRotation fo) (velocity fo)
     (rcs fo) (isLaunched fo) true.
End FlightObject.

(** Modelled from the spec: the class [SAMissile] is imported by the
  sources but not part of them.  The identifier is a number used as
  a table key (an integer). *)
Module SAMissile.
Record t : Type := mk {
  identifier : Z;
  missileCurrentPoint : Point.t;
  velocity : R;
  missileTargetDistance : R;
  missileKillRadius : R;
  isDestroyedMissile : bool
}.

(** Modelled from the spec: the capability [destroyMissile()] raises
    the flag [isDestroyedMissile]. *)
Definition destroyMissile (m : t) : t :=
  mk (identifier m) (missileCurrentPoint m) (velocity m)
     (missileTargetDistance m) (missileKillRadius m) true.

(** Modelled from the spec: the beam tracker reads the key of a
    missile under the name [indentifier]; the specification hands the
    display collaborators the identifier of the missile, so the
    property is taken to hold it. *)
Definition indentifier (m : t) : Z := identifier m.
End SAMissile.

(** ** The detection engine, [class SAM] *)

Module SAM_PARAMS.
Definition RADAR_HEIGHT : R := 0.025.
Definition MIN_ELEVATION : R := -5 * (PI / 180).
Definition MAX_ELEVATION : R := 50 * (PI / 180).
Definition MAX_DISTANCE : R := 120.
Definition RADAR_AZIMUT_DETECT_ACCURACY : R := 4 * (PI / 180).
Definition RADAR_ELEVATION_DETECT_ACCURACY : R := 18 * (PI / 180).
Definition RADAR_DISTANCE_DETECT_ACCURACY : R := 0.1.
Definition RADAR_DISTANCE_WINDOW : R := 4.
Definition DESIGNATION_ANGLE_ACCURACY : R := 1 * (PI / 180).
Definition DESIGNATION_DISTANCE_ACCURACY : R := 1.
End SAM_PARAMS.

Module IRecognizedTargets.
Record t : Type := mk {
  identifier : string;
  distance : R;
  azimut : R;
  elevation : R;
  radialVelocity : R;
  velocity : R;
  height : R;
  param : R;
  x : R;
  y : R;
  rotation : R;
  size : R;
  visibilityK : R
}.
End IRecognizedTargets.

Module IFlightMissiles.
Record t : Type := mk {
  identifier : Z;
  x : R;
  y : R;
  z : R;
  velocity : R
}.
End IFlightMissiles.

(** The object literal returned by [getFlightObjectDesignation]. *)
Module Designation.
Record t : Type := mk {
  azimut : R;
  elevation : R;
  distance : R
}.
End Designation.

Module SAM.
Import SAM_PARAMS.

Record state : Type := mkState {
  isEnabled : bool;
  flightObjects : list FlightObject.t;
  missiles : list SAMissile.t;
  recognizedTargets : JSObject.t (K := string) (V := IRecognizedTargets.t);
  flightMissiles : JSObject.t (K := Z) (V := IFlightMissiles.t)
}.

(** What a call of the engine does to the outside: an event passed
    to [eventListener], or a capability invoked on a registered
    flight object or missile (named by its place in the registry). *)
Inductive effect : Type :=
| Emit_delete (id : string)
| Emit_update (targets : list IRecognizedTargets.t)
              (missiles : list IFlightMissiles.t)
| Emit_updateBIP (objects : list FlightObject.t)
| Call_kill (flightObject : nat)
| Call_destroyMissile (missile : nat).

(** The state of a freshly constructed engine. *)
Definition initial : state := mkState false [] [] [] [].

Definition setIsEnabled (value : bool) (s : state) : state :=
  mkState value (flightObjects s) (missiles s)
          (recognizedTargets s) (flightMissiles s).

Definition addFlightObject (fo : FlightObject.t) (s : state) : state :=
  mkState (isEnabled s) (flightObjects s ++ [fo]) (missiles s)
          (recognizedTargets s) (flightMissiles s).

Definition addMissile (m : SAMissile.t) (s : state) : state :=
  mkState (isEnabled s) (flightObjects s) (missiles s ++ [m])
          (recognizedTargets s) (flightMissiles s).

(** *** [recalculateTargets]: the constants of the loop body *)
Section LoopBody.
Variable flightObject : FlightObject.t.

Let currentPoint := FlightObject.currentPoint flightObject.

Definition targetDistance : R :=
  JS.hypot (Point.x currentPoint) (Point.y currentPoint).

Definition targetAzimut : R :=
  JS.atan2 (Point.y currentPoint) (Point.x currentPoint).

Definition targetHeightOffset : R :=
  Point.z currentPoint - RADAR_HEIGHT.

Definition targetElevation : R := targetHeightOffset / targetDistance.

Definition targetAngle : R :=
  (if JS.gtb targetAzimut (FlightObject.currentRotation flightObject)
   then targetAzimut - FlightObject.currentRotation flightObject
   else FlightObject.currentRotation flightObject - targetAzimut) - PI.

Definition radialVelocity : R :=
  FlightObject.velocity flightObject * cos targetAngle.

(** [Math.sqrt] of a negative height is NaN, and a comparison with NaN
    is false. *)
Definition isInVision (distance : R) : bool :=
  let height := Point.z currentPoint in
  JS.leb 0 height &&
  JS.gtb (sqrt (2 * 6371.009 * RADAR_HEIGHT) + sqrt (2 * 6371.009 * height))
         distance.

Definition isTargetVisible : bool := isInVision targetDistance.

Definition targetParam : R := Rabs (targetDistance * tan targetAngle).

Definition targetSize : R :=
  2 * sqrt (FlightObject.rcs flightObject / PI) / 1000.

(** At a ground distance of 0 [targetElevation] is an infinity or NaN,
    which is not strictly between the two bounds. *)
Definition inAllowedElevation : bool :=
  negb (JS.eqb targetDistance 0) &&
  (JS.gtb targetElevation MIN_ELEVATION && JS.ltb targetElevation MAX_ELEVATION).

Definition visibilityK : R :=
  (MAX_DISTANCE * FlightObject.rcs flightObject) / targetDistance.

(** The object literal stored under the flight object's identifier. *)
Definition recognizedTarget : IRecognizedTargets.t :=
  IRecognizedTargets.mk
    (FlightObject.identifier flightObject)
    targetDistance
    (if JS.ltb targetAzimut 0 then 2 * PI + targetAzimut else targetAzimut)
    targetElevation
    radialVelocity
    (Point.v currentPoint)
    (Point.z currentPoint)
    targetParam
    (Point.x currentPoint)
    (Point.y currentPoint)
    (FlightObject.currentRotation flightObject)
    targetSize
    (if JS.gtb visibilityK 1 then 1 else visibilityK).

(** One turn of the [for ... of this.flightObjects] loop. *)
Definition recalculateTargets_step
    (rt : JSObject.t (K := string) (V := IRecognizedTargets.t))
  : JSObject.t (K := string) (V := IRecognizedTargets.t) * list effect :=
  let id := FlightObject.identifier flightObject in
  if negb (FlightObject.isLaunched flightObject) then (rt, [])
  else if negb (FlightObject.isDestroyed flightObject) then
    if isTargetVisible && inAllowedElevation
    then (JSObject.set String.eqb id recognizedTarget rt, [])
    else (JSObject.delete String.eqb id rt, [Emit_delete id])
  else (JSObject.delete String.eqb id rt, [Emit_delete id]).
End LoopBody.

Fixpoint recalculateTargets_loop
    (objects : list FlightObject.t)
    (rt : JSObject.t (K := string) (V := IRecognizedTargets.t))
  : JSObject.t (K := string) (V := IRecognizedTargets.t) * list effect :=
  match objects with
  | [] => (rt, [])
  | flightObject :: rest =>
      let '(rt1, e1) := recalculateTargets_step flightObject rt in
      let '(rt2, e2) := recalculateTargets_loop rest rt1 in
      (rt2, e1 ++ e2)
  end.

Definition recalculateTargets (s : state) : state * list effect :=
  let '(rt, e) := recalculateTargets_loop (flightObjects s) (recognizedTargets s) in
  (mkState (isEnabled s) (flightObjects s) (missiles s) rt (flightMissiles s), e).

(** *** [recalculateMissiles] *)

(** The distance computed inside the [filter] callback. *)
Definition distanceToMissile (fo : FlightObject.t) (missile : SAMissile.t) : R :=
  let x := Point.x (FlightObject.currentPoint fo) in
  let y := Point.y (FlightObject.currentPoint fo) in
  let z := Point.z (FlightObject.currentPoint fo) in
  sqrt (JS.pow2 (x - Point.x (SAMissile.missileCurrentPoint missile)) +
        JS.pow2 (y - Point.y (SAMissile.missileCurrentPoint missile)) +
        JS.pow2 (z - Point.z (SAMissile.missileCurrentPoint missile))).

(** The [filter] predicate. *)
Definition inKillRadius (missile : SAMissile.t) (fo : FlightObject.t) : bool :=
  JS.leb (distanceToMissile fo missile) (SAMissile.missileKillRadius missile).

(** [this.flightObjects.filter(...).map((fo) => fo.kill())]: the objects
    are mutated in place, [i] is the registry index of the head. *)
Fixpoint killInRadius (missile : SAMissile.t) (i : nat)
    (objects : list FlightObject.t) : list FlightObject.t * list effect :=
  match objects with
  | [] => ([], [])
  | fo :: rest =>
      let '(rest', e) := killInRadius missile (S i) rest in
      if inKillRadius missile fo
      then (FlightObject.kill fo :: rest', Call_kill i :: e)
      else (fo :: rest', e)
  end.

Definition flightMissile (missile : SAMissile.t) : IFlightMissiles.t :=
  IFlightMissiles.mk
    (SAMissile.identifier missile)
    (Point.x (SAMissile.missileCurrentPoint missile))
    (Point.y (SAMissile.missileCurrentPoint missile))
    (Point.z (SAMissile.missileCurrentPoint missile))
    (SAMissile.velocity missile).

(** The [for (let missile of this.missiles)] loop; [i] is the registry
    index of the head of [pending]. *)
Fixpoint recalculateMissiles_loop (i : nat) (pending : list SAMissile.t)
    (objects : list FlightObject.t)
    (fm : JSObject.t (K := Z) (V := IFlightMissiles.t))
  : list SAMissile.t * list FlightObject.t *
    JSObject.t (K := Z) (V := IFlightMissiles.t) * list effect :=
  match pending with
  | [] => ([], objects, fm, [])
  | missile :: rest =>
      if negb (SAMissile.isDestroyedMissile missile) then
        let fm1 :=
          JSObject.set Z.eqb (SAMissile.identifier missile) (flightMissile missile) fm in
        if JS.leb (SAMissile.missileTargetDistance missile)
                  (SAMissile.missileKillRadius missile)
        then
          let missile1 := SAMissile.destroyMissile missile in
          let '(objects1, e1) := killInRadius missile1 0 objects in
          let '(ms, objects2, fm2, e2) :=
            recalculateMissiles_loop (S i) rest objects1 fm1 in
          (missile1 :: ms, objects2, fm2, Call_destroyMissile i :: e1 ++ e2)
        else
          let '(ms, objects2, fm2, e2) :=
            recalculateMissiles_loop (S i) rest objects fm1 in
          (missile :: ms, objects2, fm2, e2)
      else
        let fm1 := JSObject.delete Z.eqb (SAMissile.identifier missile) fm in
        let '(ms, objects2, fm2, e2) :=
          recalculateMissiles_loop (S i) rest objects fm1 in
        (missile :: ms, objects2, fm2, e2)
  end.

Definition recalculateMissiles (s : state) : state * list effect :=
  let '(ms, objects, fm, e) :=
    recalculateMissiles_loop 0 (missiles s) (flightObjects s) (flightMissiles s) in
  (mkState (isEnabled s) objects ms (recognizedTargets s) fm, e).

(** *** The two timers of [tick] *)

(** The callback of the first [setInterval]: one recognition and
    missile sweep. *)
Definition tick (s : state) : state * list effect :=
  if isEnabled s then
    let '(s1, e1) := recalculateTargets s in
    let '(s2, e2) := recalculateMissiles s1 in
    (s2, e1 ++ e2 ++
         [Emit_update (JSObject.values (recognizedTargets s2))
                      (JSObject.values (flightMissiles s2))])
  else (s, []).

(** The callback of the second [setInterval]. *)
Definition tickBIP (s : state) : state * list effect :=
  if isEnabled s then (s, [Emit_updateBIP (flightObjects s)]) else (s, []).

(** *** Correlation queries *)

Definition getTargetOnAzimutAndElevation (azimut elevation : R) (s : state)
  : option string :=
  let found :=
    find (fun id =>
            match JSObject.get String.eqb id (recognizedTargets s) with
            | Some target =>
                JS.leb (Rabs (IRecognizedTargets.azimut target - azimut))
                       (RADAR_AZIMUT_DETECT_ACCURACY / 2) &&
                JS.leb (Rabs (elevation - IRecognizedTargets.elevation target))
                       (RADAR_ELEVATION_DETECT_ACCURACY / 2)
            | None => false
            end)
         (JSObject.keys (recognizedTargets s)) in
  (* [... || null]: the empty string is falsy *)
  match found with
  | Some id => if String.eqb id EmptyString then None else Some id
  | None => None
  end.

Definition getTargetOnAzimutElevationAndDistance
    (azimut elevation distance : R) (s : state) : option string :=
  match getTargetOnAzimutAndElevation azimut elevation s with
  | None => None
  | Some id =>
      match JSObject.get String.eqb id (recognizedTargets s) with
      | Some target =>
          if JS.leb (Rabs (IRecognizedTargets.distance target - distance))
                    (RADAR_DISTANCE_DETECT_ACCURACY / 2)
          then Some id else None
      | None => None
      end
  end.


(** *** Vocabulary of the statements about the engine *)

(** The outside world mutating the fields of the registered flight
    objects and missiles between two ticks. *)
Definition worldMoves (objects : list FlightObject.t) (ms : list SAMissile.t)
    (s : state) : state :=
  mkState (isEnabled s) objects ms (recognizedTargets s) (flightMissiles s).

Abbreviation lookup := (JSObject.get String.eqb).
Abbreviation present := (JSObject.has String.eqb).

(** The filter of the loop body, for a launched object: alive, above
    the horizon and inside the elevation gate. *)
Definition passes (fo : FlightObject.t) : bool :=
  negb (FlightObject.isDestroyed fo) && (isTargetVisible fo && inAllowedElevation fo).

(** What the table holds under the identifier of [fo] after the turn
    of [fo], given what it held before. *)
Definition entryAfter (fo : FlightObject.t) (before : option IRecognizedTargets.t)
  : option IRecognizedTargets.t :=
  if FlightObject.isLaunched fo
  then if passes fo then Some (recognizedTarget fo) else None
  else before.

Definition is_delete (id : string) (e : effect) : bool :=
  match e with
  | Emit_delete id' => String.eqb id id'
  | _ => false
  end.

(** How many [delete] events for [id] a list of effects holds. *)
Definition deletes (id : string) (l : list effect) : nat :=
  List.length (filter (is_delete id) l).


(** The angle between two directions given in [0, 2 PI): the shorter
    way round the circle. *)
Definition angularSeparation (a b : R) : R :=
  Rmin (Rabs (a - b)) (2 * PI - Rabs (a - b)).

(** The test that opens the kill evaluation of a missile: it is live
    and its target is inside its kill radius. *)
Definition triggers (missile : SAMissile.t) : bool :=
  negb (SAMissile.isDestroyedMissile missile) &&
  JS.leb (SAMissile.missileTargetDistance missile)
         (SAMissile.missileKillRadius missile).

(** The Euclidean distance in space between two points. *)
Definition euclidean3 (p q : Point.t) : R :=
  sqrt ((Point.x p - Point.x q) ^ 2 + (Point.y p - Point.y q) ^ 2 +
        (Point.z p - Point.z q) ^ 2).

(** The results of the missile loop, one by one. *)
Definition loop_missiles (i : nat) (ms : list SAMissile.t)
    (objects : list FlightObject.t)
    (fm : JSObject.t (K := Z) (V := IFlightMissiles.t)) : list SAMissile.t :=
  fst (fst (fst (recalculateMissiles_loop i ms objects fm))).

Definition loop_objects (i : nat) (ms : list SAMissile.t)
    (objects : list FlightObject.t)
    (fm : JSObject.t (K := Z) (V := IFlightMissiles.t)) : list FlightObject.t :=
  snd (fst (fst (recalculateMissiles_loop i ms objects fm))).

Definition loop_table (i : nat) (ms : list SAMissile.t)
    (objects : list FlightObject.t)
    (fm : JSObject.t (K := Z) (V := IFlightMissiles.t))
  : JSObject.t (K := Z) (V := IFlightMissiles.t) :=
  snd (fst (recalculateMissiles_loop i ms objects fm)).

Definition loop_effects (i : nat) (ms : list SAMissile.t)
    (objects : list FlightObject.t)
    (fm : JSObject.t (K := Z) (V := IFlightMissiles.t)) : list effect :=
  snd (recalculateMissiles_loop i ms objects fm).

(** One turn of the missile loop, result by result. *)
Definition turn_missile (m : SAMissile.t) : SAMissile.t :=
  if triggers m then SAMissile.destroyMissile m else m.

Definition turn_objects (m : SAMissile.t) (objects : list FlightObject.t)
  : list FlightObject.t :=
  if triggers m then fst (killInRadius (SAMissile.destroyMissile m) 0 objects)
  else objects.

Definition turn_table (m : SAMissile.t)
    (fm : JSObject.t (K := Z) (V := IFlightMissiles.t))
  : JSObject.t (K := Z) (V := IFlightMissiles.t) :=
  if SAMissile.isDestroyedMissile m
  then JSObject.delete Z.eqb (SAMissile.identifier m) fm
  else JSObject.set Z.eqb (SAMissile.identifier m) (flightMissile m) fm.

Definition turn_effects (i : nat) (m : SAMissile.t) (objects : list FlightObject.t)
  : list effect :=
  if triggers m
  then Call_destroyMissile i :: snd (killInRadius (SAMissile.destroyMissile m) 0 objects)
  else [].


(** *** Designation *)

Definition getFlightObject (id : string) (s : state) : option FlightObject.t :=
  find (fun fo => String.eqb (FlightObject.identifier fo) id) (flightObjects s).

(** [random1], [random2] and [random3] are the values the calls of
    [Math.random()] return, in the order of the fields; the third call
    is made only when the target is within [MAX_DISTANCE]. *)
Definition getFlightObjectDesignation (id : string) (random1 random2 random3 : R)
    (s : state) : option Designation.t :=
  match getFlightObject id s with
  | None => None
  | Some target =>
      if FlightObject.isDestroyed target then None
      else
        Some (Designation.mk
                (targetAzimut target +
                 DESIGNATION_ANGLE_ACCURACY * (random1 * 2 - 1))
                (targetElevation target +
                 DESIGNATION_ANGLE_ACCURACY * (random2 * 2 - 1))
                (if JS.gtb (targetDistance target) MAX_DISTANCE
                 then MAX_DISTANCE - RADAR_DISTANCE_WINDOW
                 else targetDistance target +
                      DESIGNATION_DISTANCE_ACCURACY * (random3 * 2 - 1)))
  end.

(** The test of the [find] callback of [getTargetOnAzimutAndElevation]. *)
Definition correlates (azimut elevation : R) (target : IRecognizedTargets.t) : bool :=
  JS.leb (Rabs (IRecognizedTargets.azimut target - azimut))
         (RADAR_AZIMUT_DETECT_ACCURACY / 2) &&
  JS.leb (Rabs (elevation - IRecognizedTargets.elevation target))
         (RADAR_ELEVATION_DETECT_ACCURACY / 2).

Definition is_call (e : effect) : bool :=
  match e with
  | Call_kill _ | Call_destroyMissile _ => true
  | _ => false
  end.


(** *** Runs of the detection engine *)

(** What can happen to an engine: a call of a public method, the
    firing of one of its two timers, or the outside world mutating the
    fields of the registered flight objects and missiles (identifiers
    do not change and the registries are append-only). *)
Inductive op : Type :=
| SetIsEnabled (value : bool)
| AddFlightObject (flightObject : FlightObject.t)
| AddMissile (missile : SAMissile.t)
| TickFires
| BIPFires
| WorldMoves (objects : list FlightObject.t) (ms : list SAMissile.t).

Definition sameObjects (l l' : list FlightObject.t) : bool :=
  if list_eq_dec string_dec (map FlightObject.identifier l)
                            (map FlightObject.identifier l')
  then true else false.

Definition sameMissiles (l l' : list SAMissile.t) : bool :=
  if list_eq_dec Z.eq_dec (map SAMissile.identifier l)
                          (map SAMissile.identifier l')
  then true else false.

Definition perform (o : op) (s : state) : state * list effect :=
  match o with
  | SetIsEnabled value => (setIsEnabled value s, [])
  | AddFlightObject fo => (addFlightObject fo s, [])
  | AddMissile m => (addMissile m s, [])
  | TickFires => tick s
  | BIPFires => tickBIP s
  | WorldMoves objects ms =>
      if sameObjects objects (flightObjects s) && sameMissiles ms (missiles s)
      then (worldMoves objects ms s, [])
      else (s, [])
  end.

Fixpoint run (ops : list op) (s : state) : state * list effect :=
  match ops with
  | [] => (s, [])
  | o :: ops' =>
      let '(s1, e1) := perform o s in
      let '(s2, e2) := run ops' s1 in
      (s2, e1 ++ e2)
  end.

Definition reachable (s : state) : Prop :=
  exists ops, fst (run ops initial) = s.

(** A stored entry is sound: it carries its key as identifier, its
    azimuth is in [0, 2 PI), its elevation strictly inside the gate,
    its ground distance positive, its height not negative and its
    visibility coefficient at most 1. *)
Definition soundEntry (entry : string * IRecognizedTargets.t) : Prop :=
  IRecognizedTargets.identifier (snd entry) = fst entry /\
  0 <= IRecognizedTargets.azimut (snd entry) < 2 * PI /\
  MIN_ELEVATION < IRecognizedTargets.elevation (snd entry) < MAX_ELEVATION /\
  0 < IRecognizedTargets.distance (snd entry) /\
  0 <= IRecognizedTargets.height (snd entry) /\
  IRecognizedTargets.visibilityK (snd entry) <= 1.

(** The table of recognized targets is sound: every key is the
    identifier of a registered flight object and every entry is
    sound. *)
Definition soundTable (s : state) : Prop :=
  Forall (fun entry =>
            In (fst entry) (map FlightObject.identifier (flightObjects s)) /\
            soundEntry entry)
         (recognizedTargets s).

End SAM.

(** ** The beam tracker, [class SNR] *)

Module SNR.

(** A timer of [setInterval], represented by the flight object its
    callback closes over: a place in the append-only registry, or
    nothing when the [find] that fetched it returned [undefined]. *)
Definition timer : Type := option nat.

Record state : Type := mkState {
  azimut : R;                       (* rad *)
  verticalAngle : JS.number;        (* rad; a quotient by a ground distance *)
  targetDistance : R;               (* km *)
  minVerticalAngle : R;             (* degree *)
  maxVerticalAngle : R;             (* degree *)
  maxDistance : R;
  flightObjects : list FlightObject.t;
  rayWidth : R;                     (* degree *)
  distanceTrackingAccuracy : R;     (* km *)
  distanceDetectRange : R;          (* km *)
  radarHeight : R;                  (* m *)
  trackTargetInterval : option timer;
  trackTargetDistanceInterval : option timer;
  trackingTargetIdentifier : option string;
  eventListener : bool;             (* is a listener wired? *)
  missiles : list SAMissile.t
}.

(** Events handed to [eventListener], calls to the three display
    collaborators and to a missile's [destroyMissile()].  The
    telemetry payloads carry the number before its [toFixed]
    formatting. *)
Inductive effect : Type :=
| Emit_isCapturedByDirection (value : bool)
| Emit_isCapturedByDistance (value : bool)
| Emit_targetDistance (distance : R)
| Emit_targetVelocity (velocity : R)
| Emit_targetHeight (height : R)
| TargetScreen_setTargetParams (id : string)
    (visibilityK spotSize offsetX offsetY : JS.number)
| TargetScreen_removeTarget (id : string)
| TargetScreen_setMissileParams (id : Z) (offsetX offsetY : JS.number)
| TargetScreen_removeMissile (id : Z)
| DistanceScreen_setTargetParams (id : string) (visibilityK : JS.number)
    (distance : R) (spotSize spotLength : JS.number)
| DistanceScreen_removeTarget (id : string)
| DistanceScreen_setMissileParams (id : Z) (distance : R)
| DistanceScreen_removeMissile (id : Z)
| DistanceScreen_setDistance (distance : R)
| IndicatorsScreen_setAzimut (azimut : R)
| IndicatorsScreen_setVerticalAngle (verticalAngle : JS.number)
| Call_destroyMissile (missile : nat).

(** A method: the state after and the effects, in order. *)
Definition action : Type := state -> state * list effect.

Definition andThen (f g : action) : action :=
  fun s => let '(s1, e1) := f s in
           let '(s2, e2) := g s1 in
           (s2, e1 ++ e2).

Notation "f ;; g" := (andThen f g) (at level 61, right associativity).

Definition skip : action := fun s => (s, []).

(** *** Assignments to the fields that change *)

Definition set_azimut (a : R) (s : state) : state :=
  mkState a (verticalAngle s) (targetDistance s) (minVerticalAngle s)
    (maxVerticalAngle s) (maxDistance s) (flightObjects s) (rayWidth s)
    (distanceTrackingAccuracy s) (distanceDetectRange s) (radarHeight s)
    (trackTargetInterval s) (trackTargetDistanceInterval s)
    (trackingTargetIdentifier s) (eventListener s) (missiles s).

Definition set_verticalAngle (a : JS.number) (s : state) : state :=
  mkState (azimut s) a (targetDistance s) (minVerticalAngle s)
    (maxVerticalAngle s) (maxDistance s) (flightObjects s) (rayWidth s)
    (distanceTrackingAccuracy s) (distanceDetectRange s) (radarHeight s)
    (trackTargetInterval s) (trackTargetDistanceInterval s)
    (trackingTargetIdentifier s) (eventListener s) (missiles s).

Definition set_targetDistance (d : R) (s : state) : state :=
  mkState (azimut s) (verticalAngle s) d (minVerticalAngle s)
    (maxVerticalAngle s) (maxDistance s) (flightObjects s) (rayWidth s)
    (distanceTrackingAccuracy s) (distanceDetectRange s) (radarHeight s)
    (trackTargetInterval s) (trackTargetDistanceInterval s)
    (trackingTargetIdentifier s) (eventListener s) (missiles s).

Definition set_flightObjects (l : list FlightObject.t) (s : state) : state :=
  mkState (azimut s) (verticalAngle s) (targetDistance s) (minVerticalAngle s)
    (maxVerticalAngle s) (maxDistance s) l (rayWidth s)
    (distanceTrackingAccuracy s) (distanceDetectRange s) (radarHeight s)
    (trackTargetInterval s) (trackTargetDistanceInterval s)
    (trackingTargetIdentifier s) (eventListener s) (missiles s).

Definition set_rayWidth (w : R) (s : state) : state :=
  mkState (azimut s) (verticalAngle s) (targetDistance s) (minVerticalAngle s)
    (maxVerticalAngle s) (maxDistance s) (flightObjects s) w
    (distanceTrackingAccuracy s) (distanceDetectRange s) (radarHeight s)
    (trackTargetInterval s) (trackTargetDistanceInterval s)
    (trackingTargetIdentifier s) (eventListener s) (missiles s).

Definition set_trackTargetInterval (t : option timer) (s : state) : state :=
  mkState (azimut s) (verticalAngle s) (targetDistance s) (minVerticalAngle s)
    (maxVerticalAngle s) (maxDistance s) (flightObjects s) (rayWidth s)
    (distanceTrackingAccuracy s) (distanceDetectRange s) (radarHeight s)
    t (trackTargetDistanceInterval s)
    (trackingTargetIdentifier s) (eventListener s) (missiles s).

Definition set_trackTargetDistanceInterval (t : option timer) (s : state) : state :=
  mkState (azimut s) (verticalAngle s) (targetDistance s) (minVerticalAngle s)
    (maxVerticalAngle s) (maxDistance s) (flightObjects s) (rayWidth s)
    (distanceTrackingAccuracy s) (distanceDetectRange s) (radarHeight s)
    (trackTargetInterval s) t
    (trackingTargetIdentifier s) (eventListener s) (missiles s).

Definition set_trackingTargetIdentifier (id : option string) (s : state) : state :=
  mkState (azimut s) (verticalAngle s) (targetDistance s) (minVerticalAngle s)
    (maxVerticalAngle s) (maxDistance s) (flightObjects s) (rayWidth s)
    (distanceTrackingAccuracy s) (distanceDetectRange s) (radarHeight s)
    (trackTargetInterval s) (trackTargetDistanceInterval s)
    id (eventListener s) (missiles s).

Definition set_missiles (l : list SAMissile.t) (s : state) : state :=
  mkState (azimut s) (verticalAngle s) (targetDistance s) (minVerticalAngle s)
    (maxVerticalAngle s) (maxDistance s) (flightObjects s) (rayWidth s)
    (distanceTrackingAccuracy s) (distanceDetectRange s) (radarHeight s)
    (trackTargetInterval s) (trackTargetDistanceInterval s)
    (trackingTargetIdentifier s) (eventListener s) l.

(** [this.eventListener && this.eventListener(...)] *)
Definition emit (e : effect) : action :=
  fun s => (s, if eventListener s then [e] else []).

(** A call to a display collaborator. *)
Definition call (e : effect) : action := fun s => (s, [e]).

(** *** The constructor *)

Record ISNR : Type := mkISNR {
  cfg_distanceDetectRange : R;
  cfg_initialDistance : R;
  cfg_initialRayWidth : R;
  cfg_maxDistance : R
}.

Definition constructor (cfg : ISNR) : state :=
  mkState (- PI / 2) (JS.Num 0) (cfg_initialDistance cfg) (-5) 75
    (cfg_maxDistance cfg)
    [] (cfg_initialRayWidth cfg) 0.2 (cfg_distanceDetectRange cfg) 36
    None None None true [].

(** *** Manual steering *)

Definition setAzimut (azimut : R) : action :=
  fun s =>
    let azimut := if JS.gtb azimut 360 then azimut - 360 else azimut in
    let azimut := if JS.ltb azimut 0 then 360 + azimut else azimut in
    let azimut := if JS.gtb azimut 270 then azimut - 360 else azimut in
    let s' := set_azimut ((azimut - 90) * PI / 180) s in
    (s', [IndicatorsScreen_setAzimut (SNR.azimut s')]).

Definition azimutDeg (s : state) : R :=
  let azimut := (azimut s + PI / 2) * (180 / PI) in
  if JS.ltb azimut 0 then azimut + 360 else azimut.

Definition setVerticalAngle (verticalAngle : R) : action :=
  fun s =>
    if JS.gtb verticalAngle (minVerticalAngle s) &&
       JS.ltb verticalAngle (maxVerticalAngle s)
    then
      let s' := set_verticalAngle (JS.Num (verticalAngle * PI / 180)) s in
      (s', [IndicatorsScreen_setVerticalAngle (SNR.verticalAngle s')])
    else (s, []).

Definition setRadarRayWidth (deg : R) : action :=
  fun s => (set_rayWidth deg s, []).

Definition addFlightObject (flightObject : FlightObject.t) : action :=
  fun s => (set_flightObjects (flightObjects s ++ [flightObject]) s, []).

Definition addMissile (missile : SAMissile.t) : action :=
  fun s => (set_missiles (missiles s ++ [missile]) s, []).

Definition setIndicatorTargetDistance (distance : R) : action :=
  fun s =>
    if JS.gtb distance 0 && JS.ltb distance (maxDistance s)
    then (set_targetDistance distance s, [DistanceScreen_setDistance distance])
    else (s, []).

(** *** Geometry of a flight object seen from the radar *)

(** [array.forEach(body)] and [for (const a of array)], with the place
    of each element in the array. *)
Fixpoint forEach {A : Type} (body : nat -> A -> action) (i : nat) (l : list A)
  : action :=
  match l with
  | [] => skip
  | a :: l' => body i a ;; forEach body (S i) l'
  end.

(** [flightObject.identifier === this.trackingTargetIdentifier] *)
Definition isTracked (flightObject : FlightObject.t) (s : state) : bool :=
  match trackingTargetIdentifier s with
  | Some id => String.eqb (FlightObject.identifier flightObject) id
  | None => false
  end.

(** The local constants that the methods recompute, each from the
    flight object and the fields of [this]. *)
Definition targetAzimutAngle (flightObject : FlightObject.t) : R :=
  JS.atan2 (Point.y (FlightObject.currentPoint flightObject))
           (Point.x (FlightObject.currentPoint flightObject)).

Definition targetDistanceOf (flightObject : FlightObject.t) : R :=
  JS.hypot (Point.x (FlightObject.currentPoint flightObject))
           (Point.y (FlightObject.currentPoint flightObject)).

Definition targetHeightOffset (s : state) (flightObject : FlightObject.t) : R :=
  Point.z (FlightObject.currentPoint flightObject) - radarHeight s / 1000.

(** [targetHeightOffset / targetDistance]: an infinity or NaN for an
    object on the vertical of the radar. *)
Definition targetVerticalAngle (s : state) (flightObject : FlightObject.t)
  : JS.number :=
  JS.ndiv (JS.Num (targetHeightOffset s flightObject))
          (JS.Num (targetDistanceOf flightObject)).

Definition rayWidthRad (s : state) : R := rayWidth s * PI / 180.

(** The local [rayWidth] of the methods: the beam width at the range of
    the object. *)
Definition rayWidthAt (s : state) (flightObject : FlightObject.t) : R :=
  (PI * rayWidthRad s * targetDistanceOf flightObject) / 180.

(** [2 * Math.sqrt(flightObject.rcs / Math.PI) / 1000] *)
Definition targetSize (flightObject : FlightObject.t) : JS.number :=
  JS.ndiv (JS.nmul (JS.Num 2) (JS.Math_sqrt (FlightObject.rcs flightObject / PI)))
          (JS.Num 1000).

(** *** The capture state machines *)

Definition resetCaptureTargetByDistance : action :=
  (fun s => (set_trackTargetDistanceInterval None s, [])) ;;
  emit (Emit_isCapturedByDistance false).

(** [this.missiles.forEach((missile) => missile.destroyMissile())] *)
Definition destroyMissiles : action :=
  fun s => (set_missiles (map SAMissile.destroyMissile (missiles s)) s,
            map Call_destroyMissile (seq 0 (List.length (missiles s)))).

Definition resetCaptureTargetByDirection : action :=
  (fun s => (set_trackTargetInterval None s, [])) ;;
  (fun s => (set_trackingTargetIdentifier None s, [])) ;;
  emit (Emit_isCapturedByDirection false) ;;
  destroyMissiles ;;
  resetCaptureTargetByDistance.

(** [trackTargetByDirection(flightObject)]; [i] is the place of
    [flightObject] in the registry, which the new timer closes over. *)
Definition trackTargetByDirection (i : nat) (flightObject : FlightObject.t)
  : action :=
  (fun s => (set_trackingTargetIdentifier
               (Some (FlightObject.identifier flightObject)) s, [])) ;;
  (fun s => (set_trackTargetInterval (Some (Some i)) s, [])).

(** The quotient by the ground distance and the quotient by the beam
    width at that distance are not guarded: at a beam width of 0 the
    spot angle of an object with a positive cross-section is an
    infinity. *)
Definition targetSpotAngle (s : state) (flightObject : FlightObject.t)
  : JS.number :=
  JS.ndiv (JS.ndiv (targetSize flightObject)
                   (JS.Num (targetDistanceOf flightObject)))
          (JS.Num (rayWidthAt s flightObject)).

Definition isCapturedByAzimut (s : state) (flightObject : FlightObject.t) : bool :=
  JS.nltb (JS.Num (Rabs (azimut s - targetAzimutAngle flightObject)))
          (JS.nmul (JS.nabs (targetSpotAngle s flightObject)) (JS.Num 2)).

Definition isCapturedByVerticalAngle (s : state) (flightObject : FlightObject.t)
  : bool :=
  JS.nltb (JS.nabs (JS.nsub (verticalAngle s) (targetVerticalAngle s flightObject)))
          (JS.nabs (targetSpotAngle s flightObject)).

(** The callback of the [forEach] of [captureTargetByDirection]. *)
Definition captureTargetByDirection_step (i : nat) (flightObject : FlightObject.t)
  : action :=
  fun s =>
    if isCapturedByAzimut s flightObject && isCapturedByVerticalAngle s flightObject
    then (trackTargetByDirection i flightObject ;;
          emit (Emit_isCapturedByDirection true)) s
    else (s, []).

Definition captureTargetByDirection : action :=
  fun s => forEach captureTargetByDirection_step 0 (flightObjects s) s.

(** [array.find(p)] as the place of the first element that satisfies
    [p]. *)
Fixpoint findIndex {A : Type} (p : A -> bool) (i : nat) (l : list A) : option nat :=
  match l with
  | [] => None
  | a :: l' => if p a then Some i else findIndex p (S i) l'
  end.

Definition trackTargetByDistance : action :=
  fun s =>
    let flightObject :=
      findIndex (fun flightObject => isTracked flightObject s) 0 (flightObjects s) in
    (set_trackTargetDistanceInterval (Some flightObject) s, []).

(** The callback of the [forEach] of [captureTargetByDistance]. *)
Definition captureTargetByDistance_step (i : nat) (flightObject : FlightObject.t)
  : action :=
  fun s =>
    if JS.ltb (Rabs (targetDistanceOf flightObject - targetDistance s))
              (distanceDetectRange s) &&
       isTracked flightObject s
    then (trackTargetByDistance ;;
          emit (Emit_isCapturedByDistance true)) s
    else (s, []).

Definition captureTargetByDistance : action :=
  fun s => forEach captureTargetByDistance_step 0 (flightObjects s) s.

(** *** The callbacks of the two tracking timers *)

(** The callback installed by [trackTargetByDirection]. *)
Definition trackTargetInterval_callback : action :=
  fun s =>
    match trackTargetInterval s with
    | Some (Some i) =>
        match nth_error (flightObjects s) i with
        | Some flightObject =>
            ((fun s' =>
                if JS.nltb (targetVerticalAngle s' flightObject)
                           (JS.Num (minVerticalAngle s' * PI / 180)) ||
                   JS.ngtb (targetVerticalAngle s' flightObject)
                           (JS.Num (maxVerticalAngle s' * PI / 180))
                then (resetCaptureTargetByDirection ;;
                      resetCaptureTargetByDistance) s'
                else (s', [])) ;;
             (fun s' => (set_azimut (targetAzimutAngle flightObject) s', [])) ;;
             (fun s' => (set_verticalAngle
                           (targetVerticalAngle s' flightObject) s', []))) s
        | None => (s, [])
        end
    | _ => (s, [])
    end.

(** The callback installed by [trackTargetByDistance]. *)
Definition trackTargetDistanceInterval_callback : action :=
  fun s =>
    match trackTargetDistanceInterval s with
    | Some (Some i) =>
        match nth_error (flightObjects s) i with
        | Some flightObject =>
            ((fun s' =>
                if JS.gtb (targetDistanceOf flightObject) (maxDistance s')
                then (resetCaptureTargetByDirection ;;
                      resetCaptureTargetByDistance) s'
                else (s', [])) ;;
             (fun s' => (set_targetDistance (targetDistanceOf flightObject) s',
                         [DistanceScreen_setDistance (targetDistanceOf flightObject)]))) s
        | None => (s, [])
        end
    | _ => (s, [])
    end.

(** *** The per-tick projection *)

Definition isSome {A : Type} (o : option A) : bool :=
  match o with Some _ => true | None => false end.

(** One turn of the loop of [calculateTargetsParams]; [random] is the
    value [Math.random()] returns in this turn. *)
Definition calculateTargetsParams_step (random : R) (flightObject : FlightObject.t)
  : action :=
  let id := FlightObject.identifier flightObject in
  (fun s =>
     if FlightObject.isLaunched flightObject &&
        negb (FlightObject.isDestroyed flightObject)
     then
       let targetDistance := targetDistanceOf flightObject in
       let targetAzimutOffset := azimut s - targetAzimutAngle flightObject in
       let targetVerticalOffset :=
         JS.nsub (targetVerticalAngle s flightObject) (verticalAngle s) in
       if JS.ltb (Rabs targetAzimutOffset) (rayWidthRad s / 2) &&
          JS.nltb (JS.nabs targetVerticalOffset) (JS.Num (rayWidthRad s / 2))
       then
         let targetOffsetX :=
           JS.nneg (JS.nmul (JS.ndiv (JS.Num targetAzimutOffset)
                                     (JS.Num (rayWidthRad s))) (JS.Num 2)) in
         let targetOffsetY :=
           JS.nneg (JS.nmul (JS.ndiv targetVerticalOffset
                                     (JS.Num (rayWidthRad s))) (JS.Num 2)) in
         let rayWidth := rayWidthAt s flightObject in
         let targetSpotSize := JS.ndiv (targetSize flightObject) (JS.Num rayWidth) in
         let targetVisibilityK :=
           JS.ndiv (JS.Num targetDistance) (JS.Num (maxDistance s)) in
         let targetSpotLength :=
           JS.nmul (JS.nadd targetSpotSize
                            (JS.Num (distanceTrackingAccuracy s * random)))
                   (JS.Num rayWidth) in
         (s, [TargetScreen_setTargetParams id targetVisibilityK targetSpotSize
                targetOffsetX targetOffsetY;
              DistanceScreen_setTargetParams id targetVisibilityK targetDistance
                targetSpotSize targetSpotLength])
       else (s, [TargetScreen_removeTarget id; DistanceScreen_removeTarget id])
     else (s, [])) ;;
  (fun s =>
     if isTracked flightObject s && isSome (trackTargetInterval s) &&
        isSome (trackTargetDistanceInterval s) && eventListener s
     then (s, [Emit_targetDistance (targetDistance s);
               Emit_targetVelocity (FlightObject.velocity flightObject);
               Emit_targetHeight
                 (Rabs (Point.z (FlightObject.currentPoint flightObject) * 1000))])
     else (s, [])) ;;
  (fun s =>
     if FlightObject.isDestroyed flightObject && isTracked flightObject s
     then (resetCaptureTargetByDirection ;;
           resetCaptureTargetByDistance ;;
           call (TargetScreen_removeTarget id) ;;
           call (DistanceScreen_removeTarget id)) s
     else (s, [])).

Definition calculateTargetsParams (random : nat -> R) : action :=
  fun s =>
    forEach (fun i flightObject => calculateTargetsParams_step (random i) flightObject)
            0 (flightObjects s) s.

Definition calculateMissiles : action :=
  fun s =>
    forEach
      (fun _ missile s' =>
         let id := SAMissile.indentifier missile in
         if negb (SAMissile.isDestroyedMissile missile) then
           let p := SAMissile.missileCurrentPoint missile in
           let missileDistance := JS.hypot (Point.x p) (Point.y p) in
           let missileAzimutAngle := JS.atan2 (Point.y p) (Point.x p) in
           let missileHeightOffset := Point.z p - radarHeight s' / 1000 in
           let missileVerticalAngle :=
             JS.ndiv (JS.Num missileHeightOffset) (JS.Num missileDistance) in
           let missileAzimutOffset := azimut s' - missileAzimutAngle in
           let missileVerticalOffset :=
             JS.nsub missileVerticalAngle (verticalAngle s') in
           let missileOffsetX :=
             JS.nneg (JS.nmul (JS.ndiv (JS.Num missileAzimutOffset)
                                       (JS.Num (rayWidthRad s'))) (JS.Num 2)) in
           let missileOffsetY :=
             JS.nneg (JS.nmul (JS.ndiv missileVerticalOffset
                                       (JS.Num (rayWidthRad s'))) (JS.Num 2)) in
           (s', [TargetScreen_setMissileParams id missileOffsetX missileOffsetY;
                 DistanceScreen_setMissileParams id missileDistance])
         else (s', [TargetScreen_removeMissile id; DistanceScreen_removeMissile id]))
      0 (missiles s) s.

(** The callback of the timer installed by the constructor. *)
Definition interval_callback (random : nat -> R) : action :=
  calculateTargetsParams random ;; calculateMissiles.

(** *** Runs of the beam tracker *)

(** What can happen to a tracker: a call of a public method, the firing
    of one of its three timers, or the outside world mutating the
    fields of the registered flight objects and missiles (the registry
    itself is append-only and identifiers do not change). *)
Inductive op : Type :=
| SetAzimut (azimut : R)
| SetVerticalAngle (verticalAngle : R)
| SetRadarRayWidth (deg : R)
| AddFlightObject (flightObject : FlightObject.t)
| AddMissile (missile : SAMissile.t)
| SetIndicatorTargetDistance (distance : R)
| CaptureTargetByDirection
| ResetCaptureTargetByDirection
| CaptureTargetByDistance
| ResetCaptureTargetByDistance
| IntervalFires (random : nat -> R)
| TrackTargetIntervalFires
| TrackTargetDistanceIntervalFires
| WorldMoves (flightObjects : list FlightObject.t) (missiles : list SAMissile.t).

Definition sameIdentifiers (l l' : list FlightObject.t) : bool :=
  if list_eq_dec string_dec (map FlightObject.identifier l)
                            (map FlightObject.identifier l')
  then true else false.

Definition perform (o : op) : action :=
  match o with
  | SetAzimut a => setAzimut a
  | SetVerticalAngle a => setVerticalAngle a
  | SetRadarRayWidth d => setRadarRayWidth d
  | AddFlightObject fo => addFlightObject fo
  | AddMissile m => addMissile m
  | SetIndicatorTargetDistance d => setIndicatorTargetDistance d
  | CaptureTargetByDirection => captureTargetByDirection
  | ResetCaptureTargetByDirection => resetCaptureTargetByDirection
  | CaptureTargetByDistance => captureTargetByDistance
  | ResetCaptureTargetByDistance => resetCaptureTargetByDistance
  | IntervalFires random => interval_callback random
  | TrackTargetIntervalFires => trackTargetInterval_callback
  | TrackTargetDistanceIntervalFires => trackTargetDistanceInterval_callback
  | WorldMoves fos ms =>
      fun s =>
        if sameIdentifiers fos (flightObjects s) &&
           Nat.eqb (List.length ms) (List.length (missiles s))
        then (set_missiles ms (set_flightObjects fos s), [])
        else (s, [])
  end.

Fixpoint run (ops : list op) : action :=
  match ops with
  | [] => skip
  | o :: ops' => perform o ;; run ops'
  end.

(** The states a tracker can be in: those some run reaches from a
    freshly constructed one. *)
Definition reachable (s : state) : Prop :=
  exists cfg ops, fst (run ops (constructor cfg)) = s.

(** *** Vocabulary of the statements about the tracker *)

(** How many effects of a list satisfy a test. *)
Definition count (p : effect -> bool) (l : list effect) : nat :=
  List.length (filter p l).

Definition is_isCapturedByDirection (value : bool) (e : effect) : bool :=
  match e with
  | Emit_isCapturedByDirection v => Bool.eqb v value
  | _ => false
  end.

Definition is_isCapturedByDistance (value : bool) (e : effect) : bool :=
  match e with
  | Emit_isCapturedByDistance v => Bool.eqb v value
  | _ => false
  end.

(** The two tolerances of [captureTargetByDirection] together. *)
Definition meetsTolerances (s : state) (flightObject : FlightObject.t) : bool :=
  isCapturedByAzimut s flightObject && isCapturedByVerticalAngle s flightObject.

(** The test of [captureTargetByDistance]. *)
Definition inDistanceWindow (s : state) (flightObject : FlightObject.t) : bool :=
  JS.ltb (Rabs (targetDistanceOf flightObject - targetDistance s))
         (distanceDetectRange s) &&
  isTracked flightObject s.

(** The identifier of the flight object the distance timer follows,
    when distance capture is tracking. *)
Definition distanceTarget (s : state) : option string :=
  match trackTargetDistanceInterval s with
  | Some (Some i) =>
      match nth_error (flightObjects s) i with
      | Some flightObject => Some (FlightObject.identifier flightObject)
      | None => None
      end
  | _ => None
  end.

(** The capture state is coherent: distance capture is tracking only
    while direction capture is, and direction capture has a timer
    exactly when it has a target. *)
Definition coherent (s : state) : Prop :=
  (isSome (trackTargetDistanceInterval s) = true ->
   isSome (trackingTargetIdentifier s) = true) /\
  isSome (trackTargetInterval s) = isSome (trackingTargetIdentifier s).

(** The last element of a list that satisfies a test, with its place;
    [i] is the place of the head. *)
Fixpoint lastMatch (p : FlightObject.t -> bool) (i : nat)
    (l : list FlightObject.t) : option (nat * FlightObject.t) :=
  match l with
  | [] => None
  | flightObject :: l' =>
      match lastMatch p (S i) l' with
      | Some r => Some r
      | None => if p flightObject then Some (i, flightObject) else None
      end
  end.

(** The state once direction capture follows the object at place [i]. *)
Definition tracking (i : nat) (flightObject : FlightObject.t) (s : state) : state :=
  set_trackTargetInterval (Some (Some i))
    (set_trackingTargetIdentifier (Some (FlightObject.identifier flightObject)) s).


(** *** The remaining getters *)

Definition trackedTarget (s : state) : option FlightObject.t :=
  find (fun fo => isTracked fo s) (flightObjects s).

Definition verticalAngleDeg (s : state) : JS.number :=
  JS.nmul (verticalAngle s) (JS.Num (180 / PI)).

Definition radarRayWidth (s : state) : R := rayWidth s.

Definition indicatorTargetDistance (s : state) : R := targetDistance s.

(** Effects by kind. *)
Definition is_telemetry (e : effect) : bool :=
  match e with
  | Emit_targetDistance _ | Emit_targetVelocity _ | Emit_targetHeight _ => true
  | _ => false
  end.

Definition is_destroyMissile (e : effect) : bool :=
  match e with
  | Call_destroyMissile _ => true
  | _ => false
  end.

(** The direction timer follows a registered object that carries the
    tracked identifier. *)
Definition anchored (s : state) : Prop :=
  forall id, trackingTargetIdentifier s = Some id ->
    exists i fo,
      trackTargetInterval s = Some (Some i) /\
      nth_error (flightObjects s) i = Some fo /\
      FlightObject.identifier fo = id.

(** Runs made of manual steering only. *)
Definition is_steering (o : op) : bool :=
  match o with
  | SetAzimut _ | SetVerticalAngle _ | SetRadarRayWidth _
  | SetIndicatorTargetDistance _ => true
  | _ => false
  end.

(** The manual controls are inside their bounds: the vertical angle
    is a real strictly between [minVerticalAngle] and
    [maxVerticalAngle] degrees, the range cursor strictly between 0
    and [maxDistance]. *)
Definition steeredInBounds (s : state) : Prop :=
  (exists v, verticalAngle s = JS.Num v /\
             minVerticalAngle s * PI / 180 < v < maxVerticalAngle s * PI / 180) /\
  0 < targetDistance s < maxDistance s.

(** The local constants of [calculateTargetsParams] that decide and
    place the spot of an object on the target screen. *)
Definition targetAzimutOffset (s : state) (flightObject : FlightObject.t) : R :=
  azimut s - targetAzimutAngle flightObject.

Definition targetVerticalOffset (s : state) (flightObject : FlightObject.t)
  : JS.number :=
  JS.nsub (targetVerticalAngle s flightObject) (verticalAngle s).

Definition inBeam (s : state) (flightObject : FlightObject.t) : bool :=
  JS.ltb (Rabs (targetAzimutOffset s flightObject)) (rayWidthRad s / 2) &&
  JS.nltb (JS.nabs (targetVerticalOffset s flightObject))
          (JS.Num (rayWidthRad s / 2)).

Definition targetOffsetX (s : state) (flightObject : FlightObject.t) : JS.number :=
  JS.nneg (JS.nmul (JS.ndiv (JS.Num (targetAzimutOffset s flightObject))
                            (JS.Num (rayWidthRad s))) (JS.Num 2)).

Definition targetOffsetY (s : state) (flightObject : FlightObject.t) : JS.number :=
  JS.nneg (JS.nmul (JS.ndiv (targetVerticalOffset s flightObject)
                            (JS.Num (rayWidthRad s))) (JS.Num 2)).

(** The test that guards the three telemetry events. *)
Definition reportsTelemetry (s : state) (flightObject : FlightObject.t) : bool :=
  isTracked flightObject s && isSome (trackTargetInterval s) &&
  isSome (trackTargetDistanceInterval s) && eventListener s.

(** A spot placed on the target screen lies inside the unit square:
    both offsets are reals strictly between -1 and 1. *)
Definition onScreen (e : effect) : Prop :=
  match e with
  | TargetScreen_setTargetParams _ _ _ offsetX offsetY =>
      exists x y, offsetX = JS.Num x /\ offsetY = JS.Num y /\
                  -1 < x < 1 /\ -1 < y < 1
  | _ => True
  end.

(** What a firing of the direction timer that follows the object at
    place [i] leaves of the captures: either it keeps them and emits
    nothing, or it resets both and destroys every missile. *)
Definition keepsCaptures (s : state) (i : nat) : Prop :=
  trackingTargetIdentifier (fst (trackTargetInterval_callback s)) =
    trackingTargetIdentifier s /\
  trackTargetInterval (fst (trackTargetInterval_callback s)) = Some (Some i) /\
  trackTargetDistanceInterval (fst (trackTargetInterval_callback s)) =
    trackTargetDistanceInterval s /\
  snd (trackTargetInterval_callback s) = [].

Definition resetsCaptures (s : state) : Prop :=
  trackingTargetIdentifier (fst (trackTargetInterval_callback s)) = None /\
  trackTargetInterval (fst (trackTargetInterval_callback s)) = None /\
  trackTargetDistanceInterval (fst (trackTargetInterval_callback s)) = None /\
  missiles (fst (trackTargetInterval_callback s)) =
    map SAMissile.destroyMissile (missiles s).

End SNR.

(** ** The supply panel store, which switches the engine on and off *)

Module SupplyPanel.

(** A pending [setTimeout], represented by what its callback does. *)
Inductive timeout : Type :=
| PowerOn              (* after 3000 ms *)
| MainRadarOn          (* after 1000 ms *)
| TransmitterOn.       (* after 500 ms *)

Record state : Type := mkState {
  isEnabledPower : bool;
  isEnabledMainRadar : bool;
  isEnabledTargetRadarTransmitter : bool;
  sam : SAM.state;                 (* [this.sam]: the engine, the one class with [setIsEnabled] *)
  timeouts : list timeout          (* pending, oldest first *)
}.

(** Calls to the sound player and to the other stores. *)
Inductive effect : Type :=
| Sounds_startEngine
| Sounds_stopEngine
| MainRadar_setDefaultValues
| CapturePanel_setDefaultValues
| TargetRadar_setDefaultValues
| Targets_setTargets_empty
| WeaponPanel_setDefaultValues.

(** The store as created, around a freshly constructed engine. *)
Definition initial : state := mkState false false false SAM.initial [].

Definition setDefaultValues (s : state) : state :=
  mkState false false false (sam s) (timeouts s).

Definition setEnabledPower (value : bool) (s : state) : state * list effect :=
  if value then
    (mkState (isEnabledPower s) (isEnabledMainRadar s)
       (isEnabledTargetRadarTransmitter s) (sam s) (timeouts s ++ [PowerOn]),
     [Sounds_startEngine])
  else
    let s1 := mkState (isEnabledPower s) (isEnabledMainRadar s)
                (isEnabledTargetRadarTransmitter s)
                (SAM.setIsEnabled false (sam s)) (timeouts s) in
    (setDefaultValues s1,
     [Sounds_stopEngine; MainRadar_setDefaultValues; CapturePanel_setDefaultValues;
      TargetRadar_setDefaultValues; Targets_setTargets_empty;
      WeaponPanel_setDefaultValues]).

Definition setEnablerMainRadar (value : bool) (s : state) : state * list effect :=
  if negb (isEnabledPower s) then (s, [])
  else if value then
    (mkState (isEnabledPower s) (isEnabledMainRadar s)
       (isEnabledTargetRadarTransmitter s) (sam s) (timeouts s ++ [MainRadarOn]), [])
  else
    (mkState (isEnabledPower s) false
       (isEnabledTargetRadarTransmitter s) (sam s) (timeouts s), []).

Definition setIsEnabledTargetRadarTransmitter (value : bool) (s : state)
  : state * list effect :=
  if negb (isEnabledPower s) then (s, [])
  else if value then
    (mkState (isEnabledPower s) (isEnabledMainRadar s)
       (isEnabledTargetRadarTransmitter s) (sam s) (timeouts s ++ [TransmitterOn]), [])
  else
    (mkState (isEnabledPower s) (isEnabledMainRadar s)
       false (sam s) (timeouts s), []).

(** The pending timeout at place [i] fires: it leaves the list and its
    callback runs (the [clearTimeout] inside the callback has nothing
    left to clear). *)
Definition timeoutFires (i : nat) (s : state) : state * list effect :=
  match nth_error (timeouts s) i with
  | None => (s, [])
  | Some t =>
      let pending := firstn i (timeouts s) ++ skipn (S i) (timeouts s) in
      match t with
      | PowerOn =>
          (mkState true (isEnabledMainRadar s) (isEnabledTargetRadarTransmitter s)
             (SAM.setIsEnabled true (sam s)) pending, [])
      | MainRadarOn =>
          (mkState (isEnabledPower s) true (isEnabledTargetRadarTransmitter s)
             (sam s) pending, [])
      | TransmitterOn =>
          (mkState (isEnabledPower s) (isEnabledMainRadar s) true
             (sam s) pending, [])
      end
  end.

(** What can happen to the store: a press on one of the six buttons of
    the panel, a pending timeout firing (the order in which they fire
    is left open), or the engine doing something by itself. *)
Inductive op : Type :=
| SetEnabledPower (value : bool)
| SetEnablerMainRadar (value : bool)
| SetIsEnabledTargetRadarTransmitter (value : bool)
| TimeoutFires (i : nat)
| Engine (o : SAM.op).

Definition perform (o : op) (s : state) : state * list effect :=
  match o with
  | SetEnabledPower value => setEnabledPower value s
  | SetEnablerMainRadar value => setEnablerMainRadar value s
  | SetIsEnabledTargetRadarTransmitter value =>
      setIsEnabledTargetRadarTransmitter value s
  | TimeoutFires i => timeoutFires i s
  | Engine o' =>
      (mkState (isEnabledPower s) (isEnabledMainRadar s)
         (isEnabledTargetRadarTransmitter s) (fst (SAM.perform o' (sam s)))
         (timeouts s), [])
  end.

Fixpoint run (ops : list op) (s : state) : state * list effect :=
  match ops with
  | [] => (s, [])
  | o :: ops' =>
      let '(s1, e1) := perform o s in
      let '(s2, e2) := run ops' s1 in
      (s2, e1 ++ e2)
  end.

(** Only the store switches the engine: the engine's own steps are
    anything but [setIsEnabled]. *)
Definition switchedByStore (o : op) : bool :=
  match o with
  | Engine (SAM.SetIsEnabled _) => false
  | _ => true
  end.

(** The two switches that depend on the power. *)
Definition is_dependentSwitch (o : op) : bool :=
  match o with
  | SetEnablerMainRadar _ | SetIsEnabledTargetRadarTransmitter _ => true
  | _ => false
  end.

End SupplyPanel.

(** ** The earlier version of the detection engine *)

Module LegacySAM_PARAMS.
Definition RADAR_HEIGHT : R := 0.025.
Definition MIN_ELEVATION : R := 0.
Definition MAX_ELEVATION : R := 50 * (PI / 180).
Definition MAX_DISTANCE : R := 50.
End LegacySAM_PARAMS.

Module LegacyRecognizedTargets.
Record t : Type := mk {
  distance : R;
  azimut : R;
  elevation : R;
  radialVelocity : R;
  velocity : R;
  height : R;
  param : R;
  x : R;
  y : R;
  rotation : R;
  size : R
}.
End LegacyRecognizedTargets.

Module LegacyFlightMissiles.
Record t : Type := mk {
  x : R;
  y : R;
  z : R;
  velocity : R
}.
End LegacyFlightMissiles.

Module LegacySAM.
Import LegacySAM_PARAMS.

(** The class has no [addMissile]: the list [missiles] is private and
    nothing ever pushes to it. *)
Record state : Type := mkState {
  isEnabled : bool;
  flightObjects : list FlightObject.t;
  missiles : list SAMissile.t;
  recognizedTargets : JSObject.t (K := string) (V := LegacyRecognizedTargets.t);
  flightMissiles : JSObject.t (K := Z) (V := LegacyFlightMissiles.t)
}.

(** The one call of [eventListener], with copies of the two tables. *)
Inductive effect : Type :=
| Emit (targets : JSObject.t (K := string) (V := LegacyRecognizedTargets.t))
       (missiles : JSObject.t (K := Z) (V := LegacyFlightMissiles.t)).

Definition initial : state := mkState false [] [] [] [].

Definition setIsEnabled (value : bool) (s : state) : state :=
  mkState value (flightObjects s) (missiles s)
          (recognizedTargets s) (flightMissiles s).

Definition addFlightObject (fo : FlightObject.t) (s : state) : state :=
  mkState (isEnabled s) (flightObjects s ++ [fo]) (missiles s)
          (recognizedTargets s) (flightMissiles s).

(** *** [recalculateTargets] *)

(** The ground distance, the azimuth, the aspect angle, the radial
    velocity, the parameter and the size are computed by the same
    expressions as in the current version. *)
Section LoopBody.
Variable flightObject : FlightObject.t.

Let currentPoint := FlightObject.currentPoint flightObject.

Definition targetHeightOffset : R := Point.z currentPoint - RADAR_HEIGHT.

Definition targetElevation : R :=
  targetHeightOffset / SAM.targetDistance flightObject.

(** [Math.sqrt] of a negative height is NaN, and a comparison with NaN
    is false. *)
Definition isInVision (distance : R) : bool :=
  let height := Point.z currentPoint in
  JS.leb 0 height &&
  JS.gtb (sqrt (2 * 6371.009 * RADAR_HEIGHT) + sqrt (2 * 6371.009 * height))
         distance.

Definition isTargetVisible : bool := isInVision (SAM.targetDistance flightObject).

(** At a ground distance of 0 [targetElevation] is an infinity or NaN,
    which is not strictly between the two bounds. *)
Definition inAllowedElevation : bool :=
  negb (JS.eqb (SAM.targetDistance flightObject) 0) &&
  (JS.gtb targetElevation MIN_ELEVATION && JS.ltb targetElevation MAX_ELEVATION).

Definition recognizedTarget : LegacyRecognizedTargets.t :=
  LegacyRecognizedTargets.mk
    (SAM.targetDistance flightObject)
    (SAM.targetAzimut flightObject)
    targetElevation
    (SAM.radialVelocity flightObject)
    (Point.v currentPoint)
    (Point.z currentPoint)
    (SAM.targetParam flightObject)
    (Point.x currentPoint)
    (Point.y currentPoint)
    (FlightObject.currentRotation flightObject)
    (SAM.targetSize flightObject).

(** One turn of the [for ... of this.flightObjects] loop. *)
Definition recalculateTargets_step
    (rt : JSObject.t (K := string) (V := LegacyRecognizedTargets.t))
  : JSObject.t (K := string) (V := LegacyRecognizedTargets.t) :=
  let id := FlightObject.identifier flightObject in
  if negb (FlightObject.isLaunched flightObject) then rt
  else if negb (FlightObject.isDestroyed flightObject) then
    if isTargetVisible && inAllowedElevation
    then JSObject.set String.eqb id recognizedTarget rt
    else JSObject.delete String.eqb id rt
  else JSObject.delete String.eqb id rt.
End LoopBody.

Definition recalculateTargets_loop
    (objects : list FlightObject.t)
    (rt : JSObject.t (K := string) (V := LegacyRecognizedTargets.t))
  : JSObject.t (K := string) (V := LegacyRecognizedTargets.t) :=
  fold_left (fun rt' flightObject => recalculateTargets_step flightObject rt')
            objects rt.

Definition recalculateTargets (s : state) : state :=
  mkState (isEnabled s) (flightObjects s) (missiles s)
    (recalculateTargets_loop (flightObjects s) (recognizedTargets s))
    (flightMissiles s).

(** *** [recalculateMissiles] *)

Definition flightMissile (missile : SAMissile.t) : LegacyFlightMissiles.t :=
  LegacyFlightMissiles.mk
    (Point.x (SAMissile.missileCurrentPoint missile))
    (Point.y (SAMissile.missileCurrentPoint missile))
    (Point.z (SAMissile.missileCurrentPoint missile))
    (SAMissile.velocity missile).

Definition recalculateMissiles_step (missile : SAMissile.t)
    (fm : JSObject.t (K := Z) (V := LegacyFlightMissiles.t))
  : JSObject.t (K := Z) (V := LegacyFlightMissiles.t) :=
  if negb (SAMissile.isDestroyedMissile missile)
  then JSObject.set Z.eqb (SAMissile.identifier missile) (flightMissile missile) fm
  else JSObject.delete Z.eqb (SAMissile.identifier missile) fm.

Definition recalculateMissiles (s : state) : state :=
  mkState (isEnabled s) (flightObjects s) (missiles s) (recognizedTargets s)
    (fold_left (fun fm missile => recalculateMissiles_step missile fm)
               (missiles s) (flightMissiles s)).

(** The callback of [setInterval]. *)
Definition tick (s : state) : state * list effect :=
  if isEnabled s then
    let s2 := recalculateMissiles (recalculateTargets s) in
    (s2, [Emit (recognizedTargets s2) (flightMissiles s2)])
  else (s, []).

(** *** Runs of the earlier engine *)

(** What can happen to it: a call of one of its two public methods,
    the timer firing, or the outside world mutating the fields of the
    registered flight objects (identifiers do not change and the
    registry is append-only). *)
Inductive op : Type :=
| SetIsEnabled (value : bool)
| AddFlightObject (flightObject : FlightObject.t)
| TickFires
| WorldMoves (objects : list FlightObject.t).

Definition worldMoves (objects : list FlightObject.t) (s : state) : state :=
  mkState (isEnabled s) objects (missiles s) (recognizedTargets s)
          (flightMissiles s).

Definition perform (o : op) (s : state) : state * list effect :=
  match o with
  | SetIsEnabled value => (setIsEnabled value s, [])
  | AddFlightObject fo => (addFlightObject fo s, [])
  | TickFires => tick s
  | WorldMoves objects =>
      if SAM.sameObjects objects (flightObjects s)
      then (worldMoves objects s, [])
      else (s, [])
  end.

Fixpoint run (ops : list op) (s : state) : state * list effect :=
  match ops with
  | [] => (s, [])
  | o :: ops' =>
      let '(s1, e1) := perform o s in
      let '(s2, e2) := run ops' s1 in
      (s2, e1 ++ e2)
  end.

(** *** The two versions side by side *)

(** The same history, lived by the current version. *)
Definition current (o : op) : SAM.op :=
  match o with
  | SetIsEnabled value => SAM.SetIsEnabled value
  | AddFlightObject fo => SAM.AddFlightObject fo
  | TickFires => SAM.TickFires
  | WorldMoves objects => SAM.WorldMoves objects []
  end.

(** An entry of the current table carries the figures of an entry of
    the earlier one, with the azimuth brought into [0, 2 PI). *)
Definition carries (entry : IRecognizedTargets.t)
    (legacy : LegacyRecognizedTargets.t) : Prop :=
  IRecognizedTargets.distance entry = LegacyRecognizedTargets.distance legacy /\
  IRecognizedTargets.azimut entry =
    (if JS.ltb (LegacyRecognizedTargets.azimut legacy) 0
     then 2 * PI + LegacyRecognizedTargets.azimut legacy
     else LegacyRecognizedTargets.azimut legacy) /\
  IRecognizedTargets.elevation entry = LegacyRecognizedTargets.elevation legacy /\
  IRecognizedTargets.radialVelocity entry =
    LegacyRecognizedTargets.radialVelocity legacy /\
  IRecognizedTargets.velocity entry = LegacyRecognizedTargets.velocity legacy /\
  IRecognizedTargets.height entry = LegacyRecognizedTargets.height legacy /\
  IRecognizedTargets.param entry = LegacyRecognizedTargets.param legacy /\
  IRecognizedTargets.x entry = LegacyRecognizedTargets.x legacy /\
  IRecognizedTargets.y entry = LegacyRecognizedTargets.y legacy /\
  IRecognizedTargets.rotation entry = LegacyRecognizedTargets.rotation legacy /\
  IRecognizedTargets.size entry = LegacyRecognizedTargets.size legacy.

Definition embeds
    (legacy : JSObject.t (K := string) (V := LegacyRecognizedTargets.t))
    (table : JSObject.t (K := string) (V := IRecognizedTargets.t)) : Prop :=
  forall id entry,
    JSObject.get String.eqb id legacy = Some entry ->
    exists entry',
      JSObject.get String.eqb id table = Some entry' /\ carries entry' entry.

(** The two engines side by side: same switch, same registry, no
    missile on the current side, and the current table carrying the
    earlier one. *)
Definition abreast (l : state) (c : SAM.state) : Prop :=
  isEnabled l = SAM.isEnabled c /\
  flightObjects l = SAM.flightObjects c /\
  SAM.missiles c = [] /\
  embeds (recognizedTargets l) (SAM.recognizedTargets c).

(** The missile table handed to the listener. *)
Definition reportedMissiles (e : effect)
  : JSObject.t (K := Z) (V := LegacyFlightMissiles.t) :=
  match e with Emit _ ms => ms end.

(** What the earlier version guarantees of a stored entry: the object
    is above the radar, at a positive ground distance, its elevation
    is positive, and the azimuth is as [Math.atan2] returns it. *)
Definition inLegacyRange (entry : LegacyRecognizedTargets.t) : Prop :=
  MIN_ELEVATION < LegacyRecognizedTargets.elevation entry < MAX_ELEVATION /\
  0 < LegacyRecognizedTargets.distance entry /\
  RADAR_HEIGHT < LegacyRecognizedTargets.height entry /\
  - PI < LegacyRecognizedTargets.azimut entry <= PI.

End LegacySAM.

(** ** The clock of the supply panel, [drawClock] *)

Module Clock.

(** [d.getHours()], [d.getMinutes()] and [d.getSeconds()] are whole
    numbers. *)
Definition hoursAngle (hour minutes : nat) : R :=
  ((PI * 2) * ((INR hour * 5 + (INR minutes / 60) * 5) / 60)) - ((PI * 2) / 4).

Definition minutesAngle (minutes : nat) : R :=
  (INR minutes / 60) * 2 * PI - PI / 2.

Definition secondsAngle (seconds : nat) : R :=
  (INR seconds / 60) * 2 * PI - PI / 2.

(** The angle of the numeral drawn at turn [h] of the loop, and the
    text drawn there. *)
Definition numeralAngle (h : nat) : R :=
  ((2 * PI) / 12) * INR h - PI / 2.

Definition numeralText (h : nat) : nat := if Nat.eqb h 0 then 12%nat else h.

(** The point at [length] from the centre in direction [angle]: the
    anchor of a numeral ([outerX], [outerY]) for the radius of the
    dial, the end of a hand ([lineTo]) for its length. *)
Definition pointAt (length angle : R) : R * R :=
  (length * cos angle, length * sin angle).

Definition outer (radius : R) (h : nat) : R * R := pointAt radius (numeralAngle h).

Definition hourHand (hour minutes : nat) : R * R :=
  pointAt 30 (hoursAngle hour minutes).

Definition minuteHand (minutes : nat) : R * R := pointAt 40 (minutesAngle minutes).

Definition secondHand (seconds : nat) : R * R := pointAt 38 (secondsAngle seconds).

End Clock.

(** * Concrete engagements

    The inputs at which the statements below are tried. *)

Module Scenarios.

(** The scenario of the specification: an object 50 km east of the
    radar at 5 km height, flying at 300 with heading PI (towards the
    radar), radar cross-section 10. *)
Definition inbound (id : string) : FlightObject.t :=
  FlightObject.mk id (Point.mk 50 0 5 300) PI 300 10 true false.

(** The same object before launch, and after it was shot down. *)
Definition grounded (id : string) : FlightObject.t :=
  FlightObject.mk id (Point.mk 50 0 5 300) PI 300 10 false false.

Definition downed (id : string) : FlightObject.t :=
  FlightObject.mk id (Point.mk 50 0 5 300) PI 300 10 true true.

(** An enabled engine with one registered object. *)
Definition engine (fo : FlightObject.t) : SAM.state :=
  SAM.setIsEnabled true (SAM.addFlightObject fo SAM.initial).

(** The object is recognized on a first tick, then the world takes
    its [isLaunched] flag back. *)
Definition relanded : SAM.state :=
  SAM.worldMoves [grounded "a"] [] (fst (SAM.tick (engine (inbound "a")))).

(** The object is recognized on a first tick, then it is destroyed. *)
Definition shotDown : SAM.state :=
  SAM.worldMoves [downed "a"] [] (fst (SAM.tick (engine (inbound "a")))).

(** An object 50 km east and half a kilometre south of the radar: its
    bearing is a little below a full turn. *)
Definition grazing (id : string) : FlightObject.t :=
  FlightObject.mk id (Point.mk 50 (-0.5) 5 300) PI 300 10 true false.

(** The kill scenario of the specification: a missile half a kilometre
    from its target with a kill radius of one kilometre, one flight
    object half a kilometre from the missile and one forty kilometres
    away. *)
Definition interceptor : SAMissile.t :=
  SAMissile.mk 1 (Point.mk 10 0 5 0) 1200 0.5 1 false.

Definition nearObject : FlightObject.t :=
  FlightObject.mk "near" (Point.mk 10.5 0 5 300) PI 300 10 true false.

Definition farObject : FlightObject.t :=
  FlightObject.mk "far" (Point.mk 50 0 5 300) PI 300 10 true false.

Definition sweep : SAM.state :=
  SAM.setIsEnabled true
    (SAM.addMissile interceptor
       (SAM.addFlightObject farObject
          (SAM.addFlightObject nearObject SAM.initial))).

(** A freshly constructed tracker: detection window 2 km, range cursor
    at 50 km, beam width 4 degrees, maximal range 80 km. *)
Definition tracker : SNR.state :=
  SNR.constructor (SNR.mkISNR 2 50 4 80).

(** An object on the beam axis of a tracker steered to azimuth 0 and
    vertical angle 0: due east at ground distance [range], at the
    height of the antenna. *)
Definition onAxis (id : string) (range : R) : FlightObject.t :=
  FlightObject.mk id (Point.mk range 0 0.036 300) PI 300 10 true false.

(** The tracker is steered to azimuth 0 and two objects on the same
    line of sight, at 50 km and at 60 km, are registered. *)
Definition approach : list SNR.op :=
  [SNR.SetAzimut 90;
   SNR.AddFlightObject (onAxis "first" 50);
   SNR.AddFlightObject (onAxis "second" 60)].

(** The object at 50 km is captured by direction and by distance; a
    second object is then registered on the same line of sight at
    60 km and direction capture is attempted again. *)
Definition recapture : list SNR.op :=
  [SNR.SetAzimut 90;
   SNR.AddFlightObject (onAxis "first" 50);
   SNR.CaptureTargetByDirection;
   SNR.CaptureTargetByDistance;
   SNR.AddFlightObject (onAxis "second" 60);
   SNR.CaptureTargetByDirection].

(** The object at 60 km after it was shot down, and the tracker of the
    recapture run once the world has recorded that. *)
Definition onAxisDowned (id : string) (range : R) : FlightObject.t :=
  FlightObject.mk id (Point.mk range 0 0.036 300) PI 300 10 true true.

Definition lost : SNR.state :=
  fst (SNR.perform
         (SNR.WorldMoves [onAxis "first" 50; onAxisDowned "second" 60] [])
         (fst (SNR.run recapture tracker))).

(** A missile still twenty kilometres from its target, flying past
    [nearObject] at half a kilometre, and one that has detonated
    before; an enabled engine with both registered. *)
Definition cruising : SAMissile.t :=
  SAMissile.mk 2 (Point.mk 10 0 5 0) 1200 20 1 false.

Definition spent : SAMissile.t :=
  SAMissile.mk 3 (Point.mk 10 0 5 0) 0 0.5 1 true.

Definition patrol : SAM.state :=
  SAM.setIsEnabled true
    (SAM.addMissile spent
       (SAM.addMissile cruising
          (SAM.addFlightObject nearObject SAM.initial))).

(** The tracker steered to azimuth 0 with the two objects on the line
    of sight registered, after a direction capture: it follows the
    object at 60 km by direction and nothing by distance. *)
Definition directionOnly : list SNR.op :=
  [SNR.SetAzimut 90;
   SNR.AddFlightObject (onAxis "first" 50);
   SNR.AddFlightObject (onAxis "second" 60);
   SNR.CaptureTargetByDirection].

(** The tracker of the recapture run once the object it follows, at
    60 km, has moved to the vertical of the radar at 5 km height. *)
Definition overheadObject (id : string) : FlightObject.t :=
  FlightObject.mk id (Point.mk 0 0 5 300) PI 300 10 true false.

Definition overflown : SNR.state :=
  fst (SNR.perform
         (SNR.WorldMoves [onAxis "first" 50; overheadObject "second"] [])
         (fst (SNR.run recapture tracker))).

(** A fresh tracker, whose beam points south, with the object due east
    at 50 km registered. *)
Definition abeam : SNR.state :=
  fst (SNR.addFlightObject (onAxis "first" 50) tracker).

End Scenarios.

(** * Properties *)

(** ** Comparisons and [Math] *)

Module JSFacts.

Lemma ltb_true (a b : R) : a < b -> JS.ltb a b = true.
Proof. intros H. unfold JS.ltb. destruct (Rlt_dec a b); [reflexivity | contradiction]. Qed.

Lemma ltb_false (a b : R) : b <= a -> JS.ltb a b = false.
Proof. intros H. unfold JS.ltb. destruct (Rlt_dec a b); [lra | reflexivity]. Qed.

Lemma ltb_iff (a b : R) : JS.ltb a b = true <-> a < b.
Proof.
  unfold JS.ltb. destruct (Rlt_dec a b); split; intros; auto; discriminate.
Qed.

Lemma leb_true (a b : R) : a <= b -> JS.leb a b = true.
Proof. intros H. unfold JS.leb. destruct (Rle_dec a b); [reflexivity | contradiction]. Qed.

Lemma leb_false (a b : R) : b < a -> JS.leb a b = false.
Proof. intros H. unfold JS.leb. destruct (Rle_dec a b); [lra | reflexivity]. Qed.

Lemma leb_iff (a b : R) : JS.leb a b = true <-> a <= b.
Proof.
  unfold JS.leb. destruct (Rle_dec a b); split; intros; auto; discriminate.
Qed.

Lemma eqb_false (a b : R) : a <> b -> JS.eqb a b = false.
Proof. intros H. unfold JS.eqb. destruct (Req_dec_T a b); [contradiction | reflexivity]. Qed.

Lemma gtb_true (a b : R) : b < a -> JS.gtb a b = true.
Proof. apply ltb_true. Qed.

Lemma gtb_false (a b : R) : a <= b -> JS.gtb a b = false.
Proof. apply ltb_false. Qed.

Lemma gtb_iff (a b : R) : JS.gtb a b = true <-> b < a.
Proof. apply ltb_iff. Qed.

Lemma PI_gt_3 : 3 < PI.
Proof. generalize PI2_3_2; lra. Qed.

Lemma hypot_nonneg (x y : R) : 0 <= JS.hypot x y.
Proof. apply sqrt_pos. Qed.

Lemma hypot_x_0 (x : R) : 0 <= x -> JS.hypot x 0 = x.
Proof.
  intros Hx. unfold JS.hypot.
  replace (x * x + 0 * 0) with (x * x) by ring.
  now apply sqrt_square.
Qed.

Lemma atan2_pos_x (y x : R) : 0 < x -> JS.atan2 y x = atan (y / x).
Proof.
  intros Hx. unfold JS.atan2. destruct (Rlt_dec 0 x); [reflexivity | contradiction].
Qed.

(** [Math.atan2] ranges over (-PI, PI]. *)
Lemma atan2_bound (y x : R) : - PI < JS.atan2 y x <= PI.
Proof.
  pose proof PI_RGT_0 as Hpi.
  unfold JS.atan2.
  destruct (Rlt_dec 0 x) as [Hx | Hx].
  - pose proof (atan_bound (y / x)). lra.
  - destruct (Rlt_dec x 0) as [Hx' | Hx'].
    + pose proof (atan_bound (y / x)) as Hb.
      destruct (Rle_dec 0 y) as [Hy | Hy].
      * assert (atan (y / x) <= 0).
        { assert (Hq : y / x <= 0).
          { unfold Rdiv.
            assert (/ x < 0) by now apply Rinv_lt_0_compat.
            nra. }
          destruct Hq as [Hq | Hq].
          - left. rewrite <- atan_0. now apply atan_increasing.
          - rewrite Hq, atan_0. lra. }
        lra.
      * assert (0 < atan (y / x)).
        { rewrite <- atan_0. apply atan_increasing.
          unfold Rdiv.
          assert (/ x < 0) by now apply Rinv_lt_0_compat.
          nra. }
        lra.
    + destruct (Rlt_dec 0 y); [lra |].
      destruct (Rlt_dec y 0); lra.
Qed.

Lemma sin_PI90_lb : 1 / 100 < sin (PI / 90).
Proof.
  pose proof PI_gt_3 as H3. pose proof PI_4 as H4.
  destruct (pre_sin_bound (PI / 90) 0) as [Hlb _]; try lra.
  eapply Rlt_le_trans; [| exact Hlb].
  unfold sin_approx, sin_term.
  cbn [sum_f_R0 Nat.mul Nat.add pow fact INR].
  set (a := PI / 90).
  assert (Ha : 3 / 90 < a <= 4 / 90) by (unfold a; lra).
  clearbody a.
  assert (Hb : 0 <= a * a <= 1 / 400) by nra.
  assert (Hc : a * (a * a) <= a * (1 / 400)) by nra.
  lra.
Qed.

Lemma tan_PI90_lb : 1 / 100 < tan (PI / 90).
Proof.
  pose proof PI_gt_3 as H3. pose proof PI_4 as H4.
  pose proof sin_PI90_lb as Hs.
  assert (Hc : 0 < cos (PI / 90)) by (apply cos_gt_0; lra).
  pose proof (COS_bound (PI / 90)) as [_ Hc1].
  unfold tan.
  apply Rlt_le_trans with (sin (PI / 90)); [exact Hs |].
  apply Rle_trans with (sin (PI / 90) / 1); [lra |].
  unfold Rdiv. apply Rmult_le_compat_l; [lra |].
  apply Rinv_le_contravar; lra.
Qed.

(** The angle of a slope of one in a hundred is below two degrees. *)
Lemma atan_small : 0 < atan (1 / 100) < PI / 90.
Proof.
  pose proof PI_gt_3 as H3. pose proof PI_4 as H4.
  split.
  - rewrite <- atan_0. apply atan_increasing. lra.
  - rewrite <- (atan_tan (PI / 90)) by lra.
    apply atan_increasing, tan_PI90_lb.
Qed.

(** Between reals, with a divisor other than 0, the quotient is the
    quotient of the reals. *)
Lemma ndiv_Num (x y : R) : y <> 0 -> JS.ndiv (JS.Num x) (JS.Num y) = JS.Num (x / y).
Proof. intros Hy. unfold JS.ndiv. now rewrite eqb_false. Qed.

Lemma number_eqb_refl (a : R) : JS.eqb a a = true.
Proof. unfold JS.eqb. destruct (Req_dec_T a a); [reflexivity | contradiction]. Qed.

Lemma ndiv_zero (x : R) : JS.ndiv (JS.Num x) (JS.Num 0) = JS.signed true x.
Proof. unfold JS.ndiv. now rewrite number_eqb_refl. Qed.

Lemma signed_pos (positive : bool) (y : R) :
  0 < y -> JS.signed positive y = if positive then JS.PosInfinity else JS.NegInfinity.
Proof. intros Hy. unfold JS.signed. now rewrite ltb_true. Qed.

Lemma signed_neg (positive : bool) (y : R) :
  y < 0 -> JS.signed positive y = if positive then JS.NegInfinity else JS.PosInfinity.
Proof.
  intros Hy. unfold JS.signed.
  rewrite ltb_false by lra. now rewrite ltb_true.
Qed.

Lemma signed_zero (positive : bool) : JS.signed positive 0 = JS.NaN.
Proof. unfold JS.signed. now rewrite !ltb_false by lra. Qed.

Lemma Math_sqrt_Num (x : R) : 0 <= x -> JS.Math_sqrt x = JS.Num (sqrt x).
Proof. intros Hx. unfold JS.Math_sqrt. now rewrite ltb_false. Qed.

Lemma Math_sqrt_NaN (x : R) : x < 0 -> JS.Math_sqrt x = JS.NaN.
Proof. intros Hx. unfold JS.Math_sqrt. now rewrite ltb_true. Qed.

(** A number whose absolute value is below a real is a real. *)
Lemma nabs_below (a : JS.number) (b : R) :
  JS.nltb (JS.nabs a) (JS.Num b) = true ->
  exists x, a = JS.Num x /\ Rabs x < b.
Proof.
  destruct a as [x | | |]; cbn [JS.nabs JS.nltb]; try discriminate.
  intros H. apply ltb_iff in H. eauto.
Qed.

End JSFacts.

(** ** Tables *)

Module JSObjectFacts.
Section Table.
Context {K V : Type} (eqb : K -> K -> bool).
Hypothesis eqb_eq : forall a b, eqb a b = true <-> a = b.

Lemma eqb_refl (k : K) : eqb k k = true.
Proof. now apply eqb_eq. Qed.

Lemma eqb_neq (k k' : K) : k <> k' -> eqb k k' = false.
Proof.
  intros H. destruct (eqb k k') eqn:E; [| reflexivity].
  apply eqb_eq in E. contradiction.
Qed.

Lemma get_set_same (k : K) (v : V) (o : JSObject.t) :
  JSObject.get eqb k (JSObject.set eqb k v o) = Some v.
Proof.
  induction o as [| [k' v'] o IH]; simpl.
  - now rewrite eqb_refl.
  - destruct (eqb k k') eqn:E; simpl; rewrite E; auto.
Qed.

Lemma get_set_other (k k' : K) (v : V) (o : JSObject.t) :
  k <> k' ->
  JSObject.get eqb k' (JSObject.set eqb k v o) = JSObject.get eqb k' o.
Proof.
  intros Hne. induction o as [| [k0 v0] o IH]; simpl.
  - rewrite eqb_neq; auto.
  - destruct (eqb k k0) eqn:E; simpl.
    + apply eqb_eq in E. subst k0. rewrite (eqb_neq k' k); auto.
    + now rewrite IH.
Qed.

Lemma get_delete_same (k : K) (o : JSObject.t (V := V)) :
  JSObject.get eqb k (JSObject.delete eqb k o) = None.
Proof.
  induction o as [| [k' v'] o IH]; simpl; auto.
  destruct (eqb k k') eqn:E; simpl; auto. now rewrite E.
Qed.

Lemma get_delete_other (k k' : K) (o : JSObject.t (V := V)) :
  k <> k' ->
  JSObject.get eqb k' (JSObject.delete eqb k o) = JSObject.get eqb k' o.
Proof.
  intros Hne. induction o as [| [k0 v0] o IH]; simpl; auto.
  destruct (eqb k k0) eqn:E; simpl.
  - apply eqb_eq in E. subst k0. rewrite (eqb_neq k' k); auto.
  - now rewrite IH.
Qed.

End Table.
End JSObjectFacts.

(** ** The detection engine: recognition *)

Module SAMFacts.
Import SAM.

Lemma deletes_app (id : string) (l l' : list effect) :
  deletes id (l ++ l') = (deletes id l + deletes id l')%nat.
Proof. unfold deletes. now rewrite filter_app, length_app. Qed.

Lemma step_other (fo : FlightObject.t) (id : string) rt :
  FlightObject.identifier fo <> id ->
  lookup id (fst (recalculateTargets_step fo rt)) = lookup id rt.
Proof.
  intros Hne. unfold recalculateTargets_step.
  destruct (FlightObject.isLaunched fo); simpl; auto.
  destruct (FlightObject.isDestroyed fo); simpl.
  - apply JSObjectFacts.get_delete_other; auto using String.eqb_eq.
  - destruct (isTargetVisible fo && inAllowedElevation fo); simpl.
    + apply JSObjectFacts.get_set_other; auto using String.eqb_eq.
    + apply JSObjectFacts.get_delete_other; auto using String.eqb_eq.
Qed.

Lemma step_entry (fo : FlightObject.t) rt :
  lookup (FlightObject.identifier fo) (fst (recalculateTargets_step fo rt)) =
  entryAfter fo (lookup (FlightObject.identifier fo) rt).
Proof.
  unfold recalculateTargets_step, entryAfter, passes.
  destruct (FlightObject.isLaunched fo); simpl; auto.
  destruct (FlightObject.isDestroyed fo); simpl.
  - apply JSObjectFacts.get_delete_same; auto using String.eqb_eq.
  - destruct (isTargetVisible fo && inAllowedElevation fo); simpl.
    + apply JSObjectFacts.get_set_same; auto using String.eqb_eq.
    + apply JSObjectFacts.get_delete_same; auto using String.eqb_eq.
Qed.

Lemma step_deletes_other (fo : FlightObject.t) (id : string) rt :
  FlightObject.identifier fo <> id ->
  deletes id (snd (recalculateTargets_step fo rt)) = 0%nat.
Proof.
  intros Hne. unfold recalculateTargets_step, deletes.
  assert (E : String.eqb id (FlightObject.identifier fo) = false)
    by (apply String.eqb_neq; congruence).
  destruct (FlightObject.isLaunched fo); simpl; auto.
  destruct (FlightObject.isDestroyed fo); simpl.
  - now rewrite E.
  - destruct (isTargetVisible fo && inAllowedElevation fo); simpl; auto.
    now rewrite E.
Qed.

Lemma step_deletes (fo : FlightObject.t) rt :
  deletes (FlightObject.identifier fo) (snd (recalculateTargets_step fo rt)) =
  if FlightObject.isLaunched fo && negb (passes fo) then 1%nat else 0%nat.
Proof.
  unfold recalculateTargets_step, deletes, passes.
  destruct (FlightObject.isLaunched fo); simpl; auto.
  destruct (FlightObject.isDestroyed fo); simpl.
  - now rewrite String.eqb_refl.
  - destruct (isTargetVisible fo && inAllowedElevation fo); simpl; auto.
    now rewrite String.eqb_refl.
Qed.

Lemma targets_loop_cons (fo : FlightObject.t) (fos : list FlightObject.t) rt :
  recalculateTargets_loop (fo :: fos) rt =
  (fst (recalculateTargets_loop fos (fst (recalculateTargets_step fo rt))),
   snd (recalculateTargets_step fo rt) ++
   snd (recalculateTargets_loop fos (fst (recalculateTargets_step fo rt)))).
Proof.
  simpl. destruct (recalculateTargets_step fo rt) as [rt1 e1]. simpl.
  now destruct (recalculateTargets_loop fos rt1).
Qed.

(** An identifier no registered object carries is left alone. *)
Lemma loop_other (fos : list FlightObject.t) (id : string) rt :
  ~ In id (map FlightObject.identifier fos) ->
  lookup id (fst (recalculateTargets_loop fos rt)) = lookup id rt /\
  deletes id (snd (recalculateTargets_loop fos rt)) = 0%nat.
Proof.
  revert rt. induction fos as [| fo fos IH]; intros rt Hin.
  - simpl. auto.
  - rewrite targets_loop_cons. cbn [fst snd].
    simpl in Hin.
    assert (Hne : FlightObject.identifier fo <> id) by tauto.
    assert (Hin' : ~ In id (map FlightObject.identifier fos)) by tauto.
    destruct (IH (fst (recalculateTargets_step fo rt)) Hin') as [IH1 IH2].
    split.
    + rewrite IH1. now apply step_other.
    + rewrite deletes_app, IH2, step_deletes_other; auto.
Qed.

(** With unique identifiers, the turn of an object alone decides its
    entry and its [delete] event. *)
Lemma loop_entry (fos : list FlightObject.t) (fo : FlightObject.t) rt :
  NoDup (map FlightObject.identifier fos) ->
  In fo fos ->
  lookup (FlightObject.identifier fo) (fst (recalculateTargets_loop fos rt)) =
    entryAfter fo (lookup (FlightObject.identifier fo) rt) /\
  deletes (FlightObject.identifier fo) (snd (recalculateTargets_loop fos rt)) =
    if FlightObject.isLaunched fo && negb (passes fo) then 1%nat else 0%nat.
Proof.
  revert rt. induction fos as [| fo' fos IH]; intros rt Hnd Hin.
  - contradiction.
  - rewrite targets_loop_cons. cbn [fst snd].
    simpl in Hnd. inversion Hnd as [| ? ? Hnotin Hnd']; subst.
    destruct Hin as [-> | Hin].
    + destruct (loop_other fos (FlightObject.identifier fo)
                  (fst (recalculateTargets_step fo rt)) Hnotin) as [H1 H2].
      rewrite H1, deletes_app, H2, step_entry, step_deletes.
      split; [reflexivity | lia].
    + assert (Hne : FlightObject.identifier fo' <> FlightObject.identifier fo).
      { intros E. apply Hnotin. rewrite E. now apply in_map. }
      destruct (IH (fst (recalculateTargets_step fo' rt)) Hnd' Hin) as [H1 H2].
      rewrite H1, deletes_app, H2, step_other, step_deletes_other; auto.
Qed.

(** The missile sweep neither touches the table of recognized targets
    nor emits [delete]. *)
Lemma killInRadius_deletes (id : string) m i fos :
  deletes id (snd (killInRadius m i fos)) = 0%nat.
Proof.
  revert i. induction fos as [| fo fos IH]; intros i; simpl; auto.
  specialize (IH (S i)).
  destruct (killInRadius m (S i) fos) as [r e]. simpl in IH.
  destruct (inKillRadius m fo); simpl; auto.
Qed.

Lemma recalculateMissiles_loop_deletes (id : string) i ms fos fm :
  deletes id (snd (recalculateMissiles_loop i ms fos fm)) = 0%nat.
Proof.
  revert i fos fm. induction ms as [| m ms IH]; intros i fos fm; simpl; auto.
  destruct (SAMissile.isDestroyedMissile m); simpl.
  - specialize (IH (S i) fos (JSObject.delete Z.eqb (SAMissile.identifier m) fm)).
    destruct (recalculateMissiles_loop (S i) ms fos _) as [[[a b] c] d]. auto.
  - destruct (JS.leb _ _).
    + pose proof (killInRadius_deletes id (SAMissile.destroyMissile m) 0 fos) as Hk.
      destruct (killInRadius _ 0 fos) as [fos1 e1]. simpl in Hk.
      specialize (IH (S i) fos1
                    (JSObject.set Z.eqb (SAMissile.identifier m) (flightMissile m) fm)).
      destruct (recalculateMissiles_loop (S i) ms fos1 _) as [[[a b] c] d].
      simpl in *. change (Call_destroyMissile i :: e1 ++ d)
        with ([Call_destroyMissile i] ++ e1 ++ d).
      rewrite !deletes_app, Hk, IH. reflexivity.
    + specialize (IH (S i) fos
                    (JSObject.set Z.eqb (SAMissile.identifier m) (flightMissile m) fm)).
      destruct (recalculateMissiles_loop (S i) ms fos _) as [[[a b] c] d]. auto.
Qed.

Lemma recalculateMissiles_recognizedTargets (s : state) :
  recognizedTargets (fst (recalculateMissiles s)) = recognizedTargets s.
Proof.
  unfold recalculateMissiles.
  now destruct (recalculateMissiles_loop 0 _ _ _) as [[[a b] c] d].
Qed.

Lemma recalculateMissiles_deletes (id : string) (s : state) :
  deletes id (snd (recalculateMissiles s)) = 0%nat.
Proof.
  unfold recalculateMissiles.
  pose proof (recalculateMissiles_loop_deletes id 0 (missiles s) (flightObjects s)
                (flightMissiles s)) as H.
  now destruct (recalculateMissiles_loop 0 _ _ _) as [[[a b] c] d].
Qed.

(** A tick of an enabled engine, seen from the table of recognized
    targets and from the [delete] events. *)
Lemma tick_recognizedTargets (s : state) :
  isEnabled s = true ->
  recognizedTargets (fst (tick s)) =
  fst (recalculateTargets_loop (flightObjects s) (recognizedTargets s)).
Proof.
  intros En. unfold tick. rewrite En. unfold recalculateTargets.
  destruct (recalculateTargets_loop _ _) as [rt e].
  pose proof (recalculateMissiles_recognizedTargets
                (mkState (isEnabled s) (flightObjects s) (missiles s) rt
                         (flightMissiles s))) as H.
  destruct (recalculateMissiles _) as [s2 e2]. simpl in *. exact H.
Qed.

Lemma tick_deletes (id : string) (s : state) :
  isEnabled s = true ->
  deletes id (snd (tick s)) =
  deletes id (snd (recalculateTargets_loop (flightObjects s) (recognizedTargets s))).
Proof.
  intros En. unfold tick. rewrite En. unfold recalculateTargets.
  destruct (recalculateTargets_loop _ _) as [rt e].
  pose proof (recalculateMissiles_deletes id
                (mkState (isEnabled s) (flightObjects s) (missiles s) rt
                         (flightMissiles s))) as H.
  destruct (recalculateMissiles _) as [s2 e2]. simpl in *.
  rewrite !deletes_app, H. simpl. unfold deletes at 2. simpl. lia.
Qed.

Lemma tick_disabled (s : state) : isEnabled s = false -> tick s = (s, []).
Proof. intros En. unfold tick. now rewrite En. Qed.

End SAMFacts.

(** ** The scenario of the specification *)

Module ScenarioFacts.
Import SAM SAMFacts Scenarios.

Lemma inbound_targetDistance (id : string) : targetDistance (inbound id) = 50.
Proof. unfold targetDistance; simpl. apply JSFacts.hypot_x_0. lra. Qed.

Lemma inbound_targetAzimut (id : string) : targetAzimut (inbound id) = 0.
Proof.
  unfold targetAzimut; simpl. rewrite JSFacts.atan2_pos_x by lra.
  replace (0 / 50) with 0 by lra. apply atan_0.
Qed.

Lemma inbound_targetElevation (id : string) :
  targetElevation (inbound id) = (5 - 0.025) / 50.
Proof.
  unfold targetElevation, targetHeightOffset. rewrite inbound_targetDistance.
  reflexivity.
Qed.

Lemma inbound_targetAngle (id : string) : targetAngle (inbound id) = 0.
Proof.
  unfold targetAngle. rewrite inbound_targetAzimut. simpl.
  rewrite JSFacts.gtb_false by (pose proof PI_RGT_0; lra).
  lra.
Qed.

Lemma inbound_radialVelocity (id : string) : radialVelocity (inbound id) = 300.
Proof.
  unfold radialVelocity. rewrite inbound_targetAngle, cos_0. simpl. lra.
Qed.

Lemma inbound_isTargetVisible (id : string) : isTargetVisible (inbound id) = true.
Proof.
  unfold isTargetVisible, isInVision. rewrite inbound_targetDistance. simpl.
  rewrite JSFacts.leb_true by lra. apply JSFacts.gtb_true.
  pose proof (sqrt_pos (2 * 6371.009 * SAM_PARAMS.RADAR_HEIGHT)) as H0.
  assert (H1 : 50 < sqrt (2 * 6371.009 * 5)).
  { rewrite <- (sqrt_square 50) at 1 by lra.
    apply sqrt_lt_1; lra. }
  lra.
Qed.

Lemma inbound_inAllowedElevation (id : string) :
  inAllowedElevation (inbound id) = true.
Proof.
  unfold inAllowedElevation. rewrite inbound_targetElevation, inbound_targetDistance.
  pose proof JSFacts.PI_gt_3 as H3.
  unfold SAM_PARAMS.MIN_ELEVATION, SAM_PARAMS.MAX_ELEVATION.
  rewrite JSFacts.eqb_false, JSFacts.gtb_true, JSFacts.ltb_true by lra.
  reflexivity.
Qed.

Lemma inbound_passes (id : string) : passes (inbound id) = true.
Proof.
  unfold passes. now rewrite inbound_isTargetVisible, inbound_inAllowedElevation.
Qed.

(** The table after the first tick of the scenario. *)
Lemma engine_inbound_tick (id : string) :
  recognizedTargets (fst (tick (engine (inbound id)))) =
  [(id, recognizedTarget (inbound id))].
Proof.
  rewrite tick_recognizedTargets by reflexivity.
  simpl. unfold recalculateTargets_step.
  rewrite inbound_isTargetVisible, inbound_inAllowedElevation. reflexivity.
Qed.

End ScenarioFacts.

(** ** The detection engine: the recognized-target table *)

Module Recognition.
Import SAM SAMFacts Scenarios ScenarioFacts.

Lemma tick_without_missiles (s : state) :
  isEnabled s = true -> missiles s = [] ->
  fst (tick s) =
  mkState true (flightObjects s) []
    (fst (recalculateTargets_loop (flightObjects s) (recognizedTargets s)))
    (flightMissiles s).
Proof.
  intros En Hm. unfold tick, recalculateTargets, recalculateMissiles.
  rewrite En, Hm.
  destruct (recalculateTargets_loop _ _) as [rt e]. reflexivity.
Qed.

Lemma engine_inbound_state (id : string) :
  fst (tick (engine (inbound id))) =
  mkState true [inbound id] [] [(id, recognizedTarget (inbound id))] [].
Proof.
  rewrite tick_without_missiles by reflexivity.
  simpl. unfold recalculateTargets_step.
  rewrite inbound_isTargetVisible, inbound_inAllowedElevation. reflexivity.
Qed.

Lemma relanded_state :
  relanded =
  mkState true [grounded "a"] [] [("a", recognizedTarget (inbound "a"))] [].
Proof. unfold relanded. now rewrite engine_inbound_state. Qed.

Lemma shotDown_state :
  shotDown =
  mkState true [downed "a"] [] [("a", recognizedTarget (inbound "a"))] [].
Proof. unfold shotDown. now rewrite engine_inbound_state. Qed.

(** C1, as stated, fails: an object recognized on one tick and whose
    [isLaunched] flag is false on the next keeps its entry, because the
    loop skips objects that are not launched without touching the
    table. *)
Lemma C1_unlaunched_entry_survives :
  In (grounded "a") (flightObjects relanded) /\
  FlightObject.isLaunched (grounded "a") = false /\
  present (FlightObject.identifier (grounded "a"))
          (recognizedTargets (fst (tick relanded))) = true.
Proof.
  rewrite relanded_state.
  split; [now left |]. split; [reflexivity |].
  rewrite tick_recognizedTargets by reflexivity.
  reflexivity.
Qed.

(** C1, amended: on a tick of the enabled engine whose registered
    objects carry distinct identifiers, a launched object has an entry
    under its identifier after the tick if and only if it is not
    destroyed, passes the horizon test and has its elevation strictly
    inside the bounds; an object that is not launched is skipped, and
    the table holds under its identifier exactly what it held before
    the tick. *)
Theorem C1_entry_iff_filter (s : state) (fo : FlightObject.t) :
  isEnabled s = true ->
  NoDup (map FlightObject.identifier (flightObjects s)) ->
  In fo (flightObjects s) ->
  (FlightObject.isLaunched fo = true ->
   (present (FlightObject.identifier fo) (recognizedTargets (fst (tick s))) = true <->
    FlightObject.isDestroyed fo = false /\
    isTargetVisible fo = true /\
    inAllowedElevation fo = true)) /\
  (FlightObject.isLaunched fo = false ->
   lookup (FlightObject.identifier fo) (recognizedTargets (fst (tick s))) =
   lookup (FlightObject.identifier fo) (recognizedTargets s)).
Proof.
  intros En Hnd Hin.
  destruct (loop_entry (flightObjects s) fo (recognizedTargets s) Hnd Hin) as [He _].
  rewrite tick_recognizedTargets by exact En.
  unfold JSObject.has. rewrite He. unfold entryAfter, passes.
  split; intros HL; rewrite HL.
  - destruct (FlightObject.isDestroyed fo), (isTargetVisible fo),
      (inAllowedElevation fo); simpl; intuition discriminate.
  - reflexivity.
Qed.

(** The equivalence at the inbound object of the scenario. *)
Lemma C1_entry_iff_filter_witness :
  (present "a" (recognizedTargets (fst (tick (engine (inbound "a"))))) = true <->
   FlightObject.isDestroyed (inbound "a") = false /\
   isTargetVisible (inbound "a") = true /\
   inAllowedElevation (inbound "a") = true).
Proof.
  apply (C1_entry_iff_filter (engine (inbound "a")) (inbound "a")).
  - reflexivity.
  - simpl. constructor; [intros [] | constructor].
  - now left.
  - reflexivity.
Defined.

(** C3, as stated, fails: the [delete] event is sent on every tick on
    which a launched object is destroyed or filtered out, also when
    the table holds no entry for it.  Here the object is shot down
    after it was recognized; the next tick removes the entry and sends
    [delete], and the tick after that, with no entry left, sends
    [delete] again. *)
Lemma C3_delete_repeats :
  present "a" (recognizedTargets shotDown) = true /\
  present "a" (recognizedTargets (fst (tick shotDown))) = false /\
  deletes "a" (snd (tick shotDown)) = 1%nat /\
  present "a" (recognizedTargets (fst (tick (fst (tick shotDown))))) = false /\
  deletes "a" (snd (tick (fst (tick shotDown)))) = 1%nat.
Proof.
  rewrite shotDown_state.
  assert (H1 : fst (tick (mkState true [downed "a"] []
                  [("a", recognizedTarget (inbound "a"))] [])) =
               mkState true [downed "a"] [] [] []).
  { rewrite tick_without_missiles by reflexivity. reflexivity. }
  split; [reflexivity |].
  split; [now rewrite H1 |].
  split; [rewrite tick_deletes by reflexivity; reflexivity |].
  rewrite H1. split; reflexivity.
Qed.

(** C3, amended: on a tick of the enabled engine whose registered
    objects carry distinct identifiers, every launched object that is
    destroyed or fails the horizon or the elevation test has no entry
    after the tick, and exactly one [delete] event with its identifier
    is sent during the tick, whether or not an entry existed before. *)
Theorem C3_delete_once_per_tick (s : state) (fo : FlightObject.t) :
  isEnabled s = true ->
  NoDup (map FlightObject.identifier (flightObjects s)) ->
  In fo (flightObjects s) ->
  FlightObject.isLaunched fo = true ->
  FlightObject.isDestroyed fo = true \/
  isTargetVisible fo = false \/ inAllowedElevation fo = false ->
  present (FlightObject.identifier fo) (recognizedTargets (fst (tick s))) = false /\
  deletes (FlightObject.identifier fo) (snd (tick s)) = 1%nat.
Proof.
  intros En Hnd Hin HL Hf.
  destruct (loop_entry (flightObjects s) fo (recognizedTargets s) Hnd Hin) as [He Hd].
  rewrite tick_recognizedTargets, tick_deletes by exact En.
  unfold JSObject.has. rewrite He, Hd. unfold entryAfter. rewrite HL.
  assert (Hp : passes fo = false).
  { unfold passes. destruct Hf as [H | [H | H]]; rewrite H; simpl; auto.
    - now destruct (FlightObject.isDestroyed fo).
    - destruct (FlightObject.isDestroyed fo), (isTargetVisible fo); auto. }
  rewrite Hp. split; reflexivity.
Qed.

(** The statement at the object shot down after its recognition. *)
Lemma C3_delete_once_per_tick_witness :
  present "a" (recognizedTargets (fst (tick shotDown))) = false /\
  deletes "a" (snd (tick shotDown)) = 1%nat.
Proof.
  apply (C3_delete_once_per_tick shotDown (downed "a")).
  - now rewrite shotDown_state.
  - rewrite shotDown_state. simpl. constructor; [intros [] | constructor].
  - rewrite shotDown_state. now left.
  - reflexivity.
  - left. reflexivity.
Defined.

End Recognition.

(** ** The detection engine: the geometry of an entry *)

Module Geometry.
Import SAM SAM_PARAMS SAMFacts Scenarios ScenarioFacts.

(** C4, as stated, fails in its last figure: for the inbound object of
    the scenario the nose-offset angle is |0 - PI| - PI = 0, so the
    radial velocity the engine stores is 300 * cos 0 = +300, at
    distance 600 from -300. *)
Lemma C4_radialVelocity_is_positive :
  lookup "a" (recognizedTargets (fst (tick (engine (inbound "a"))))) =
    Some (recognizedTarget (inbound "a")) /\
  IRecognizedTargets.radialVelocity (recognizedTarget (inbound "a")) = 300 /\
  Rabs (IRecognizedTargets.radialVelocity (recognizedTarget (inbound "a")) - -300) = 600.
Proof.
  rewrite Recognition.engine_inbound_state. simpl.
  rewrite inbound_radialVelocity.
  split; [reflexivity |]. split; [reflexivity |].
  replace (300 - -300) with 600 by lra. apply Rabs_right. lra.
Qed.

(** C4, amended: for a flight object at x=50, y=0, z=5 with velocity
    300, rcs 10 and heading PI, and radar height 0.025, one tick of
    the enabled engine recognizes the target with distance 50, azimuth
    0 and elevation (5-0.025)/50; the nose-offset angle is
    |azimuth - heading| - PI = 0 and the stored radial velocity is
    velocity * cos(nose-offset angle) = +300: a closing target has a
    positive radial velocity. *)
Theorem C4_scenario_recognized (id : string) :
  RADAR_HEIGHT = 0.025 /\
  exists target,
    lookup id (recognizedTargets (fst (tick (engine (inbound id))))) = Some target /\
    IRecognizedTargets.distance target = 50 /\
    IRecognizedTargets.azimut target = 0 /\
    IRecognizedTargets.elevation target = (5 - 0.025) / 50 /\
    targetAngle (inbound id) =
      Rabs (targetAzimut (inbound id) - FlightObject.currentRotation (inbound id)) - PI /\
    targetAngle (inbound id) = 0 /\
    IRecognizedTargets.radialVelocity target =
      FlightObject.velocity (inbound id) * cos (targetAngle (inbound id)) /\
    IRecognizedTargets.radialVelocity target = 300.
Proof.
  split; [reflexivity |].
  exists (recognizedTarget (inbound id)).
  rewrite Recognition.engine_inbound_state. simpl.
  rewrite String.eqb_refl.
  rewrite inbound_targetDistance, inbound_targetElevation, inbound_radialVelocity,
    inbound_targetAngle, inbound_targetAzimut.
  repeat split.
  - rewrite JSFacts.ltb_false by lra. reflexivity.
  - rewrite Rabs_left by (pose proof PI_RGT_0; lra). lra.
  - rewrite cos_0. lra.
Qed.

Lemma targetAngle_abs (fo : FlightObject.t) :
  targetAngle fo = Rabs (targetAzimut fo - FlightObject.currentRotation fo) - PI.
Proof.
  unfold targetAngle, JS.gtb, JS.ltb.
  destruct (Rlt_dec (FlightObject.currentRotation fo) (targetAzimut fo)).
  - rewrite Rabs_right by lra. reflexivity.
  - destruct (Req_dec (targetAzimut fo) (FlightObject.currentRotation fo)) as [E | E].
    + rewrite E. replace (FlightObject.currentRotation fo - FlightObject.currentRotation fo)
        with 0 by ring. now rewrite Rabs_R0.
    + rewrite Rabs_left by lra. f_equal. ring.
Qed.



End Geometry.

(** ** The detection engine: correlation by azimuth *)

Module Correlation.
Import SAM SAM_PARAMS SAMFacts Scenarios.

Lemma grazing_targetDistance (id : string) :
  50 < targetDistance (grazing id) < 51.
Proof.
  unfold targetDistance, JS.hypot; simpl.
  split.
  - rewrite <- (sqrt_square 50) at 1 by lra. apply sqrt_lt_1; lra.
  - apply Rlt_le_trans with (sqrt (51 * 51)).
    + apply sqrt_lt_1; lra.
    + rewrite sqrt_square; lra.
Qed.

Lemma grazing_targetAzimut (id : string) :
  targetAzimut (grazing id) = - atan (1 / 100).
Proof.
  unfold targetAzimut; simpl. rewrite JSFacts.atan2_pos_x by lra.
  replace (-0.5 / 50) with (- (1 / 100)) by lra. apply atan_opp.
Qed.

Lemma grazing_targetElevation (id : string) :
  0 < targetElevation (grazing id) < 1 / 10.
Proof.
  pose proof (grazing_targetDistance id) as [Hlo Hhi].
  unfold targetElevation, targetHeightOffset, RADAR_HEIGHT; simpl.
  set (d := targetDistance (grazing id)) in *.
  assert (Hi : 0 < / d) by (apply Rinv_0_lt_compat; lra).
  assert (Hi' : / d < / 50) by (apply Rinv_lt_contravar; lra).
  unfold Rdiv. split; nra.
Qed.

Lemma grazing_isTargetVisible (id : string) : isTargetVisible (grazing id) = true.
Proof.
  pose proof (grazing_targetDistance id) as [_ Hhi].
  unfold isTargetVisible, isInVision. simpl.
  rewrite JSFacts.leb_true by lra. apply JSFacts.gtb_true.
  pose proof (sqrt_pos (2 * 6371.009 * RADAR_HEIGHT)) as H0.
  assert (H1 : 51 < sqrt (2 * 6371.009 * 5)).
  { rewrite <- (sqrt_square 51) at 1 by lra. apply sqrt_lt_1; lra. }
  lra.
Qed.

Lemma grazing_inAllowedElevation (id : string) :
  inAllowedElevation (grazing id) = true.
Proof.
  pose proof (grazing_targetElevation id) as [Hlo Hhi].
  pose proof JSFacts.PI_gt_3 as H3.
  pose proof (grazing_targetDistance id) as [Hd _].
  unfold inAllowedElevation, MIN_ELEVATION, MAX_ELEVATION.
  rewrite JSFacts.eqb_false, JSFacts.gtb_true, JSFacts.ltb_true by lra.
  reflexivity.
Qed.

Lemma engine_grazing_state (id : string) :
  fst (tick (engine (grazing id))) =
  mkState true [grazing id] [] [(id, recognizedTarget (grazing id))] [].
Proof.
  rewrite Recognition.tick_without_missiles by reflexivity.
  simpl. unfold recalculateTargets_step.
  rewrite grazing_isTargetVisible, grazing_inAllowedElevation. reflexivity.
Qed.

Lemma grazing_azimut (id : string) :
  IRecognizedTargets.azimut (recognizedTarget (grazing id)) =
  2 * PI - atan (1 / 100).
Proof.
  simpl. rewrite grazing_targetAzimut.
  rewrite JSFacts.ltb_true by (pose proof JSFacts.atan_small; lra).
  ring.
Qed.

(** C10: the correlation query compares the stored azimuth, which lies
    in [0, 2 PI), with the query azimuth by plain absolute difference.
    The engine recognizes the grazing object with an azimuth less than
    two degrees below a full turn; queried at azimuth 0 and at the
    target's own elevation, the angular separation is below the
    half-width RADAR_AZIMUT_DETECT_ACCURACY/2, the absolute difference
    is above it, and the query returns null. *)
Theorem C10_no_wraparound :
  exists target,
    lookup "a" (recognizedTargets (fst (tick (engine (grazing "a"))))) = Some target /\
    0 <= IRecognizedTargets.azimut target < 2 * PI /\
    2 * PI - PI / 90 < IRecognizedTargets.azimut target /\
    angularSeparation (IRecognizedTargets.azimut target) 0 <
      RADAR_AZIMUT_DETECT_ACCURACY / 2 /\
    Rabs (targetElevation (grazing "a") - IRecognizedTargets.elevation target) <=
      RADAR_ELEVATION_DETECT_ACCURACY / 2 /\
    RADAR_AZIMUT_DETECT_ACCURACY / 2 < Rabs (IRecognizedTargets.azimut target - 0) /\
    getTargetOnAzimutAndElevation 0 (targetElevation (grazing "a"))
      (fst (tick (engine (grazing "a")))) = None.
Proof.
  pose proof JSFacts.atan_small as [Hlo Hhi].
  pose proof JSFacts.PI_gt_3 as H3. pose proof PI_4 as H4.
  exists (recognizedTarget (grazing "a")).
  rewrite engine_grazing_state.
  unfold getTargetOnAzimutAndElevation. cbn [recognizedTargets JSObject.keys map fst find].
  cbn [JSObject.get]. rewrite String.eqb_refl.
  rewrite grazing_azimut.
  assert (Habs : Rabs (2 * PI - atan (1 / 100) - 0) = 2 * PI - atan (1 / 100))
    by (rewrite Rabs_right by lra; lra).
  unfold angularSeparation. rewrite Habs.
  unfold RADAR_AZIMUT_DETECT_ACCURACY, RADAR_ELEVATION_DETECT_ACCURACY.
  split; [reflexivity |].
  split; [lra |]. split; [lra |].
  split; [rewrite Rmin_right by lra; lra |].
  split.
  { cbn [IRecognizedTargets.elevation recognizedTarget].
    replace (targetElevation (grazing "a") - targetElevation (grazing "a")) with 0 by ring.
    rewrite Rabs_R0. lra. }
  split; [lra |].
  rewrite JSFacts.leb_false by lra.
  reflexivity.
Qed.

End Correlation.

(** ** The detection engine: the missile sweep *)

Module Sweep.
Import SAM SAMFacts Scenarios.

Lemma distanceToMissile_euclidean (fo : FlightObject.t) (m : SAMissile.t) :
  distanceToMissile fo m =
  euclidean3 (FlightObject.currentPoint fo) (SAMissile.missileCurrentPoint m).
Proof.
  unfold distanceToMissile, euclidean3, JS.pow2. f_equal. ring.
Qed.

Lemma inKillRadius_iff (m : SAMissile.t) (fo : FlightObject.t) :
  inKillRadius m fo = true <->
  distanceToMissile fo m <= SAMissile.missileKillRadius m.
Proof. apply JSFacts.leb_iff. Qed.

Lemma inKillRadius_place (m : SAMissile.t) (fo fo' : FlightObject.t) :
  FlightObject.currentPoint fo = FlightObject.currentPoint fo' ->
  inKillRadius m fo = inKillRadius m fo'.
Proof.
  intros E. unfold inKillRadius, distanceToMissile. now rewrite E.
Qed.

Lemma triggers_iff (m : SAMissile.t) :
  triggers m = true <->
  SAMissile.isDestroyedMissile m = false /\
  SAMissile.missileTargetDistance m <= SAMissile.missileKillRadius m.
Proof.
  unfold triggers. rewrite andb_true_iff, negb_true_iff, JSFacts.leb_iff. tauto.
Qed.

(** [kill()] leaves every object where it is. *)
Lemma killInRadius_places (m : SAMissile.t) (i : nat) (fos : list FlightObject.t) :
  map FlightObject.currentPoint (fst (killInRadius m i fos)) =
  map FlightObject.currentPoint fos.
Proof.
  revert i. induction fos as [| fo fos IH]; intros i; simpl; auto.
  specialize (IH (S i)). destruct (killInRadius m (S i) fos) as [r e].
  simpl in IH. destruct (inKillRadius m fo); simpl; now rewrite IH.
Qed.

Lemma killInRadius_calls (m : SAMissile.t) (i : nat) (fos : list FlightObject.t)
    (j : nat) :
  In (Call_kill j) (snd (killInRadius m i fos)) <->
  (i <= j)%nat /\
  exists fo, nth_error fos (j - i) = Some fo /\ inKillRadius m fo = true.
Proof.
  revert i. induction fos as [| fo fos IH]; intros i; simpl.
  - split; [contradiction |]. intros [_ [fo [H _]]].
    destruct (j - i)%nat; discriminate.
  - specialize (IH (S i)). destruct (killInRadius m (S i) fos) as [r e].
    simpl in IH.
    destruct (Nat.eq_dec i j) as [-> | Hne].
    + replace (j - j)%nat with 0%nat by lia. simpl.
      destruct (inKillRadius m fo) eqn:Hk; simpl.
      * split; [intros _ | auto]. split; [lia |]. now exists fo.
      * rewrite IH. split; [intros [Hle _]; lia |].
        intros [_ [fo' [E Hk']]]. inversion E; subst. congruence.
    + assert (Hiff : In (Call_kill j) e <->
                     (i <= j)%nat /\
                     exists fo0, nth_error (fo :: fos) (j - i) = Some fo0 /\
                                 inKillRadius m fo0 = true).
      { rewrite IH. split.
        - intros [Hle [fo' [Hn Hk']]]. split; [lia |]. exists fo'.
          replace (j - i)%nat with (S (j - S i)) by lia. simpl. auto.
        - intros [Hle [fo' [Hn Hk']]]. split; [lia |]. exists fo'.
          replace (j - i)%nat with (S (j - S i)) in Hn by lia. simpl in Hn. auto. }
      destruct (inKillRadius m fo); simpl; [| exact Hiff].
      rewrite <- Hiff. split; [intros [E | H]; [congruence | exact H] | auto].
Qed.

Lemma killInRadius_no_destroy (m : SAMissile.t) (i : nat) (fos : list FlightObject.t)
    (k : nat) :
  ~ In (Call_destroyMissile k) (snd (killInRadius m i fos)).
Proof.
  revert i. induction fos as [| fo fos IH]; intros i; simpl; auto.
  specialize (IH (S i)). destruct (killInRadius m (S i) fos) as [r e].
  simpl in IH. destruct (inKillRadius m fo); simpl; [| exact IH].
  intros [E | H]; [discriminate | auto].
Qed.

Lemma loop_nil (i : nat) fos fm :
  recalculateMissiles_loop i [] fos fm = ([], fos, fm, []).
Proof. reflexivity. Qed.

(** The loop, one turn at a time. *)
Lemma missiles_loop_cons (i : nat) (m : SAMissile.t) ms fos fm :
  recalculateMissiles_loop i (m :: ms) fos fm =
  (turn_missile m :: loop_missiles (S i) ms (turn_objects m fos) (turn_table m fm),
   loop_objects (S i) ms (turn_objects m fos) (turn_table m fm),
   loop_table (S i) ms (turn_objects m fos) (turn_table m fm),
   turn_effects i m fos ++ loop_effects (S i) ms (turn_objects m fos) (turn_table m fm)).
Proof.
  unfold loop_missiles, loop_objects, loop_table, loop_effects,
    turn_missile, turn_objects, turn_table, turn_effects, triggers.
  simpl.
  destruct (SAMissile.isDestroyedMissile m); simpl.
  - now destruct (recalculateMissiles_loop (S i) ms fos _) as [[[a b] c] d].
  - destruct (JS.leb _ _); simpl.
    + destruct (killInRadius (SAMissile.destroyMissile m) 0 fos) as [fos1 e1]. simpl.
      now destruct (recalculateMissiles_loop (S i) ms fos1 _) as [[[a b] c] d].
    + now destruct (recalculateMissiles_loop (S i) ms fos _) as [[[a b] c] d].
Qed.

Lemma turn_objects_places (m : SAMissile.t) (fos : list FlightObject.t) :
  map FlightObject.currentPoint (turn_objects m fos) =
  map FlightObject.currentPoint fos.
Proof.
  unfold turn_objects. destruct (triggers m); auto using killInRadius_places.
Qed.

Lemma same_place_nth (fos fos' : list FlightObject.t) (j : nat) (fo : FlightObject.t) :
  map FlightObject.currentPoint fos' = map FlightObject.currentPoint fos ->
  nth_error fos j = Some fo ->
  exists fo', nth_error fos' j = Some fo' /\
              FlightObject.currentPoint fo' = FlightObject.currentPoint fo.
Proof.
  intros Hm Hn.
  pose proof (map_nth_error FlightObject.currentPoint j fos Hn) as H.
  rewrite <- Hm in H. rewrite nth_error_map in H.
  destruct (nth_error fos' j) as [fo' |]; [| discriminate].
  exists fo'. split; [reflexivity |]. simpl in H. congruence.
Qed.

(** The missiles after the sweep. *)
Lemma loop_missiles_map (i : nat) ms fos fm :
  loop_missiles i ms fos fm = map turn_missile ms.
Proof.
  revert i fos fm. induction ms as [| m ms IH]; intros i fos fm.
  - reflexivity.
  - unfold loop_missiles at 1. rewrite missiles_loop_cons. simpl. now rewrite IH.
Qed.

(** The calls of [destroyMissile()] during the sweep. *)
Lemma loop_destroy_calls (i : nat) ms fos fm (k : nat) :
  In (Call_destroyMissile k) (loop_effects i ms fos fm) <->
  (i <= k)%nat /\ exists m, nth_error ms (k - i) = Some m /\ triggers m = true.
Proof.
  revert i fos fm. induction ms as [| m ms IH]; intros i fos fm.
  - unfold loop_effects. simpl. split; [contradiction |].
    intros [_ [m [H _]]]. destruct (k - i)%nat; discriminate.
  - unfold loop_effects at 1. rewrite missiles_loop_cons. cbn [snd].
    rewrite in_app_iff, IH.
    assert (Hturn : In (Call_destroyMissile k) (turn_effects i m fos) <->
                    k = i /\ triggers m = true).
    { unfold turn_effects. destruct (triggers m); simpl.
      - split.
        + intros [E | H]; [inversion E; auto |].
          now apply killInRadius_no_destroy in H.
        + intros [-> _]. now left.
      - split; [contradiction | intros [_ H]; discriminate]. }
    rewrite Hturn. split.
    + intros [[-> Ht] | [Hle [m' [Hn Ht]]]].
      * split; [lia |]. exists m. replace (i - i)%nat with 0%nat by lia. auto.
      * split; [lia |]. exists m'.
        replace (k - i)%nat with (S (k - S i)) by lia. auto.
    + intros [Hle [m' [Hn Ht]]].
      destruct (Nat.eq_dec k i) as [-> | Hne].
      * left. replace (i - i)%nat with 0%nat in Hn by lia. simpl in Hn.
        inversion Hn; subst. auto.
      * right. split; [lia |]. exists m'.
        replace (k - i)%nat with (S (k - S i)) in Hn by lia. auto.
Qed.

(** The calls of [kill()] during the sweep: an object is killed
    exactly when some missile that triggers has it inside its kill
    radius. *)
Lemma loop_kill_calls (i : nat) ms fos fm (j : nat) (fo : FlightObject.t) :
  nth_error fos j = Some fo ->
  In (Call_kill j) (loop_effects i ms fos fm) <->
  exists m, In m ms /\ triggers m = true /\ inKillRadius m fo = true.
Proof.
  revert i fos fm fo. induction ms as [| m ms IH]; intros i fos fm fo Hfo.
  - unfold loop_effects. simpl. split; [contradiction | intros [m [[] _]]].
  - unfold loop_effects at 1. rewrite missiles_loop_cons. cbn [snd].
    destruct (same_place_nth fos (turn_objects m fos) j fo
                (turn_objects_places m fos) Hfo) as [fo1 [Hfo1 Hplace]].
    rewrite in_app_iff, (IH (S i) _ (turn_table m fm) fo1 Hfo1).
    assert (Hturn : In (Call_kill j) (turn_effects i m fos) <->
                    triggers m = true /\ inKillRadius m fo = true).
    { unfold turn_effects. destruct (triggers m); simpl.
      - rewrite killInRadius_calls. replace (j - 0)%nat with j by lia.
        rewrite Hfo. split.
        + intros [E | [_ [fo' [E Hk]]]]; [discriminate |].
          inversion E; subst. auto.
        + intros [_ Hk]. right. split; [lia |]. now exists fo.
      - split; [contradiction | intros [H _]; discriminate]. }
    rewrite Hturn. split.
    + intros [[Ht Hk] | [m' [Hin [Ht Hk]]]].
      * exists m. simpl. auto.
      * exists m'. simpl. rewrite <- (inKillRadius_place m' fo1 fo Hplace). auto.
    + intros [m' [[-> | Hin] [Ht Hk]]].
      * left. auto.
      * right. exists m'. rewrite (inKillRadius_place m' fo1 fo Hplace). auto.
Qed.

(** The snapshots after the sweep. *)
Lemma turn_table_other (m : SAMissile.t) fm (id : Z) :
  SAMissile.identifier m <> id ->
  JSObject.get Z.eqb id (turn_table m fm) = JSObject.get Z.eqb id fm.
Proof.
  intros Hne. unfold turn_table. destruct (SAMissile.isDestroyedMissile m).
  - apply JSObjectFacts.get_delete_other; auto using Z.eqb_eq.
  - apply JSObjectFacts.get_set_other; auto using Z.eqb_eq.
Qed.

Lemma turn_table_same (m : SAMissile.t) fm :
  JSObject.get Z.eqb (SAMissile.identifier m) (turn_table m fm) =
  if SAMissile.isDestroyedMissile m then None else Some (flightMissile m).
Proof.
  unfold turn_table. destruct (SAMissile.isDestroyedMissile m).
  - apply JSObjectFacts.get_delete_same; auto using Z.eqb_eq.
  - apply JSObjectFacts.get_set_same; auto using Z.eqb_eq.
Qed.

Lemma loop_table_other (i : nat) ms fos fm (id : Z) :
  ~ In id (map SAMissile.identifier ms) ->
  JSObject.get Z.eqb id (loop_table i ms fos fm) = JSObject.get Z.eqb id fm.
Proof.
  revert i fos fm. induction ms as [| m ms IH]; intros i fos fm Hnot.
  - reflexivity.
  - unfold loop_table at 1. rewrite missiles_loop_cons. cbn [fst snd].
    simpl in Hnot. rewrite IH by tauto. apply turn_table_other. tauto.
Qed.

Lemma loop_table_entry (i : nat) ms fos fm (m : SAMissile.t) :
  NoDup (map SAMissile.identifier ms) ->
  In m ms ->
  JSObject.get Z.eqb (SAMissile.identifier m) (loop_table i ms fos fm) =
  if SAMissile.isDestroyedMissile m then None else Some (flightMissile m).
Proof.
  revert i fos fm. induction ms as [| m' ms IH]; intros i fos fm Hnd Hin.
  - contradiction.
  - unfold loop_table at 1. rewrite missiles_loop_cons. cbn [fst snd].
    simpl in Hnd. inversion Hnd as [| ? ? Hnot Hnd']; subst.
    destruct Hin as [-> | Hin].
    + rewrite loop_table_other by exact Hnot. apply turn_table_same.
    + now apply IH.
Qed.

Lemma recalculateMissiles_results (s : state) :
  recalculateMissiles s =
  (mkState (isEnabled s)
     (loop_objects 0 (missiles s) (flightObjects s) (flightMissiles s))
     (loop_missiles 0 (missiles s) (flightObjects s) (flightMissiles s))
     (recognizedTargets s)
     (loop_table 0 (missiles s) (flightObjects s) (flightMissiles s)),
   loop_effects 0 (missiles s) (flightObjects s) (flightMissiles s)).
Proof.
  unfold recalculateMissiles, loop_objects, loop_missiles, loop_table, loop_effects.
  now destruct (recalculateMissiles_loop 0 _ _ _) as [[[a b] c] d].
Qed.

(** C8: in a missile sweep, (1) every live missile whose
    targetDistance is at most its killRadius has [destroyMissile()]
    invoked and is destroyed afterwards; (2) [kill()] is invoked on a
    flight object exactly when its Euclidean distance in space to the
    position of some such missile is at most that missile's killRadius,
    so objects farther than killRadius from every such missile are not
    killed; (3) with distinct missile identifiers, a missile that is
    destroyed when the sweep visits it has no snapshot afterwards, and
    a live one has its snapshot stored. *)
Theorem C8_missile_sweep (s : state) :
  (forall i m,
      nth_error (missiles s) i = Some m ->
      SAMissile.isDestroyedMissile m = false ->
      SAMissile.missileTargetDistance m <= SAMissile.missileKillRadius m ->
      In (Call_destroyMissile i) (snd (recalculateMissiles s)) /\
      nth_error (missiles (fst (recalculateMissiles s))) i =
        Some (SAMissile.destroyMissile m)) /\
  (forall j fo,
      nth_error (flightObjects s) j = Some fo ->
      (In (Call_kill j) (snd (recalculateMissiles s)) <->
       exists m,
         In m (missiles s) /\
         SAMissile.isDestroyedMissile m = false /\
         SAMissile.missileTargetDistance m <= SAMissile.missileKillRadius m /\
         euclidean3 (FlightObject.currentPoint fo) (SAMissile.missileCurrentPoint m)
           <= SAMissile.missileKillRadius m)) /\
  (NoDup (map SAMissile.identifier (missiles s)) ->
   forall m,
     In m (missiles s) ->
     JSObject.get Z.eqb (SAMissile.identifier m)
       (flightMissiles (fst (recalculateMissiles s))) =
     if SAMissile.isDestroyedMissile m then None else Some (flightMissile m)).
Proof.
  rewrite recalculateMissiles_results. cbn [fst snd missiles flightMissiles].
  split; [| split].
  - intros i m Hn Hlive Hrange.
    assert (Ht : triggers m = true) by (apply triggers_iff; auto).
    split.
    + apply loop_destroy_calls. split; [lia |].
      exists m. replace (i - 0)%nat with i by lia. auto.
    + rewrite loop_missiles_map, nth_error_map, Hn. simpl.
      unfold turn_missile. now rewrite Ht.
  - intros j fo Hn. rewrite (loop_kill_calls 0 _ _ _ j fo Hn).
    split.
    + intros [m [Hin [Ht Hk]]]. exists m.
      apply triggers_iff in Ht. apply inKillRadius_iff in Hk.
      rewrite distanceToMissile_euclidean in Hk. tauto.
    + intros [m [Hin [Hlive [Hrange Hd]]]]. exists m.
      split; [exact Hin |]. split; [apply triggers_iff; auto |].
      apply inKillRadius_iff. now rewrite distanceToMissile_euclidean.
  - intros Hnd m Hin. now apply loop_table_entry.
Qed.

(** The kill scenario: the interceptor is destroyed, the object half a
    kilometre away is killed, the one forty kilometres away is not. *)
Lemma C8_missile_sweep_witness :
  In (Call_destroyMissile 0) (snd (recalculateMissiles sweep)) /\
  In (Call_kill 0) (snd (recalculateMissiles sweep)) /\
  ~ In (Call_kill 1) (snd (recalculateMissiles sweep)).
Proof.
  destruct (C8_missile_sweep sweep) as [Hdestroy [Hkill _]].
  split; [| split].
  - apply (Hdestroy 0%nat interceptor); [reflexivity | reflexivity | simpl; lra].
  - apply (Hkill 0%nat nearObject); [reflexivity |].
    exists interceptor. split; [now left |]. split; [reflexivity |].
    split; [simpl; lra |].
    unfold euclidean3; simpl.
    replace ((10.5 - 10) * ((10.5 - 10) * 1) + (0 - 0) * ((0 - 0) * 1) +
             (5 - 5) * ((5 - 5) * 1)) with (0.5 * 0.5) by lra.
    rewrite sqrt_square; lra.
  - intros H. apply (Hkill 1%nat farObject) in H; [| reflexivity].
    destruct H as [m [[<- | []] [_ [_ Hd]]]].
    unfold euclidean3 in Hd; simpl in Hd.
    replace ((50 - 10) * ((50 - 10) * 1) + (0 - 0) * ((0 - 0) * 1) +
             (5 - 5) * ((5 - 5) * 1)) with (40 * 40) in Hd by lra.
    rewrite sqrt_square in Hd; lra.
Defined.

End Sweep.

(** ** The beam tracker: steering *)

Module Steering.
Import SNR Scenarios.

Lemma fst_andThen (f g : action) (s : state) :
  fst ((f ;; g) s) = fst (g (fst (f s))).
Proof.
  unfold andThen. destruct (f s) as [s1 e1]. simpl. now destruct (g s1).
Qed.

Lemma snd_andThen (f g : action) (s : state) :
  snd ((f ;; g) s) = snd (f s) ++ snd (g (fst (f s))).
Proof.
  unfold andThen. destruct (f s) as [s1 e1]. simpl. now destruct (g s1).
Qed.

(** The degree value [setAzimut] settles on, before the offset. *)
Lemma setAzimut_azimut (deg : R) (s : state) :
  azimut (fst (setAzimut deg s)) =
  ((if JS.gtb
         (if JS.ltb (if JS.gtb deg 360 then deg - 360 else deg) 0
          then 360 + (if JS.gtb deg 360 then deg - 360 else deg)
          else (if JS.gtb deg 360 then deg - 360 else deg)) 270
    then (if JS.ltb (if JS.gtb deg 360 then deg - 360 else deg) 0
          then 360 + (if JS.gtb deg 360 then deg - 360 else deg)
          else (if JS.gtb deg 360 then deg - 360 else deg)) - 360
    else (if JS.ltb (if JS.gtb deg 360 then deg - 360 else deg) 0
          then 360 + (if JS.gtb deg 360 then deg - 360 else deg)
          else (if JS.gtb deg 360 then deg - 360 else deg))) - 90) * PI / 180.
Proof. reflexivity. Qed.




End Steering.

(** ** The beam tracker: direction capture *)

Module Capture.
Import SNR Scenarios Steering.

Lemma count_app (p : effect -> bool) (l l' : list effect) :
  count p (l ++ l') = (count p l + count p l')%nat.
Proof. unfold count. now rewrite filter_app, length_app. Qed.

Lemma count_destroy_calls (p : effect -> bool) (l : list nat) :
  (forall i, p (Call_destroyMissile i) = false) ->
  count p (map Call_destroyMissile l) = 0%nat.
Proof.
  intros Hp. unfold count. induction l as [| i l IH]; simpl; auto.
  now rewrite Hp.
Qed.

Lemma destroyMissile_twice (l : list SAMissile.t) :
  map SAMissile.destroyMissile (map SAMissile.destroyMissile l) =
  map SAMissile.destroyMissile l.
Proof. rewrite map_map. reflexivity. Qed.

(** The two resets, written out. *)
Lemma resetCaptureTargetByDistance_eq (s : state) :
  resetCaptureTargetByDistance s =
  (set_trackTargetDistanceInterval None s,
   if eventListener s then [Emit_isCapturedByDistance false] else []).
Proof. reflexivity. Qed.

Lemma resetCaptureTargetByDirection_eq (s : state) :
  resetCaptureTargetByDirection s =
  (set_trackTargetDistanceInterval None
     (set_missiles (map SAMissile.destroyMissile (missiles s))
        (set_trackingTargetIdentifier None (set_trackTargetInterval None s))),
   (if eventListener s then [Emit_isCapturedByDirection false] else []) ++
   map Call_destroyMissile (seq 0 (List.length (missiles s))) ++
   (if eventListener s then [Emit_isCapturedByDistance false] else [])).
Proof. reflexivity. Qed.

Lemma resetCaptureTargetByDirection_count (s : state) :
  count (is_isCapturedByDirection false) (snd (resetCaptureTargetByDirection s)) =
  if eventListener s then 1%nat else 0%nat.
Proof.
  rewrite resetCaptureTargetByDirection_eq. cbn [snd].
  rewrite !count_app, count_destroy_calls by reflexivity.
  destruct (eventListener s); reflexivity.
Qed.

(** C2, as stated, fails: the reset sends [isCapturedByDirection =
    false] on every call, so two calls in succession on a fresh
    tracker (idle, listener wired) send it twice. *)
Lemma C2_reset_twice_emits_twice :
  count (is_isCapturedByDirection false)
    (snd ((resetCaptureTargetByDirection ;; resetCaptureTargetByDirection) tracker))
  = 2%nat.
Proof. reflexivity. Qed.

(** C2, amended: whatever the state, a call of
    resetCaptureTargetByDirection sends exactly one
    isCapturedByDirection=false event when a listener is wired (none
    otherwise), so two calls in succession send two; the second call
    does not fail and leaves the tracker in the state the first one
    left it in. *)
Theorem C2_reset_emits_on_every_call (s : state) :
  count (is_isCapturedByDirection false) (snd (resetCaptureTargetByDirection s)) =
    (if eventListener s then 1%nat else 0%nat) /\
  count (is_isCapturedByDirection false)
    (snd ((resetCaptureTargetByDirection ;; resetCaptureTargetByDirection) s)) =
    (if eventListener s then 2%nat else 0%nat) /\
  fst ((resetCaptureTargetByDirection ;; resetCaptureTargetByDirection) s) =
    fst (resetCaptureTargetByDirection s).
Proof.
  split; [apply resetCaptureTargetByDirection_count |].
  rewrite snd_andThen, fst_andThen, count_app, !resetCaptureTargetByDirection_count.
  split.
  - rewrite resetCaptureTargetByDirection_eq. cbn [fst eventListener].
    unfold set_trackTargetDistanceInterval, set_missiles,
      set_trackingTargetIdentifier, set_trackTargetInterval. cbn [eventListener].
    destruct (eventListener s); reflexivity.
  - rewrite (resetCaptureTargetByDirection_eq s). cbn [fst].
    rewrite resetCaptureTargetByDirection_eq.
    cbn [fst missiles set_trackTargetDistanceInterval set_missiles
           set_trackingTargetIdentifier set_trackTargetInterval
           azimut verticalAngle targetDistance minVerticalAngle maxVerticalAngle
           maxDistance flightObjects rayWidth distanceTrackingAccuracy
           distanceDetectRange radarHeight trackTargetInterval
           trackTargetDistanceInterval trackingTargetIdentifier eventListener].
    rewrite destroyMissile_twice. reflexivity.
Qed.

Lemma captureTargetByDirection_eq (s : state) :
  captureTargetByDirection s = forEach captureTargetByDirection_step 0 (flightObjects s) s.
Proof. reflexivity. Qed.

Lemma captureTargetByDirection_step_eq (i : nat) (fo : FlightObject.t) (s : state) :
  captureTargetByDirection_step i fo s =
  if meetsTolerances s fo
  then (tracking i fo s,
        if eventListener s then [Emit_isCapturedByDirection true] else [])
  else (s, []).
Proof.
  unfold captureTargetByDirection_step, meetsTolerances.
  destruct (isCapturedByAzimut s fo && isCapturedByVerticalAngle s fo); reflexivity.
Qed.

(** The loop of direction capture, for a state [s] that sees the
    flight objects as [s0] does: the last object that meets the
    tolerances is tracked, and every one that meets them is
    announced. *)
Lemma capture_loop (s0 : state) (l : list FlightObject.t) :
  forall (i : nat) (s : state),
    (forall fo, meetsTolerances s fo = meetsTolerances s0 fo) ->
    eventListener s = eventListener s0 ->
    fst (forEach captureTargetByDirection_step i l s) =
      match lastMatch (meetsTolerances s0) i l with
      | Some (k, fo) => tracking k fo s
      | None => s
      end /\
    snd (forEach captureTargetByDirection_step i l s) =
      if eventListener s0
      then map (fun _ => Emit_isCapturedByDirection true)
               (filter (meetsTolerances s0) l)
      else [].
Proof.
  induction l as [| a l IH]; intros i s Hsee Hlis.
  - simpl. split; [reflexivity | now destruct (eventListener s0)].
  - cbn [forEach]. rewrite fst_andThen, snd_andThen, captureTargetByDirection_step_eq, Hsee.
    cbn [lastMatch filter].
    destruct (meetsTolerances s0 a) eqn:Ha; cbn [fst snd].
    + destruct (IH (S i) (tracking i a s)) as [IH1 IH2].
      { intros fo. rewrite <- Hsee. reflexivity. }
      { exact Hlis. }
      rewrite IH1, IH2, Hlis. split.
      * destruct (lastMatch (meetsTolerances s0) (S i) l) as [[k fo] |]; reflexivity.
      * destruct (eventListener s0); reflexivity.
    + destruct (IH (S i) s Hsee Hlis) as [IH1 IH2].
      rewrite IH1, IH2. split; [| reflexivity].
      destruct (lastMatch (meetsTolerances s0) (S i) l) as [[k fo] |]; reflexivity.
Qed.

Lemma lastMatch_none (p : FlightObject.t -> bool) (i : nat) (l : list FlightObject.t) :
  (forall fo, In fo l -> p fo = false) -> lastMatch p i l = None.
Proof.
  revert i. induction l as [| a l IH]; intros i Hp; simpl; auto.
  rewrite IH by (intros fo Hin; apply Hp; now right).
  now rewrite Hp by now left.
Qed.

Lemma lastMatch_split (p : FlightObject.t -> bool) (l1 l2 : list FlightObject.t)
    (fo : FlightObject.t) (i : nat) :
  p fo = true ->
  (forall fo', In fo' l2 -> p fo' = false) ->
  lastMatch p i (l1 ++ fo :: l2) = Some ((i + List.length l1)%nat, fo).
Proof.
  intros Hfo Hl2. revert i. induction l1 as [| a l1 IH]; intros i; simpl.
  - rewrite lastMatch_none by exact Hl2. rewrite Hfo. do 2 f_equal. lia.
  - rewrite IH. do 2 f_equal. lia.
Qed.

Lemma count_emits (n : list FlightObject.t) :
  count (is_isCapturedByDirection true)
    (map (fun _ => Emit_isCapturedByDirection true) n) = List.length n.
Proof.
  unfold count. induction n as [| a n IH]; simpl; auto.
Qed.

(** C5, amended: when several flight objects meet both capture
    tolerances, the scan runs over the whole registry and every
    match replaces the previous one, so after
    captureTargetByDirection the tracked-target identifier (and the
    object the tracking timer follows) is that of the last object in
    registry order that meets both tolerances; one
    isCapturedByDirection=true event is sent per object that meets
    them. *)
Theorem C5_last_match_is_tracked (s : state) (l1 l2 : list FlightObject.t)
    (fo : FlightObject.t) :
  flightObjects s = l1 ++ fo :: l2 ->
  meetsTolerances s fo = true ->
  (forall fo', In fo' l2 -> meetsTolerances s fo' = false) ->
  trackingTargetIdentifier (fst (captureTargetByDirection s)) =
    Some (FlightObject.identifier fo) /\
  trackTargetInterval (fst (captureTargetByDirection s)) =
    Some (Some (List.length l1)) /\
  count (is_isCapturedByDirection true) (snd (captureTargetByDirection s)) =
    if eventListener s
    then List.length (filter (meetsTolerances s) (flightObjects s))
    else 0%nat.
Proof.
  intros Hl Hfo Hl2.
  rewrite captureTargetByDirection_eq.
  destruct (capture_loop s (flightObjects s) 0 s (fun _ => eq_refl) eq_refl)
    as [H1 H2].
  rewrite H1, H2.
  rewrite Hl at 1 2. rewrite (lastMatch_split _ l1 l2 fo 0 Hfo Hl2).
  split; [reflexivity |]. split; [reflexivity |].
  destruct (eventListener s); [apply count_emits | reflexivity].
Qed.

(** *** The two objects on the beam axis *)

Lemma run_cons (o : op) (ops : list op) (s : state) :
  fst (run (o :: ops) s) = fst (run ops (fst (perform o s))).
Proof. cbn [run]. apply fst_andThen. Qed.

Lemma setAzimut_90 (s : state) : fst (setAzimut 90 s) = set_azimut 0 s.
Proof.
  unfold setAzimut.
  rewrite (JSFacts.gtb_false 90 360), (JSFacts.ltb_false 90 0),
    (JSFacts.gtb_false 90 270) by lra.
  cbn [fst]. f_equal. lra.
Qed.

Lemma onAxis_targetDistanceOf (id : string) (range : R) :
  0 < range -> targetDistanceOf (onAxis id range) = range.
Proof. intros Hr. unfold targetDistanceOf; simpl. apply JSFacts.hypot_x_0. lra. Qed.

Lemma onAxis_targetAzimutAngle (id : string) (range : R) :
  0 < range -> targetAzimutAngle (onAxis id range) = 0.
Proof.
  intros Hr. unfold targetAzimutAngle; simpl. rewrite JSFacts.atan2_pos_x by lra.
  replace (0 / range) with 0 by (field; lra). apply atan_0.
Qed.

Lemma onAxis_rayWidthAt (s : state) (id : string) (range : R) :
  0 < range -> 0 < rayWidth s -> 0 < rayWidthAt s (onAxis id range).
Proof.
  intros Hr Hw. pose proof PI_RGT_0 as Hpi.
  unfold rayWidthAt, rayWidthRad.
  rewrite onAxis_targetDistanceOf by exact Hr.
  apply Rdiv_lt_0_compat; [| lra].
  apply Rmult_lt_0_compat; [| lra].
  apply Rmult_lt_0_compat; [lra |].
  apply Rdiv_lt_0_compat; [| lra].
  apply Rmult_lt_0_compat; lra.
Qed.

Lemma onAxis_targetSize (id : string) (range : R) :
  targetSize (onAxis id range) = JS.Num (2 * sqrt (10 / PI) / 1000).
Proof.
  pose proof PI_RGT_0 as Hpi. unfold targetSize.
  cbn [onAxis FlightObject.rcs].
  rewrite JSFacts.Math_sqrt_Num by (apply Rlt_le, Rdiv_lt_0_compat; lra).
  cbn [JS.nmul]. now rewrite JSFacts.ndiv_Num by lra.
Qed.

Lemma onAxis_targetSpotAngle (s : state) (id : string) (range : R) :
  0 < range -> 0 < rayWidth s ->
  exists a, targetSpotAngle s (onAxis id range) = JS.Num a /\ 0 < a.
Proof.
  intros Hr Hw. pose proof PI_RGT_0 as Hpi.
  pose proof (onAxis_rayWidthAt s id range Hr Hw) as Hray.
  unfold targetSpotAngle.
  rewrite onAxis_targetSize, onAxis_targetDistanceOf by exact Hr.
  rewrite JSFacts.ndiv_Num by lra. rewrite JSFacts.ndiv_Num by lra.
  eexists. split; [reflexivity |].
  assert (Hs : 0 < sqrt (10 / PI)).
  { apply sqrt_lt_R0. apply Rdiv_lt_0_compat; lra. }
  apply Rdiv_lt_0_compat; [| exact Hray].
  apply Rdiv_lt_0_compat; [| exact Hr]. lra.
Qed.

Lemma onAxis_targetSpotAngle_eq (s : state) (id : string) (range : R) :
  0 < range -> 0 < rayWidth s ->
  targetSpotAngle s (onAxis id range) =
  JS.Num (2 * sqrt (10 / PI) / 1000 / range / rayWidthAt s (onAxis id range)).
Proof.
  intros Hr Hw.
  pose proof (onAxis_rayWidthAt s id range Hr Hw) as Hray.
  unfold targetSpotAngle.
  rewrite onAxis_targetSize, onAxis_targetDistanceOf by exact Hr.
  rewrite JSFacts.ndiv_Num by lra. now rewrite JSFacts.ndiv_Num by lra.
Qed.

(** A tracker pointing along the axis, with its antenna at 36 m, sees
    an object on the axis inside both tolerances. *)
Lemma onAxis_targetVerticalAngle (s : state) (id : string) (range : R) :
  0 < range -> radarHeight s = 36 ->
  targetVerticalAngle s (onAxis id range) = JS.Num 0.
Proof.
  intros Hr Hh. unfold targetVerticalAngle, targetHeightOffset.
  rewrite Hh, onAxis_targetDistanceOf by exact Hr.
  rewrite JSFacts.ndiv_Num by lra. f_equal.
  cbn [onAxis FlightObject.currentPoint Point.z].
  replace (0.036 - 36 / 1000) with 0 by lra. unfold Rdiv. ring.
Qed.

Lemma onAxis_meetsTolerances (s : state) (id : string) (range : R) :
  0 < range ->
  azimut s = 0 -> verticalAngle s = JS.Num 0 -> radarHeight s = 36 ->
  0 < rayWidth s ->
  meetsTolerances s (onAxis id range) = true.
Proof.
  intros Hr Ha Hv Hh Hw.
  destruct (onAxis_targetSpotAngle s id range Hr Hw) as [a [Hspot Hpos]].
  unfold meetsTolerances, isCapturedByAzimut, isCapturedByVerticalAngle.
  rewrite Hspot, Ha, Hv, onAxis_targetAzimutAngle by exact Hr.
  rewrite (onAxis_targetVerticalAngle s id range Hr Hh).
  cbn [JS.nabs JS.nmul JS.nsub JS.nadd JS.nneg JS.nltb].
  replace (0 - 0) with 0 by lra.
  replace (0 + - 0) with 0 by lra.
  rewrite Rabs_R0, (Rabs_right a) by lra.
  rewrite !JSFacts.ltb_true by lra. reflexivity.
Qed.

Lemma approach_state :
  fst (run approach tracker) =
  mkState 0 (JS.Num 0) 50 (-5) 75 80 [onAxis "first" 50; onAxis "second" 60]
    4 0.2 2 36 None None None true [].
Proof.
  unfold approach. rewrite !run_cons. cbn [perform run skip fst].
  rewrite setAzimut_90. reflexivity.
Qed.

(** C5, as stated, fails: with two objects inside both tolerances the
    tracker ends up following the one registered second, not the one
    registered first. *)
Lemma C5_later_object_is_tracked :
  flightObjects (fst (run approach tracker)) =
    [onAxis "first" 50; onAxis "second" 60] /\
  meetsTolerances (fst (run approach tracker)) (onAxis "first" 50) = true /\
  meetsTolerances (fst (run approach tracker)) (onAxis "second" 60) = true /\
  trackingTargetIdentifier (fst (captureTargetByDirection (fst (run approach tracker))))
    = Some "second".
Proof.
  rewrite approach_state.
  set (s := mkState 0 (JS.Num 0) 50 (-5) 75 80
              [onAxis "first" 50; onAxis "second" 60]
              4 0.2 2 36 None None None true []).
  assert (Hm : forall id range, 0 < range -> meetsTolerances s (onAxis id range) = true).
  { intros id range Hr. apply onAxis_meetsTolerances; try reflexivity; simpl; lra. }
  split; [reflexivity |].
  split; [apply Hm; lra |]. split; [apply Hm; lra |].
  rewrite captureTargetByDirection_eq.
  destruct (capture_loop s (flightObjects s) 0 s (fun _ => eq_refl) eq_refl) as [H1 _].
  rewrite H1. cbn [flightObjects s lastMatch]. rewrite !Hm by lra. reflexivity.
Qed.

(** The statement at the two objects on one line of sight. *)
Lemma C5_last_match_is_tracked_witness :
  trackingTargetIdentifier (fst (captureTargetByDirection (fst (run approach tracker))))
    = Some "second" /\
  trackTargetInterval (fst (captureTargetByDirection (fst (run approach tracker))))
    = Some (Some 1%nat).
Proof.
  destruct (C5_last_match_is_tracked (fst (run approach tracker))
              [onAxis "first" 50] [] (onAxis "second" 60)) as [H1 [H2 _]].
  - rewrite approach_state. reflexivity.
  - rewrite approach_state. apply onAxis_meetsTolerances; try reflexivity; simpl; lra.
  - intros fo' [].
  - split; [exact H1 | exact H2].
Defined.

End Capture.

(** ** The beam tracker: distance capture depends on direction capture *)

Module Coherence.
Import SNR Scenarios Steering Capture.

(** *** Distance capture, written out *)

Lemma captureTargetByDistance_step_eq (i : nat) (fo : FlightObject.t) (s : state) :
  captureTargetByDistance_step i fo s =
  if inDistanceWindow s fo
  then (set_trackTargetDistanceInterval
          (Some (findIndex (fun fo' => isTracked fo' s) 0 (flightObjects s))) s,
        if eventListener s then [Emit_isCapturedByDistance true] else [])
  else (s, []).
Proof.
  unfold captureTargetByDistance_step, inDistanceWindow.
  destruct (JS.ltb _ _ && isTracked fo s); reflexivity.
Qed.

(** While direction capture is idle no object passes the test. *)
Lemma idle_loop (l : list FlightObject.t) (i : nat) (s : state) :
  trackingTargetIdentifier s = None ->
  forEach captureTargetByDistance_step i l s = (s, []).
Proof.
  intros Hidle. revert i. induction l as [| fo l IH]; intros i.
  - reflexivity.
  - cbn [forEach]. unfold andThen.
    rewrite captureTargetByDistance_step_eq.
    unfold inDistanceWindow, isTracked. rewrite Hidle, andb_false_r.
    now rewrite IH.
Qed.

(** The loop of distance capture from a state that differs from [s0]
    in the distance timer only. *)
Lemma distance_loop (s0 : state) (l : list FlightObject.t) :
  forall (i : nat) (t : option timer),
    fst (forEach captureTargetByDistance_step i l
           (set_trackTargetDistanceInterval t s0)) =
    if existsb (inDistanceWindow s0) l
    then set_trackTargetDistanceInterval
           (Some (findIndex (fun fo' => isTracked fo' s0) 0 (flightObjects s0))) s0
    else set_trackTargetDistanceInterval t s0.
Proof.
  induction l as [| fo l IH]; intros i t.
  - reflexivity.
  - cbn [forEach existsb]. rewrite fst_andThen, captureTargetByDistance_step_eq.
    change (inDistanceWindow (set_trackTargetDistanceInterval t s0) fo)
      with (inDistanceWindow s0 fo).
    destruct (inDistanceWindow s0 fo); cbn [fst orb].
    + change (set_trackTargetDistanceInterval ?a (set_trackTargetDistanceInterval t s0))
        with (set_trackTargetDistanceInterval a s0).
      rewrite IH. now destruct (existsb (inDistanceWindow s0) l).
    + apply IH.
Qed.

Lemma set_trackTargetDistanceInterval_self (s : state) :
  set_trackTargetDistanceInterval (trackTargetDistanceInterval s) s = s.
Proof. now destruct s. Qed.

Lemma captureTargetByDistance_fst (s : state) :
  fst (captureTargetByDistance s) =
  if existsb (inDistanceWindow s) (flightObjects s)
  then set_trackTargetDistanceInterval
         (Some (findIndex (fun fo' => isTracked fo' s) 0 (flightObjects s))) s
  else s.
Proof.
  unfold captureTargetByDistance.
  rewrite <- (set_trackTargetDistanceInterval_self s) at 2.
  rewrite distance_loop.
  now rewrite set_trackTargetDistanceInterval_self.
Qed.

Lemma findIndex_found {A : Type} (p : A -> bool) (l : list A) (i : nat) :
  existsb p l = true ->
  exists k a, findIndex p i l = Some (i + k)%nat /\ nth_error l k = Some a /\ p a = true.
Proof.
  revert i. induction l as [| a l IH]; intros i Hex; [discriminate |].
  simpl in *. destruct (p a) eqn:Ha.
  - exists 0%nat, a. rewrite Nat.add_0_r. auto.
  - simpl in Hex. destruct (IH (S i) Hex) as [k [b [H1 [H2 H3]]]].
    exists (S k), b. rewrite H1. split; [f_equal; lia | auto].
Qed.

(** *** Coherence along every run *)

Lemma coherent_constructor (cfg : ISNR) : coherent (constructor cfg).
Proof. split; [discriminate | reflexivity]. Qed.

Lemma coherent_resetCaptureTargetByDirection (s : state) :
  coherent (fst (resetCaptureTargetByDirection s)).
Proof. split; [discriminate | reflexivity]. Qed.

Lemma coherent_resetCaptureTargetByDistance (s : state) :
  coherent s -> coherent (fst (resetCaptureTargetByDistance s)).
Proof. intros [_ H2]. split; [discriminate | exact H2]. Qed.

Lemma coherent_forEach {A : Type} (body : nat -> A -> action) :
  (forall i a s, coherent s -> coherent (fst (body i a s))) ->
  forall l i s, coherent s -> coherent (fst (forEach body i l s)).
Proof.
  intros Hbody. induction l as [| a l IH]; intros i s Hs.
  - exact Hs.
  - cbn [forEach]. rewrite fst_andThen. apply IH, Hbody, Hs.
Qed.

Lemma coherent_captureTargetByDirection (s : state) :
  coherent s -> coherent (fst (captureTargetByDirection s)).
Proof.
  apply coherent_forEach. clear s. intros i fo s Hs.
  rewrite captureTargetByDirection_step_eq.
  destruct (meetsTolerances s fo); [| exact Hs].
  split; reflexivity.
Qed.

Lemma coherent_captureTargetByDistance (s : state) :
  coherent s -> coherent (fst (captureTargetByDistance s)).
Proof.
  apply coherent_forEach. clear s. intros i fo s Hs.
  rewrite captureTargetByDistance_step_eq.
  destruct (inDistanceWindow s fo) eqn:Hw; [| exact Hs].
  destruct Hs as [_ H2]. split; [| exact H2].
  intros _. cbn [fst]. unfold inDistanceWindow, isTracked in Hw.
  apply andb_true_iff in Hw. destruct Hw as [_ Hw].
  cbn. now destruct (trackingTargetIdentifier s).
Qed.

Lemma coherent_resets (s : state) :
  coherent (fst ((resetCaptureTargetByDirection ;; resetCaptureTargetByDistance) s)).
Proof. split; [discriminate | reflexivity]. Qed.

Lemma coherent_trackTargetInterval_callback (s : state) :
  coherent s -> coherent (fst (trackTargetInterval_callback s)).
Proof.
  intros Hs. unfold trackTargetInterval_callback.
  destruct (trackTargetInterval s) as [[i |] |]; try exact Hs.
  destruct (nth_error (flightObjects s) i) as [fo |]; try exact Hs.
  rewrite !fst_andThen.
  destruct (JS.nltb _ _ || JS.ngtb _ _).
  - split; [discriminate | reflexivity].
  - exact Hs.
Qed.

Lemma coherent_trackTargetDistanceInterval_callback (s : state) :
  coherent s -> coherent (fst (trackTargetDistanceInterval_callback s)).
Proof.
  intros Hs. unfold trackTargetDistanceInterval_callback.
  destruct (trackTargetDistanceInterval s) as [[i |] |]; try exact Hs.
  destruct (nth_error (flightObjects s) i) as [fo |]; try exact Hs.
  rewrite !fst_andThen.
  destruct (JS.gtb _ _).
  - split; [discriminate | reflexivity].
  - exact Hs.
Qed.

Lemma calculateTargetsParams_step_fst (random : R) (fo : FlightObject.t) (s : state) :
  fst (calculateTargetsParams_step random fo s) =
  if FlightObject.isDestroyed fo && isTracked fo s
  then fst ((resetCaptureTargetByDirection ;; resetCaptureTargetByDistance) s)
  else s.
Proof.
  unfold calculateTargetsParams_step. rewrite !fst_andThen. cbv beta zeta.
  match goal with
  | |- context [fst (if FlightObject.isLaunched fo &&
                        negb (FlightObject.isDestroyed fo) then ?a else ?b)] =>
      assert (E1 : fst (if FlightObject.isLaunched fo &&
                           negb (FlightObject.isDestroyed fo) then a else b) = s)
  end.
  { destruct (FlightObject.isLaunched fo && negb (FlightObject.isDestroyed fo));
      [| reflexivity].
    destruct (JS.ltb _ _ && JS.nltb _ _); reflexivity. }
  rewrite E1. clear E1.
  assert (E2 : fst (if isTracked fo s && isSome (trackTargetInterval s) &&
                       isSome (trackTargetDistanceInterval s) && eventListener s
                    then (s, [Emit_targetDistance (targetDistance s);
                              Emit_targetVelocity (FlightObject.velocity fo);
                              Emit_targetHeight
                                (Rabs (Point.z (FlightObject.currentPoint fo) * 1000))])
                    else (s, [])) = s).
  { destruct (isTracked fo s && isSome (trackTargetInterval s) &&
              isSome (trackTargetDistanceInterval s) && eventListener s); reflexivity. }
  rewrite E2. clear E2.
  destruct (FlightObject.isDestroyed fo && isTracked fo s); reflexivity.
Qed.

Lemma coherent_calculateTargetsParams (random : nat -> R) (s : state) :
  coherent s -> coherent (fst (calculateTargetsParams random s)).
Proof.
  apply coherent_forEach. clear s. intros i fo s Hs.
  rewrite calculateTargetsParams_step_fst.
  destruct (FlightObject.isDestroyed fo && isTracked fo s); [| exact Hs].
  apply coherent_resets.
Qed.

Lemma coherent_calculateMissiles (s : state) :
  coherent s -> coherent (fst (calculateMissiles s)).
Proof.
  apply coherent_forEach. clear s. intros i m s Hs.
  now destruct (negb (SAMissile.isDestroyedMissile m)).
Qed.

Lemma coherent_perform (o : op) (s : state) :
  coherent s -> coherent (fst (perform o s)).
Proof.
  intros Hs. destruct o; cbn [perform].
  - exact Hs.
  - unfold setVerticalAngle. now destruct (JS.gtb _ _ && JS.ltb _ _).
  - exact Hs.
  - exact Hs.
  - exact Hs.
  - unfold setIndicatorTargetDistance. now destruct (JS.gtb _ _ && JS.ltb _ _).
  - now apply coherent_captureTargetByDirection.
  - apply coherent_resetCaptureTargetByDirection.
  - now apply coherent_captureTargetByDistance.
  - now apply coherent_resetCaptureTargetByDistance.
  - unfold interval_callback. rewrite fst_andThen.
    now apply coherent_calculateMissiles, coherent_calculateTargetsParams.
  - now apply coherent_trackTargetInterval_callback.
  - now apply coherent_trackTargetDistanceInterval_callback.
  - now destruct (sameIdentifiers _ _ && Nat.eqb _ _).
Qed.

Lemma coherent_run (ops : list op) (s : state) :
  coherent s -> coherent (fst (run ops s)).
Proof.
  revert s. induction ops as [| o ops IH]; intros s Hs.
  - exact Hs.
  - rewrite run_cons. apply IH, coherent_perform, Hs.
Qed.

Lemma reachable_coherent (s : state) : reachable s -> coherent s.
Proof.
  intros [cfg [ops <-]]. apply coherent_run, coherent_constructor.
Qed.

(** *** The recapture run *)

Lemma onAxis_inDistanceWindow (s : state) (id : string) (range : R) :
  0 < range ->
  targetDistance s = range -> distanceDetectRange s = 2 ->
  trackingTargetIdentifier s = Some id ->
  inDistanceWindow s (onAxis id range) = true.
Proof.
  intros Hr Hd Hw Ht. unfold inDistanceWindow, isTracked.
  rewrite Hd, Hw, Ht, onAxis_targetDistanceOf by exact Hr.
  replace (range - range) with 0 by lra. rewrite Rabs_R0.
  rewrite JSFacts.ltb_true by lra. simpl. apply String.eqb_refl.
Qed.

Lemma recapture_state :
  fst (run recapture tracker) =
  mkState 0 (JS.Num 0) 50 (-5) 75 80 [onAxis "first" 50; onAxis "second" 60]
    4 0.2 2 36
    (Some (Some 1%nat)) (Some (Some 0%nat)) (Some "second") true [].
Proof.
  unfold recapture. rewrite !run_cons. cbn [run skip fst].
  cbn [perform]. rewrite setAzimut_90.
  set (s2 := fst (addFlightObject (onAxis "first" 50) (set_azimut 0 tracker))).
  assert (Hm2 : meetsTolerances s2 (onAxis "first" 50) = true).
  { apply onAxis_meetsTolerances; try reflexivity; simpl; lra. }
  assert (E3 : fst (captureTargetByDirection s2) = tracking 0 (onAxis "first" 50) s2).
  { rewrite captureTargetByDirection_eq.
    destruct (capture_loop s2 (flightObjects s2) 0 s2 (fun _ => eq_refl) eq_refl)
      as [H1 _].
    rewrite H1.
    replace (flightObjects s2) with [onAxis "first" 50] by reflexivity.
    cbn [lastMatch]. now rewrite Hm2. }
  rewrite E3.
  set (s3 := tracking 0 (onAxis "first" 50) s2).
  assert (E4 : fst (captureTargetByDistance s3) =
               set_trackTargetDistanceInterval (Some (Some 0%nat)) s3).
  { rewrite captureTargetByDistance_fst.
    replace (flightObjects s3) with [onAxis "first" 50] by reflexivity.
    cbn [existsb].
    rewrite onAxis_inDistanceWindow by (try reflexivity; lra).
    reflexivity. }
  rewrite E4.
  set (s5 := fst (addFlightObject (onAxis "second" 60) _)).
  assert (Hm5 : forall id range, 0 < range ->
                                 meetsTolerances s5 (onAxis id range) = true).
  { intros id range Hr. apply onAxis_meetsTolerances; try reflexivity; simpl; lra. }
  rewrite captureTargetByDirection_eq.
  destruct (capture_loop s5 (flightObjects s5) 0 s5 (fun _ => eq_refl) eq_refl)
    as [H1 _].
  rewrite H1.
  replace (flightObjects s5) with [onAxis "first" 50; onAxis "second" 60]
    by reflexivity.
  cbn [lastMatch]. rewrite !Hm5 by lra. reflexivity.
Qed.

(** C6: distance capture is to be Tracking only while direction
    capture is Tracking the same target, and the tracker misses that
    on a second direction capture.  The object "first" is captured by
    direction and by distance, "second" is registered farther out on
    the same line of sight, and direction capture is attempted again:
    the run ends in a reachable state in which the distance timer
    still follows "first" while direction capture tracks "second".
    [trackTargetByDirection] replaces the direction timer and the
    tracked identifier and leaves the distance timer as it is, where
    every other change of the direction target goes through
    [resetCaptureTargetByDirection], which resets distance capture
    too, and [captureTargetByDistance] itself asks for the tracked
    identifier. *)
Lemma C6_recapture_separates_targets :
  reachable (fst (run recapture tracker)) /\
  isSome (trackTargetDistanceInterval (fst (run recapture tracker))) = true /\
  distanceTarget (fst (run recapture tracker)) = Some "first" /\
  trackingTargetIdentifier (fst (run recapture tracker)) = Some "second".
Proof.
  split.
  - exists (mkISNR 2 50 4 80), recapture. reflexivity.
  - rewrite recapture_state. repeat split.
Qed.

(** What the tracker does keep of the coupling of the two captures:
    in every reachable state (1) distance capture is Tracking only if
    direction capture is Tracking: the distance timer exists only
    while a tracked-target identifier and the direction timer exist;
    (2) calling captureTargetByDistance while direction capture is
    Idle leaves the state unchanged, with distance capture Idle, and
    produces no event, whatever the range cursor and the flight
    objects; (3) a call of captureTargetByDistance either finds no
    object in the detection window that carries the tracked
    identifier and changes nothing, or leaves distance capture
    Tracking the target direction capture is tracking at that
    moment. *)
Theorem distance_capture_needs_direction (s : state) :
  reachable s ->
  (isSome (trackTargetDistanceInterval s) = true ->
   isSome (trackingTargetIdentifier s) = true /\
   isSome (trackTargetInterval s) = true) /\
  (trackingTargetIdentifier s = None ->
   captureTargetByDistance s = (s, []) /\
   trackTargetDistanceInterval (fst (captureTargetByDistance s)) = None /\
   count (is_isCapturedByDistance true) (snd (captureTargetByDistance s)) = 0%nat) /\
  ((forall fo, In fo (flightObjects s) -> inDistanceWindow s fo = false) /\
   fst (captureTargetByDistance s) = s
   \/
   exists id,
     trackingTargetIdentifier (fst (captureTargetByDistance s)) = Some id /\
     isSome (trackTargetDistanceInterval (fst (captureTargetByDistance s))) = true /\
     distanceTarget (fst (captureTargetByDistance s)) = Some id).
Proof.
  intros Hreach. destruct (reachable_coherent s Hreach) as [Hc1 Hc2].
  split; [| split].
  - intros Hd. split; [auto |]. rewrite Hc2. auto.
  - intros Hidle.
    assert (E : captureTargetByDistance s = (s, []))
      by (apply idle_loop; exact Hidle).
    rewrite E. cbn [fst snd]. split; [reflexivity |]. split; [| reflexivity].
    destruct (trackTargetDistanceInterval s) as [t |]; [| reflexivity].
    specialize (Hc1 eq_refl). rewrite Hidle in Hc1. discriminate.
  - rewrite captureTargetByDistance_fst.
    destruct (existsb (inDistanceWindow s) (flightObjects s)) eqn:Hex.
    + right.
      assert (Hex' : existsb (fun fo' => isTracked fo' s) (flightObjects s) = true).
      { apply existsb_exists in Hex. destruct Hex as [fo [Hin Hw]].
        apply existsb_exists. exists fo. split; [exact Hin |].
        unfold inDistanceWindow in Hw. apply andb_true_iff in Hw. tauto. }
      destruct (findIndex_found _ _ 0 Hex') as [k [fo [Hfind [Hnth Htr]]]].
      rewrite Hfind. unfold isTracked in Htr.
      destruct (trackingTargetIdentifier s) as [id |] eqn:Hid; [| discriminate].
      apply String.eqb_eq in Htr.
      exists id. split; [exact Hid |]. split; [reflexivity |].
      unfold distanceTarget. cbn. rewrite Hnth. now rewrite Htr.
    + left. split; [| reflexivity].
      intros fo Hin. destruct (inDistanceWindow s fo) eqn:Hw; [| reflexivity].
      assert (existsb (inDistanceWindow s) (flightObjects s) = true)
        by (apply existsb_exists; eauto).
      congruence.
Qed.

Lemma approach_reachable : reachable (fst (run approach tracker)).
Proof. exists (mkISNR 2 50 4 80), approach. reflexivity. Qed.

(** The statement at the tracker of the recapture run, where both
    captures are tracking, and at the tracker steered at two
    registered objects with direction capture still idle. *)
Lemma distance_capture_needs_direction_witness :
  (isSome (trackingTargetIdentifier (fst (run recapture tracker))) = true /\
   isSome (trackTargetInterval (fst (run recapture tracker))) = true) /\
  captureTargetByDistance (fst (run approach tracker)) =
    (fst (run approach tracker), []).
Proof.
  split.
  - destruct (distance_capture_needs_direction (fst (run recapture tracker)))
      as [H _].
    + exists (mkISNR 2 50 4 80), recapture. reflexivity.
    + apply H. now rewrite recapture_state.
  - destruct (distance_capture_needs_direction (fst (run approach tracker))
                approach_reachable) as [_ [H _]].
    apply H. now rewrite approach_state.
Defined.

End Coherence.

(** ** The detection engine: designation and correlation queries *)

Module Queries.
Import SAM SAM_PARAMS SAMFacts Scenarios ScenarioFacts.

Lemma getFlightObject_unknown (id : string) (s : state) :
  ~ In id (map FlightObject.identifier (flightObjects s)) ->
  getFlightObject id s = None.
Proof.
  unfold getFlightObject. induction (flightObjects s) as [| fo fos IH]; intros Hn.
  - reflexivity.
  - simpl in *. destruct (String.eqb (FlightObject.identifier fo) id) eqn:E.
    + apply String.eqb_eq in E. tauto.
    + apply IH. tauto.
Qed.

Lemma getFlightObject_registered (fo : FlightObject.t) (s : state) :
  NoDup (map FlightObject.identifier (flightObjects s)) ->
  In fo (flightObjects s) ->
  getFlightObject (FlightObject.identifier fo) s = Some fo.
Proof.
  unfold getFlightObject. induction (flightObjects s) as [| fo' fos IH]; intros Hnd Hin.
  - contradiction.
  - simpl in *. inversion Hnd as [| ? ? Hnot Hnd']; subst.
    destruct Hin as [-> | Hin].
    + now rewrite String.eqb_refl.
    + destruct (String.eqb (FlightObject.identifier fo') (FlightObject.identifier fo))
        eqn:E.
      * apply String.eqb_eq in E. exfalso. apply Hnot. rewrite E. now apply in_map.
      * now apply IH.
Qed.

(** The designation is unavailable for an identifier no registered
    object carries, and, for a registered object (identifiers being
    distinct), exactly when the object is destroyed. *)
Theorem designation_available_iff_alive (s : state) (random1 random2 random3 : R) :
  (forall id,
      ~ In id (map FlightObject.identifier (flightObjects s)) ->
      getFlightObjectDesignation id random1 random2 random3 s = None) /\
  (NoDup (map FlightObject.identifier (flightObjects s)) ->
   forall fo,
     In fo (flightObjects s) ->
     (getFlightObjectDesignation (FlightObject.identifier fo)
        random1 random2 random3 s = None <->
      FlightObject.isDestroyed fo = true)).
Proof.
  split.
  - intros id Hn. unfold getFlightObjectDesignation.
    now rewrite getFlightObject_unknown.
  - intros Hnd fo Hin. unfold getFlightObjectDesignation.
    rewrite getFlightObject_registered by assumption.
    destruct (FlightObject.isDestroyed fo); split; intros; auto; discriminate.
Qed.

(** The designation at the object shot down in the scenario. *)
Lemma designation_available_iff_alive_witness :
  getFlightObjectDesignation "a" 0 0 0 (engine (downed "a")) = None <->
  FlightObject.isDestroyed (downed "a") = true.
Proof.
  destruct (designation_available_iff_alive (engine (downed "a")) 0 0 0) as [_ H].
  apply (H (NoDup_cons "a" (fun f : In "a" [] => f) (NoDup_nil string))
           (downed "a")).
  now left.
Defined.

(** An available designation is the true geometry plus a jitter of at
    most one degree on each angle and one kilometre on the distance,
    for random samples in [0, 1); beyond MAX_DISTANCE the distance
    reported is MAX_DISTANCE - RADAR_DISTANCE_WINDOW, without jitter. *)
Theorem designation_accuracy (s : state) (id : string)
    (random1 random2 random3 : R) (target : FlightObject.t) (d : Designation.t) :
  0 <= random1 < 1 -> 0 <= random2 < 1 -> 0 <= random3 < 1 ->
  getFlightObject id s = Some target ->
  0 < targetDistance target ->
  getFlightObjectDesignation id random1 random2 random3 s = Some d ->
  Rabs (Designation.azimut d - targetAzimut target) <= PI / 180 /\
  Rabs (Designation.elevation d - targetElevation target) <= PI / 180 /\
  (MAX_DISTANCE < targetDistance target ->
   Designation.distance d = MAX_DISTANCE - RADAR_DISTANCE_WINDOW) /\
  (targetDistance target <= MAX_DISTANCE ->
   Rabs (Designation.distance d - targetDistance target) <= 1) /\
  Designation.distance d < MAX_DISTANCE + 1.
Proof.
  intros H1 H2 H3 Hget Hpos Hd. pose proof PI_RGT_0 as Hpi.
  unfold getFlightObjectDesignation in Hd. rewrite Hget in Hd.
  destruct (FlightObject.isDestroyed target); [discriminate |].
  inversion Hd; subst d; clear Hd. cbn [Designation.azimut Designation.elevation
                                        Designation.distance].
  unfold DESIGNATION_ANGLE_ACCURACY, DESIGNATION_DISTANCE_ACCURACY,
    MAX_DISTANCE, RADAR_DISTANCE_WINDOW.
  assert (Ha : forall x r, 0 <= r < 1 ->
                           Rabs (x + 1 * (PI / 180) * (r * 2 - 1) - x) <= PI / 180).
  { intros x r Hr. apply Rabs_le. split; nra. }
  split; [apply Ha; assumption |]. split; [apply Ha; assumption |].
  unfold JS.gtb, JS.ltb.
  destruct (Rlt_dec 120 (targetDistance target)) as [Hfar | Hnear].
  - split; [reflexivity |]. split; [lra | lra].
  - split; [lra |]. split; [| lra].
    intros _. apply Rabs_le. split; lra.
Qed.

(** The accuracy at the inbound object of the scenario, with all
    samples at one half. *)
Lemma designation_accuracy_witness :
  exists d,
    getFlightObjectDesignation "a" 0.5 0.5 0.5 (engine (inbound "a")) = Some d /\
    Rabs (Designation.azimut d - targetAzimut (inbound "a")) <= PI / 180 /\
    Designation.distance d < MAX_DISTANCE + 1.
Proof.
  exists (Designation.mk
            (targetAzimut (inbound "a") + DESIGNATION_ANGLE_ACCURACY * (0.5 * 2 - 1))
            (targetElevation (inbound "a") +
             DESIGNATION_ANGLE_ACCURACY * (0.5 * 2 - 1))
            (targetDistance (inbound "a") +
             DESIGNATION_DISTANCE_ACCURACY * (0.5 * 2 - 1))).
  assert (E : getFlightObjectDesignation "a" 0.5 0.5 0.5 (engine (inbound "a")) =
              Some (Designation.mk
                      (targetAzimut (inbound "a") +
                       DESIGNATION_ANGLE_ACCURACY * (0.5 * 2 - 1))
                      (targetElevation (inbound "a") +
                       DESIGNATION_ANGLE_ACCURACY * (0.5 * 2 - 1))
                      (targetDistance (inbound "a") +
                       DESIGNATION_DISTANCE_ACCURACY * (0.5 * 2 - 1)))).
  { unfold getFlightObjectDesignation, getFlightObject. simpl.
    rewrite inbound_targetDistance.
    rewrite (JSFacts.gtb_false 50 MAX_DISTANCE) by (unfold MAX_DISTANCE; lra).
    reflexivity. }
  split; [exact E |].
  destruct (designation_accuracy (engine (inbound "a")) "a" 0.5 0.5 0.5
              (inbound "a") _ ltac:(lra) ltac:(lra) ltac:(lra) eq_refl
              ltac:(rewrite inbound_targetDistance; lra) E)
    as [H1 [_ [_ [_ H5]]]].
  split; [exact H1 | exact H5].
Defined.

End Queries.

Module Correlating.
Import SAM SAM_PARAMS SAMFacts Scenarios ScenarioFacts.

Lemma get_in_keys {V : Type} (id : string) (o : JSObject.t (K := string) (V := V))
    (v : V) :
  JSObject.get String.eqb id o = Some v -> In id (JSObject.keys o).
Proof.
  induction o as [| [k w] o IH]; simpl; [discriminate |].
  destruct (String.eqb id k) eqn:E.
  - apply String.eqb_eq in E. auto.
  - auto.
Qed.

Lemma getTargetOnAzimutAndElevation_eq (azimut elevation : R) (s : state) :
  getTargetOnAzimutAndElevation azimut elevation s =
  match find (fun id => match lookup id (recognizedTargets s) with
                        | Some target => correlates azimut elevation target
                        | None => false
                        end)
             (JSObject.keys (recognizedTargets s)) with
  | Some id => if String.eqb id EmptyString then None else Some id
  | None => None
  end.
Proof. reflexivity. Qed.

(** The correlation query is sound: the identifier it returns is not
    empty and names an entry whose azimuth and elevation are within
    the half-width windows of the query.  It is complete when no key
    is the empty string: it returns null exactly when no entry is
    within both windows. *)
Theorem correlation_query_sound_complete (s : state) (azimut elevation : R) :
  (forall id,
      getTargetOnAzimutAndElevation azimut elevation s = Some id ->
      id <> "" /\
      exists target,
        lookup id (recognizedTargets s) = Some target /\
        Rabs (IRecognizedTargets.azimut target - azimut)
          <= RADAR_AZIMUT_DETECT_ACCURACY / 2 /\
        Rabs (elevation - IRecognizedTargets.elevation target)
          <= RADAR_ELEVATION_DETECT_ACCURACY / 2) /\
  ((forall id, In id (JSObject.keys (recognizedTargets s)) -> id <> "") ->
   (getTargetOnAzimutAndElevation azimut elevation s = None <->
    forall id target,
      lookup id (recognizedTargets s) = Some target ->
      correlates azimut elevation target = false)).
Proof.
  rewrite getTargetOnAzimutAndElevation_eq.
  set (test := fun id => match lookup id (recognizedTargets s) with
                         | Some target => correlates azimut elevation target
                         | None => false
                         end).
  split.
  - intros id H. destruct (find test _) as [id' |] eqn:Hf; [| discriminate].
    destruct (String.eqb id' "") eqn:He; [discriminate |].
    inversion H; subst id'. apply String.eqb_neq in He. split; [exact He |].
    apply find_some in Hf. destruct Hf as [_ Ht]. unfold test in Ht.
    destruct (lookup id (recognizedTargets s)) as [target |]; [| discriminate].
    exists target. split; [reflexivity |].
    unfold correlates in Ht. apply andb_true_iff in Ht.
    rewrite !JSFacts.leb_iff in Ht. exact Ht.
  - intros Hkeys. split.
    + intros H id target Hl.
      destruct (find test _) as [id' |] eqn:Hf.
      * apply find_some in Hf. destruct Hf as [Hin _].
        apply Hkeys in Hin. apply String.eqb_neq in Hin.
        rewrite Hin in H. discriminate.
      * pose proof (find_none _ _ Hf id (get_in_keys id _ target Hl)) as Ht.
        unfold test in Ht. now rewrite Hl in Ht.
    + intros H. destruct (find test _) as [id' |] eqn:Hf; [| reflexivity].
      apply find_some in Hf. destruct Hf as [_ Ht]. unfold test in Ht.
      destruct (lookup id' (recognizedTargets s)) as [target |] eqn:Hl;
        [| discriminate].
      rewrite (H id' target Hl) in Ht. discriminate.
Qed.

(** The query at the bearing and elevation of the inbound object finds
    it, inside both windows. *)
Lemma correlation_query_sound_complete_witness :
  getTargetOnAzimutAndElevation 0 (targetElevation (inbound "a"))
    (fst (tick (engine (inbound "a")))) = Some "a" /\
  exists target,
    lookup "a" (recognizedTargets (fst (tick (engine (inbound "a"))))) = Some target /\
    Rabs (IRecognizedTargets.azimut target - 0)
      <= RADAR_AZIMUT_DETECT_ACCURACY / 2 /\
    Rabs (targetElevation (inbound "a") - IRecognizedTargets.elevation target)
      <= RADAR_ELEVATION_DETECT_ACCURACY / 2.
Proof.
  assert (E : getTargetOnAzimutAndElevation 0 (targetElevation (inbound "a"))
                (fst (tick (engine (inbound "a")))) = Some "a").
  { rewrite Recognition.engine_inbound_state.
    rewrite getTargetOnAzimutAndElevation_eq.
    cbn [recognizedTargets JSObject.keys map fst find JSObject.get].
    rewrite String.eqb_refl. unfold correlates.
    cbn [IRecognizedTargets.azimut IRecognizedTargets.elevation recognizedTarget].
    rewrite inbound_targetAzimut.
    rewrite (JSFacts.ltb_false 0 0) by lra.
    replace (0 - 0) with 0 by lra.
    replace (targetElevation (inbound "a") - targetElevation (inbound "a"))
      with 0 by lra.
    rewrite Rabs_R0.
    pose proof PI_RGT_0.
    rewrite !JSFacts.leb_true
      by (unfold RADAR_AZIMUT_DETECT_ACCURACY, RADAR_ELEVATION_DETECT_ACCURACY; lra).
    reflexivity. }
  split; [exact E |].
  destruct (correlation_query_sound_complete (fst (tick (engine (inbound "a")))) 0
              (targetElevation (inbound "a"))) as [Hsound _].
  exact (proj2 (Hsound "a" E)).
Defined.

(** The three-way query returns an identifier exactly when the
    two-way query returns that identifier and the distance stored for
    it is within the half-width window: it never falls back on
    another target in the angular windows. *)
Theorem distance_query_refines_angular (s : state) (azimut elevation distance : R)
    (id : string) :
  getTargetOnAzimutElevationAndDistance azimut elevation distance s = Some id <->
  getTargetOnAzimutAndElevation azimut elevation s = Some id /\
  exists target,
    lookup id (recognizedTargets s) = Some target /\
    Rabs (IRecognizedTargets.distance target - distance)
      <= RADAR_DISTANCE_DETECT_ACCURACY / 2.
Proof.
  unfold getTargetOnAzimutElevationAndDistance.
  destruct (getTargetOnAzimutAndElevation azimut elevation s) as [id' |].
  - destruct (lookup id' (recognizedTargets s)) as [target |] eqn:Hl.
    + destruct (JS.leb _ _) eqn:Hd.
      * split.
        -- intros H. inversion H; subst id'. split; [reflexivity |].
           exists target. split; [exact Hl |]. now apply JSFacts.leb_iff.
        -- intros [H _]. exact H.
      * split; [discriminate |].
        intros [H [target' [Hl' Hd']]]. inversion H; subst id'.
        rewrite Hl in Hl'. inversion Hl'; subst target'.
        apply JSFacts.leb_iff in Hd'. congruence.
    + split; [discriminate |].
      intros [H [target' [Hl' _]]]. inversion H; subst id'. congruence.
  - split; [discriminate | intros [H _]; discriminate].
Qed.

End Correlating.

(** ** The detection engine: what every run keeps *)

Module EngineRuns.
Import SAM SAM_PARAMS SAMFacts Scenarios ScenarioFacts Sweep.

Section Tables.
Context {V : Type} (P : string * V -> Prop).

Lemma Forall_set (k : string) (v : V) (o : JSObject.t) :
  Forall P o -> P (k, v) -> Forall P (JSObject.set String.eqb k v o).
Proof.
  intros Ho Hv. induction o as [| [k' v'] o IH]; simpl.
  - constructor; [exact Hv | constructor].
  - inversion Ho; subst.
    destruct (String.eqb k k') eqn:E.
    + apply String.eqb_eq in E. subst k'. constructor; assumption.
    + constructor; auto.
Qed.

Lemma Forall_delete (k : string) (o : JSObject.t (V := V)) :
  Forall P o -> Forall P (JSObject.delete String.eqb k o).
Proof.
  intros Ho. induction o as [| [k' v'] o IH]; simpl.
  - constructor.
  - inversion Ho; subst.
    destruct (String.eqb k k'); [auto | constructor; auto].
Qed.

Lemma get_in (k : string) (v : V) (o : JSObject.t) :
  JSObject.get String.eqb k o = Some v -> In (k, v) o.
Proof.
  induction o as [| [k' v'] o IH]; simpl; [discriminate |].
  destruct (String.eqb k k') eqn:E.
  - apply String.eqb_eq in E. intros H. inversion H; subst. now left.
  - auto.
Qed.

End Tables.

(** The entry written for an object that passes both gates is sound. *)
Lemma recognizedTarget_sound (fo : FlightObject.t) :
  isTargetVisible fo = true -> inAllowedElevation fo = true ->
  soundEntry (FlightObject.identifier fo, recognizedTarget fo).
Proof.
  intros Hv He. unfold soundEntry. cbn [fst snd].
  unfold isTargetVisible, isInVision in Hv.
  apply andb_true_iff in Hv. destruct Hv as [Hh _].
  apply JSFacts.leb_iff in Hh.
  unfold inAllowedElevation in He.
  apply andb_true_iff in He. destruct He as [Hd He].
  apply andb_true_iff in He. destruct He as [Hlo Hhi].
  apply JSFacts.gtb_iff in Hlo. apply JSFacts.ltb_iff in Hhi.
  assert (Hd' : targetDistance fo <> 0).
  { unfold JS.eqb in Hd. destruct (Req_dec_T (targetDistance fo) 0);
      [discriminate | assumption]. }
  pose proof (JSFacts.hypot_nonneg (Point.x (FlightObject.currentPoint fo))
                (Point.y (FlightObject.currentPoint fo))) as Hnn.
  fold (targetDistance fo) in Hnn.
  pose proof (JSFacts.atan2_bound (Point.y (FlightObject.currentPoint fo))
                (Point.x (FlightObject.currentPoint fo))) as Hb.
  fold (targetAzimut fo) in Hb.
  cbn [recognizedTarget IRecognizedTargets.identifier IRecognizedTargets.azimut
       IRecognizedTargets.elevation IRecognizedTargets.distance
       IRecognizedTargets.height IRecognizedTargets.visibilityK].
  split; [reflexivity |].
  split.
  { unfold JS.ltb. destruct (Rlt_dec (targetAzimut fo) 0); lra. }
  split; [lra |]. split; [lra |]. split; [exact Hh |].
  fold (visibilityK fo).
  unfold JS.gtb, JS.ltb. destruct (Rlt_dec 1 (visibilityK fo)); lra.
Qed.

Lemma step_keeps_sound (ids : list string) (fo : FlightObject.t) rt :
  In (FlightObject.identifier fo) ids ->
  Forall (fun entry => In (fst entry) ids /\ soundEntry entry) rt ->
  Forall (fun entry => In (fst entry) ids /\ soundEntry entry)
         (fst (recalculateTargets_step fo rt)).
Proof.
  intros Hin Hrt. unfold recalculateTargets_step.
  destruct (FlightObject.isLaunched fo); cbn [negb fst]; [| exact Hrt].
  destruct (FlightObject.isDestroyed fo); cbn [negb fst].
  - now apply Forall_delete.
  - destruct (isTargetVisible fo) eqn:Hv; destruct (inAllowedElevation fo) eqn:He;
      cbn [andb fst]; try (now apply Forall_delete).
    apply Forall_set; [exact Hrt |].
    split; [exact Hin | now apply recognizedTarget_sound].
Qed.

Lemma loop_keeps_sound (ids : list string) (fos : list FlightObject.t) :
  forall rt,
    (forall fo, In fo fos -> In (FlightObject.identifier fo) ids) ->
    Forall (fun entry => In (fst entry) ids /\ soundEntry entry) rt ->
    Forall (fun entry => In (fst entry) ids /\ soundEntry entry)
           (fst (recalculateTargets_loop fos rt)).
Proof.
  induction fos as [| fo fos IH]; intros rt Hids Hrt.
  - exact Hrt.
  - rewrite targets_loop_cons. cbn [fst]. apply IH.
    + intros fo' Hin. apply Hids. now right.
    + apply step_keeps_sound; [apply Hids; now left | exact Hrt].
Qed.

(** [kill()] keeps the identifier, so a sweep keeps the identifiers of
    the registry. *)
Lemma killInRadius_identifiers (m : SAMissile.t) (i : nat) (fos : list FlightObject.t) :
  map FlightObject.identifier (fst (killInRadius m i fos)) =
  map FlightObject.identifier fos.
Proof.
  revert i. induction fos as [| fo fos IH]; intros i; simpl; auto.
  specialize (IH (S i)). destruct (killInRadius m (S i) fos) as [r e].
  simpl in IH. destruct (inKillRadius m fo); simpl; now rewrite IH.
Qed.

Lemma loop_objects_identifiers (ms : list SAMissile.t) :
  forall i fos fm,
    map FlightObject.identifier (loop_objects i ms fos fm) =
    map FlightObject.identifier fos.
Proof.
  induction ms as [| m ms IH]; intros i fos fm.
  - reflexivity.
  - unfold loop_objects at 1. rewrite missiles_loop_cons. cbn [fst snd].
    rewrite IH. unfold turn_objects.
    destruct (triggers m); auto using killInRadius_identifiers.
Qed.

Lemma tick_identifiers (s : state) :
  map FlightObject.identifier (flightObjects (fst (tick s))) =
  map FlightObject.identifier (flightObjects s).
Proof.
  unfold tick. destruct (isEnabled s); [| reflexivity].
  unfold recalculateTargets.
  destruct (recalculateTargets_loop _ _) as [rt e].
  rewrite recalculateMissiles_results. cbn [fst flightObjects missiles flightMissiles].
  apply loop_objects_identifiers.
Qed.

Lemma tick_isEnabled (s : state) : isEnabled (fst (tick s)) = isEnabled s.
Proof.
  unfold tick. destruct (isEnabled s) eqn:En; [| exact En].
  unfold recalculateTargets.
  destruct (recalculateTargets_loop _ _) as [rt e].
  rewrite recalculateMissiles_results. exact En.
Qed.

Lemma tick_recognizedTargets_any (s : state) :
  recognizedTargets (fst (tick s)) =
  if isEnabled s
  then fst (recalculateTargets_loop (flightObjects s) (recognizedTargets s))
  else recognizedTargets s.
Proof.
  destruct (isEnabled s) eqn:En.
  - now apply tick_recognizedTargets.
  - now rewrite tick_disabled.
Qed.

Lemma soundTable_tick (s : state) : soundTable s -> soundTable (fst (tick s)).
Proof.
  unfold soundTable. intros H.
  rewrite tick_identifiers, tick_recognizedTargets_any.
  destruct (isEnabled s); [| exact H].
  apply loop_keeps_sound; [| exact H].
  intros fo Hin. now apply in_map.
Qed.

Lemma soundTable_perform (o : op) (s : state) :
  soundTable s -> soundTable (fst (perform o s)).
Proof.
  intros H. destruct o; cbn [perform fst].
  - exact H.
  - unfold soundTable in *. cbn [addFlightObject flightObjects recognizedTargets].
    rewrite map_app. eapply Forall_impl; [| exact H].
    intros entry [Hin Hs]. split; [| exact Hs].
    apply in_or_app. now left.
  - exact H.
  - now apply soundTable_tick.
  - unfold tickBIP. now destruct (isEnabled s).
  - destruct (sameObjects objects (flightObjects s)) eqn:Hsame;
      cbn [andb fst]; [| exact H].
    destruct (sameMissiles ms (missiles s)); cbn [fst]; [| exact H].
    unfold sameObjects in Hsame.
    destruct (list_eq_dec string_dec _ _) as [E |]; [| discriminate].
    unfold soundTable in *. cbn [worldMoves flightObjects recognizedTargets].
    now rewrite E.
Qed.

Lemma engine_run_cons (o : op) (ops : list op) (s : state) :
  fst (run (o :: ops) s) = fst (run ops (fst (perform o s))).
Proof.
  cbn [run]. destruct (perform o s) as [s1 e1]. cbn [fst].
  now destruct (run ops s1).
Qed.

Lemma soundTable_run (ops : list op) :
  forall s, soundTable s -> soundTable (fst (run ops s)).
Proof.
  induction ops as [| o ops IH]; intros s H.
  - exact H.
  - rewrite engine_run_cons. apply IH, soundTable_perform, H.
Qed.

Lemma reachable_soundTable (s : state) : reachable s -> soundTable s.
Proof.
  intros [ops <-]. apply soundTable_run. constructor.
Qed.

Lemma reachable_first_tick (fo : FlightObject.t) :
  reachable (fst (tick (engine fo))).
Proof.
  exists [AddFlightObject fo; SetIsEnabled true; TickFires].
  rewrite !engine_run_cons. reflexivity.
Qed.

(** In every state a run of the engine reaches, each key of the table
    of recognized targets is the identifier of a registered flight
    object, and the entry stored under it carries that key as its
    identifier: the table never holds a target the engine was not
    given. *)
Theorem recognized_keys_are_registered (s : state) (id : string)
    (target : IRecognizedTargets.t) :
  reachable s ->
  lookup id (recognizedTargets s) = Some target ->
  In id (map FlightObject.identifier (flightObjects s)) /\
  IRecognizedTargets.identifier target = id.
Proof.
  intros Hr Hl. apply reachable_soundTable in Hr.
  unfold soundTable in Hr. rewrite Forall_forall in Hr.
  destruct (Hr (id, target) (get_in id target _ Hl)) as [Hin [Hid _]].
  split; [exact Hin | exact Hid].
Qed.

(** The statement at the table after the first tick of the scenario. *)
Lemma recognized_keys_are_registered_witness :
  In "a" (map FlightObject.identifier
            (flightObjects (fst (tick (engine (inbound "a")))))) /\
  IRecognizedTargets.identifier (recognizedTarget (inbound "a")) = "a".
Proof.
  apply (recognized_keys_are_registered (fst (tick (engine (inbound "a")))) "a"
           (recognizedTarget (inbound "a")) (reachable_first_tick (inbound "a"))).
  rewrite Recognition.engine_inbound_state. reflexivity.
Defined.

(** In every state a run of the engine reaches, every recognized
    target (hence every target an [update] event carries) has its
    azimuth in [0, 2 PI), its elevation strictly between
    MIN_ELEVATION and MAX_ELEVATION, a positive distance, a height
    that is not negative and a visibility coefficient of at most 1. *)
Theorem recognized_targets_are_in_range (s : state) (target : IRecognizedTargets.t) :
  reachable s ->
  In target (JSObject.values (recognizedTargets s)) ->
  0 <= IRecognizedTargets.azimut target < 2 * PI /\
  MIN_ELEVATION < IRecognizedTargets.elevation target < MAX_ELEVATION /\
  0 < IRecognizedTargets.distance target /\
  0 <= IRecognizedTargets.height target /\
  IRecognizedTargets.visibilityK target <= 1.
Proof.
  intros Hr Hin. apply reachable_soundTable in Hr.
  unfold soundTable in Hr. rewrite Forall_forall in Hr.
  unfold JSObject.values in Hin. apply in_map_iff in Hin.
  destruct Hin as [[k v] [E Hin]]. cbn [snd] in E. subst v.
  destruct (Hr (k, target) Hin) as [_ [_ H]]. exact H.
Qed.

(** The statement at the table after the first tick of the scenario. *)
Lemma recognized_targets_are_in_range_witness :
  0 <= IRecognizedTargets.azimut (recognizedTarget (inbound "a")) < 2 * PI /\
  MIN_ELEVATION < IRecognizedTargets.elevation (recognizedTarget (inbound "a"))
    < MAX_ELEVATION /\
  0 < IRecognizedTargets.distance (recognizedTarget (inbound "a")) /\
  0 <= IRecognizedTargets.height (recognizedTarget (inbound "a")) /\
  IRecognizedTargets.visibilityK (recognizedTarget (inbound "a")) <= 1.
Proof.
  apply (recognized_targets_are_in_range (fst (tick (engine (inbound "a"))))
           (recognizedTarget (inbound "a")) (reachable_first_tick (inbound "a"))).
  rewrite Recognition.engine_inbound_state. now left.
Defined.

End EngineRuns.

(** ** The detection engine: what a sweep leaves behind *)

Module Detonation.
Import SAM SAM_PARAMS SAMFacts Scenarios Sweep.

Lemma quiet_loop (ms : list SAMissile.t) :
  forall i fos fm,
    (forall m, In m ms -> triggers m = false) ->
    loop_effects i ms fos fm = [] /\
    loop_objects i ms fos fm = fos /\
    loop_missiles i ms fos fm = ms.
Proof.
  induction ms as [| m ms IH]; intros i fos fm Hq.
  - repeat split.
  - unfold loop_effects, loop_objects, loop_missiles.
    rewrite missiles_loop_cons. cbn [fst snd].
    assert (Hm : triggers m = false) by (apply Hq; now left).
    unfold turn_effects, turn_objects, turn_missile. rewrite Hm.
    destruct (IH (S i) fos (turn_table m fm)) as [H1 [H2 H3]].
    { intros m' Hin. apply Hq. now right. }
    rewrite H1, H2, H3. repeat split.
Qed.

Lemma turn_missile_spent (m : SAMissile.t) : triggers (turn_missile m) = false.
Proof.
  unfold turn_missile. destruct (triggers m) eqn:Ht; [reflexivity | exact Ht].
Qed.

Lemma turn_missile_identifier (m : SAMissile.t) :
  SAMissile.identifier (turn_missile m) = SAMissile.identifier m.
Proof. unfold turn_missile. now destruct (triggers m). Qed.

(** The sweep never touches the table of recognized targets; when no
    registered missile is both live and within its kill radius of its
    target (in particular when no missile is registered) it invokes
    nothing and leaves the flight objects and the missiles as they
    are. *)
Theorem quiet_sweep_changes_nothing (s : state) :
  recognizedTargets (fst (recalculateMissiles s)) = recognizedTargets s /\
  ((forall m, In m (missiles s) -> triggers m = false) ->
   snd (recalculateMissiles s) = [] /\
   flightObjects (fst (recalculateMissiles s)) = flightObjects s /\
   missiles (fst (recalculateMissiles s)) = missiles s).
Proof.
  rewrite recalculateMissiles_results. cbn [fst snd recognizedTargets flightObjects
                                              missiles].
  split; [reflexivity |]. intros Hq.
  destruct (quiet_loop (missiles s) 0 (flightObjects s) (flightMissiles s) Hq)
    as [H1 [H2 H3]].
  now rewrite H1, H2, H3.
Qed.

(** The statement at an engine with two missiles registered, one
    still far from its target and one already destroyed, and a flight
    object within the kill radius of both. *)
Lemma quiet_sweep_changes_nothing_witness :
  missiles patrol = [cruising; spent] /\
  inKillRadius cruising nearObject = true /\
  snd (recalculateMissiles patrol) = [] /\
  flightObjects (fst (recalculateMissiles patrol)) = flightObjects patrol /\
  missiles (fst (recalculateMissiles patrol)) = missiles patrol.
Proof.
  split; [reflexivity |]. split.
  - apply inKillRadius_iff. rewrite distanceToMissile_euclidean.
    unfold euclidean3; simpl.
    replace ((10.5 - 10) * ((10.5 - 10) * 1) + (0 - 0) * ((0 - 0) * 1) +
             (5 - 5) * ((5 - 5) * 1)) with (0.5 * 0.5) by lra.
    rewrite sqrt_square; lra.
  - destruct (quiet_sweep_changes_nothing patrol) as [_ H].
    apply H. intros m [<- | [<- | []]].
    + unfold triggers. cbn [cruising SAMissile.isDestroyedMissile negb andb
                            SAMissile.missileTargetDistance SAMissile.missileKillRadius].
      apply JSFacts.leb_false. lra.
    + reflexivity.
Defined.

(** A missile detonates once: in the sweep that follows a sweep, with
    nothing changed in between, no [destroyMissile()] and no [kill()]
    is invoked. *)
Theorem second_sweep_is_silent (s : state) :
  snd (recalculateMissiles (fst (recalculateMissiles s))) = [].
Proof.
  rewrite (recalculateMissiles_results s). cbn [fst].
  rewrite recalculateMissiles_results. cbn [snd missiles flightObjects flightMissiles].
  apply quiet_loop. intros m Hin.
  rewrite loop_missiles_map in Hin. apply in_map_iff in Hin.
  destruct Hin as [m0 [<- _]]. apply turn_missile_spent.
Qed.

(** With distinct missile identifiers, a live missile keeps its
    snapshot through the sweep that detonates it and loses it in the
    sweep after. *)
Theorem detonated_snapshot_lasts_one_sweep (s : state) (m : SAMissile.t) :
  NoDup (map SAMissile.identifier (missiles s)) ->
  In m (missiles s) ->
  SAMissile.isDestroyedMissile m = false ->
  SAMissile.missileTargetDistance m <= SAMissile.missileKillRadius m ->
  JSObject.get Z.eqb (SAMissile.identifier m)
    (flightMissiles (fst (recalculateMissiles s))) = Some (flightMissile m) /\
  JSObject.get Z.eqb (SAMissile.identifier m)
    (flightMissiles (fst (recalculateMissiles (fst (recalculateMissiles s))))) = None.
Proof.
  intros Hnd Hin Hlive Hrange.
  assert (Ht : triggers m = true) by (apply triggers_iff; auto).
  rewrite (recalculateMissiles_results s). cbn [fst flightMissiles].
  split.
  - rewrite loop_table_entry by assumption. now rewrite Hlive.
  - rewrite recalculateMissiles_results. cbn [fst flightMissiles missiles flightObjects].
    rewrite loop_missiles_map.
    replace (SAMissile.identifier m) with (SAMissile.identifier (turn_missile m))
      by apply turn_missile_identifier.
    rewrite loop_table_entry.
    + unfold turn_missile. now rewrite Ht.
    + rewrite map_map.
      erewrite map_ext; [exact Hnd |]. intros a. apply turn_missile_identifier.
    + now apply in_map.
Qed.

(** The statement at the interceptor of the kill scenario. *)
Lemma detonated_snapshot_lasts_one_sweep_witness :
  JSObject.get Z.eqb 1%Z (flightMissiles (fst (recalculateMissiles sweep))) =
    Some (flightMissile interceptor) /\
  JSObject.get Z.eqb 1%Z
    (flightMissiles (fst (recalculateMissiles (fst (recalculateMissiles sweep))))) = None.
Proof.
  apply (detonated_snapshot_lasts_one_sweep sweep interceptor).
  - simpl. constructor; [intros [] | constructor].
  - now left.
  - reflexivity.
  - simpl. lra.
Defined.

End Detonation.

(** ** The beam tracker: readouts and manual controls *)

Module Readouts.
Import SNR Scenarios Steering.

Lemma degrees_of_internal (a : R) : ((a - 90) * PI / 180 + PI / 2) * (180 / PI) = a.
Proof. field. apply PI_neq0. Qed.

(** The azimuth readout undoes [setAzimut]: for a degree input in
    (-450, 990] it shows the input brought into [0, 360) by whole
    turns, and for an input already in [0, 360) it shows the input
    itself. *)
Theorem azimutDeg_after_setAzimut (s : state) (deg : R) :
  (-450 < deg <= 990 ->
   0 <= azimutDeg (fst (setAzimut deg s)) < 360 /\
   exists turns : Z, azimutDeg (fst (setAzimut deg s)) = deg + 360 * IZR turns) /\
  (0 <= deg < 360 -> azimutDeg (fst (setAzimut deg s)) = deg).
Proof.
  unfold azimutDeg. rewrite setAzimut_azimut. rewrite degrees_of_internal.
  unfold JS.gtb, JS.ltb.
  split; intros Hdeg.
  - destruct (Rlt_dec 360 deg) as [H1 | H1].
    + destruct (Rlt_dec (deg - 360) 0) as [H2 | H2]; [lra |].
      destruct (Rlt_dec 270 (deg - 360)) as [H3 | H3].
      * destruct (Rlt_dec (deg - 360 - 360) 0) as [H4 | H4].
        -- split; [lra |]. exists (-1)%Z. lra.
        -- split; [lra |]. exists (-2)%Z. lra.
      * destruct (Rlt_dec (deg - 360) 0) as [H4 | H4]; [lra |].
        split; [lra |]. exists (-1)%Z. lra.
    + destruct (Rlt_dec deg 0) as [H2 | H2].
      * destruct (Rlt_dec 270 (360 + deg)) as [H3 | H3].
        -- destruct (Rlt_dec (360 + deg - 360) 0) as [H4 | H4]; [| lra].
           split; [lra |]. exists 1%Z. lra.
        -- destruct (Rlt_dec (360 + deg) 0) as [H4 | H4].
           ++ split; [lra |]. exists 2%Z. lra.
           ++ split; [lra |]. exists 1%Z. lra.
      * destruct (Rlt_dec 270 deg) as [H3 | H3].
        -- destruct (Rlt_dec (deg - 360) 0) as [H4 | H4].
           ++ split; [lra |]. exists 0%Z. lra.
           ++ split; [lra |]. exists (-1)%Z. lra.
        -- destruct (Rlt_dec deg 0) as [H4 | H4]; [lra |].
           split; [lra |]. exists 0%Z. lra.
  - destruct (Rlt_dec 360 deg) as [H1 | H1]; [lra |].
    destruct (Rlt_dec deg 0) as [H2 | H2]; [lra |].
    destruct (Rlt_dec 270 deg) as [H3 | H3].
    + destruct (Rlt_dec (deg - 360) 0) as [H4 | H4]; lra.
    + destruct (Rlt_dec deg 0) as [H4 | H4]; lra.
Qed.

(** The readout after steering to 300 degrees. *)
Lemma azimutDeg_after_setAzimut_witness :
  azimutDeg (fst (setAzimut 300 tracker)) = 300.
Proof.
  apply (azimutDeg_after_setAzimut tracker 300). lra.
Defined.

(** [setVerticalAngle] accepts a degree input strictly between the
    two bounds, after which the readout shows that input and the
    indicator screen is told the angle in radians; any other input is
    ignored: the state is unchanged and nothing is called. *)
Theorem setVerticalAngle_accepts_inside_bounds (s : state) (deg : R) :
  (minVerticalAngle s < deg < maxVerticalAngle s ->
   verticalAngleDeg (fst (setVerticalAngle deg s)) = JS.Num deg /\
   snd (setVerticalAngle deg s) =
     [IndicatorsScreen_setVerticalAngle (JS.Num (deg * PI / 180))]) /\
  (deg <= minVerticalAngle s \/ maxVerticalAngle s <= deg ->
   setVerticalAngle deg s = (s, [])).
Proof.
  unfold setVerticalAngle. split.
  - intros [Hlo Hhi].
    rewrite JSFacts.gtb_true, JSFacts.ltb_true by assumption.
    cbn [andb fst snd]. split; [| reflexivity].
    unfold verticalAngleDeg. cbn [verticalAngle set_verticalAngle JS.nmul].
    f_equal. field. apply PI_neq0.
  - intros [H | H].
    + now rewrite JSFacts.gtb_false by assumption.
    + rewrite (JSFacts.ltb_false deg) by assumption. now rewrite andb_false_r.
Qed.

(** A fresh tracker accepts 30 degrees. *)
Lemma setVerticalAngle_accepts_inside_bounds_witness :
  verticalAngleDeg (fst (setVerticalAngle 30 tracker)) = JS.Num 30 /\
  snd (setVerticalAngle 30 tracker) =
    [IndicatorsScreen_setVerticalAngle (JS.Num (30 * PI / 180))].
Proof.
  apply (setVerticalAngle_accepts_inside_bounds tracker 30). simpl. lra.
Defined.

Lemma steering_run_cons (o : op) (ops : list op) (s : state) :
  fst (run (o :: ops) s) = fst (run ops (fst (perform o s))).
Proof. cbn [run]. apply fst_andThen. Qed.

Lemma steeredInBounds_perform (o : op) (s : state) :
  is_steering o = true -> steeredInBounds s -> steeredInBounds (fst (perform o s)).
Proof.
  intros Ho Hs.
  destruct o as [a | v | w | | | d | | | | | | | |]; try discriminate; cbn [perform].
  - exact Hs.
  - unfold setVerticalAngle.
    destruct (JS.gtb v (minVerticalAngle s)) eqn:Hlo;
      destruct (JS.ltb v (maxVerticalAngle s)) eqn:Hhi;
      cbn [andb fst]; try exact Hs.
    apply JSFacts.gtb_iff in Hlo. apply JSFacts.ltb_iff in Hhi.
    destruct Hs as [_ Hd]. pose proof PI_RGT_0 as Hpi.
    split; [| exact Hd].
    cbn [SNR.verticalAngle set_verticalAngle minVerticalAngle maxVerticalAngle].
    exists (v * PI / 180). split; [reflexivity |]. split; nra.
  - exact Hs.
  - unfold setIndicatorTargetDistance.
    destruct (JS.gtb d 0) eqn:Hlo;
      destruct (JS.ltb d (maxDistance s)) eqn:Hhi;
      cbn [andb fst]; try exact Hs.
    apply JSFacts.gtb_iff in Hlo. apply JSFacts.ltb_iff in Hhi.
    destruct Hs as [Hv _]. split; [exact Hv |].
    cbn [targetDistance set_targetDistance maxDistance]. lra.
Qed.

(** Manual steering cannot leave the bounds: along every run made of
    [setAzimut], [setVerticalAngle], [setRadarRayWidth] and
    [setIndicatorTargetDistance] calls, a vertical angle that is
    strictly inside the angle bounds and a range cursor that is
    strictly inside (0, maxDistance) stay there. *)
Theorem manual_steering_stays_in_bounds (ops : list op) :
  forall s,
    forallb is_steering ops = true ->
    steeredInBounds s ->
    steeredInBounds (fst (run ops s)).
Proof.
  induction ops as [| o ops IH]; intros s Hops Hs.
  - exact Hs.
  - cbn [forallb] in Hops. apply andb_true_iff in Hops. destruct Hops as [Ho Hops].
    rewrite steering_run_cons. apply IH; [exact Hops |].
    now apply steeredInBounds_perform.
Qed.

(** A fresh tracker steered out of range on both controls stays where
    it was. *)
Lemma manual_steering_stays_in_bounds_witness :
  steeredInBounds
    (fst (run [SetVerticalAngle 80; SetIndicatorTargetDistance 200; SetAzimut 10]
              tracker)).
Proof.
  apply (manual_steering_stays_in_bounds
           [SetVerticalAngle 80; SetIndicatorTargetDistance 200; SetAzimut 10] tracker).
  - reflexivity.
  - pose proof PI_RGT_0 as Hpi. unfold steeredInBounds.
    split; [exists 0; split; [reflexivity | simpl; lra] | simpl; lra].
Defined.

End Readouts.

(** ** The beam tracker: the tracking timers *)

Module Tracking.
Import SNR Scenarios Steering Capture Coherence.

Lemma forEach_keeps {A : Type} (P : state -> Prop) (body : nat -> A -> action) :
  (forall i a s, P s -> P (fst (body i a s))) ->
  forall l i s, P s -> P (fst (forEach body i l s)).
Proof.
  intros Hbody. induction l as [| a l IH]; intros i s Hs.
  - exact Hs.
  - cbn [forEach]. rewrite fst_andThen. apply IH, Hbody, Hs.
Qed.

Lemma forEach_effects {A : Type} (P : state -> Prop) (body : nat -> A -> action)
    (e : effect) :
  (forall i a s, P s -> P (fst (body i a s))) ->
  forall l i s,
    P s ->
    In e (snd (forEach body i l s)) ->
    exists k a s', In a l /\ P s' /\ In e (snd (body k a s')).
Proof.
  intros Hbody. induction l as [| a l IH]; intros i s Hs Hin.
  - contradiction.
  - cbn [forEach] in Hin. rewrite snd_andThen in Hin.
    apply in_app_or in Hin. destruct Hin as [Hin | Hin].
    + exists i, a, s. split; [now left | auto].
    + destruct (IH (S i) (fst (body i a s)) (Hbody i a s Hs) Hin)
        as [k [a' [s' [H1 [H2 H3]]]]].
      exists k, a', s'. split; [now right | auto].
Qed.

(** The test of the direction timer decides between its two outcomes. *)
Lemma direction_timer_outcomes (s : state) (i : nat) (fo : FlightObject.t) :
  trackTargetInterval s = Some (Some i) ->
  nth_error (flightObjects s) i = Some fo ->
  azimut (fst (trackTargetInterval_callback s)) = targetAzimutAngle fo /\
  verticalAngle (fst (trackTargetInterval_callback s)) = targetVerticalAngle s fo /\
  (JS.nltb (targetVerticalAngle s fo) (JS.Num (minVerticalAngle s * PI / 180)) ||
   JS.ngtb (targetVerticalAngle s fo) (JS.Num (maxVerticalAngle s * PI / 180)) = false ->
   keepsCaptures s i) /\
  (JS.nltb (targetVerticalAngle s fo) (JS.Num (minVerticalAngle s * PI / 180)) ||
   JS.ngtb (targetVerticalAngle s fo) (JS.Num (maxVerticalAngle s * PI / 180)) = true ->
   resetsCaptures s).
Proof.
  intros Ht Hn. unfold keepsCaptures, resetsCaptures, trackTargetInterval_callback.
  rewrite Ht, Hn. rewrite !fst_andThen, !snd_andThen.
  destruct (JS.nltb (targetVerticalAngle s fo) _ || JS.ngtb (targetVerticalAngle s fo) _).
  - split; [reflexivity |]. split; [reflexivity |].
    split; [discriminate |]. intros _. repeat split.
  - split; [reflexivity |]. split; [reflexivity |].
    split; [| discriminate]. intros _. cbn. rewrite Ht. repeat split.
Qed.

(** Each firing of the direction timer points the beam at the object
    the timer follows, whatever it pointed at before: the azimuth
    becomes the bearing of the object and the vertical angle the
    quotient of its height offset by its ground distance.  For an
    object off the vertical of the radar that quotient is a real:
    while it is within the angle bounds nothing else changes and
    nothing is emitted, and once it is outside both captures are
    reset and every missile is destroyed.  For an object on the
    vertical the quotient is an infinity, which is outside any
    bounds, so the captures are reset; exactly at the height of the
    antenna it is NaN, which passes both comparisons, so the captures
    are kept and the vertical angle becomes NaN. *)
Theorem direction_timer_slaves_the_beam (s : state) (i : nat) (fo : FlightObject.t) :
  trackTargetInterval s = Some (Some i) ->
  nth_error (flightObjects s) i = Some fo ->
  azimut (fst (trackTargetInterval_callback s)) = targetAzimutAngle fo /\
  verticalAngle (fst (trackTargetInterval_callback s)) = targetVerticalAngle s fo /\
  (0 < targetDistanceOf fo ->
   targetVerticalAngle s fo =
     JS.Num (targetHeightOffset s fo / targetDistanceOf fo) /\
   (minVerticalAngle s * PI / 180 <= targetHeightOffset s fo / targetDistanceOf fo
      <= maxVerticalAngle s * PI / 180 ->
    keepsCaptures s i) /\
   (targetHeightOffset s fo / targetDistanceOf fo < minVerticalAngle s * PI / 180 \/
    maxVerticalAngle s * PI / 180 < targetHeightOffset s fo / targetDistanceOf fo ->
    resetsCaptures s)) /\
  (targetDistanceOf fo = 0 ->
   (0 < targetHeightOffset s fo ->
    targetVerticalAngle s fo = JS.PosInfinity /\ resetsCaptures s) /\
   (targetHeightOffset s fo < 0 ->
    targetVerticalAngle s fo = JS.NegInfinity /\ resetsCaptures s) /\
   (targetHeightOffset s fo = 0 ->
    targetVerticalAngle s fo = JS.NaN /\ keepsCaptures s i)).
Proof.
  intros Ht Hn.
  destruct (direction_timer_outcomes s i fo Ht Hn) as [Ha [Hv [Hkeep Hreset]]].
  split; [exact Ha |]. split; [exact Hv |]. split.
  - intros Hd.
    assert (E : targetVerticalAngle s fo =
                JS.Num (targetHeightOffset s fo / targetDistanceOf fo)).
    { unfold targetVerticalAngle. apply JSFacts.ndiv_Num. lra. }
    split; [exact E |]. rewrite E in Hkeep, Hreset.
    cbn [JS.nltb JS.ngtb] in Hkeep, Hreset. split.
    + intros [Hlo Hhi]. apply Hkeep.
      now rewrite !JSFacts.ltb_false.
    + intros [H | H]; apply Hreset.
      * now rewrite JSFacts.ltb_true.
      * rewrite (JSFacts.ltb_true (maxVerticalAngle s * PI / 180)) by exact H.
        apply orb_true_r.
  - intros Hd.
    assert (E : targetVerticalAngle s fo = JS.signed true (targetHeightOffset s fo)).
    { unfold targetVerticalAngle. rewrite Hd. apply JSFacts.ndiv_zero. }
    rewrite E in Hkeep, Hreset. split; [| split].
    + intros Hpos. rewrite E, JSFacts.signed_pos by exact Hpos.
      rewrite JSFacts.signed_pos in Hreset by exact Hpos.
      split; [reflexivity |]. apply Hreset. reflexivity.
    + intros Hneg. rewrite E, JSFacts.signed_neg by exact Hneg.
      rewrite JSFacts.signed_neg in Hreset by exact Hneg.
      split; [reflexivity |]. apply Hreset. reflexivity.
    + intros Hz. rewrite E, Hz, JSFacts.signed_zero.
      rewrite Hz, JSFacts.signed_zero in Hkeep.
      split; [reflexivity |]. apply Hkeep. reflexivity.
Qed.

Lemma overflown_state :
  overflown =
  mkState 0 (JS.Num 0) 50 (-5) 75 80
    [onAxis "first" 50; overheadObject "second"] 4 0.2 2 36
    (Some (Some 1%nat)) (Some (Some 0%nat)) (Some "second") true [].
Proof. unfold overflown. rewrite recapture_state. reflexivity. Qed.

Lemma overheadObject_targetDistanceOf (id : string) :
  targetDistanceOf (overheadObject id) = 0.
Proof.
  unfold targetDistanceOf, JS.hypot. cbn [overheadObject FlightObject.currentPoint
                                           Point.x Point.y].
  replace (0 * 0 + 0 * 0) with 0 by lra. apply sqrt_0.
Qed.

(** After the recapture run the direction timer follows the object at
    60 km, on the axis of the beam: a firing keeps the beam where it
    is and keeps both captures.  Once that object is on the vertical
    of the radar, 5 km up, a firing stores an infinite vertical angle
    and resets both captures. *)
Lemma direction_timer_slaves_the_beam_witness :
  (azimut (fst (trackTargetInterval_callback (fst (run recapture tracker)))) = 0 /\
   verticalAngle (fst (trackTargetInterval_callback (fst (run recapture tracker)))) =
     JS.Num 0 /\
   keepsCaptures (fst (run recapture tracker)) 1) /\
  (verticalAngle (fst (trackTargetInterval_callback overflown)) = JS.PosInfinity /\
   resetsCaptures overflown).
Proof.
  split.
  - destruct (direction_timer_slaves_the_beam (fst (run recapture tracker)) 1
                (onAxis "second" 60)) as [Ha [Hv [Hoff _]]].
    + now rewrite recapture_state.
    + now rewrite recapture_state.
    + assert (Hd : 0 < targetDistanceOf (onAxis "second" 60))
        by (rewrite onAxis_targetDistanceOf; lra).
      destruct (Hoff Hd) as [E [Hkeep _]].
      assert (E0 : targetVerticalAngle (fst (run recapture tracker))
                     (onAxis "second" 60) = JS.Num 0).
      { apply onAxis_targetVerticalAngle; [lra | now rewrite recapture_state]. }
      rewrite Ha, Hv, E0, onAxis_targetAzimutAngle by lra.
      split; [reflexivity |]. split; [reflexivity |].
      apply Hkeep.
      assert (E1 : targetHeightOffset (fst (run recapture tracker))
                     (onAxis "second" 60) /
                   targetDistanceOf (onAxis "second" 60) = 0) by congruence.
      rewrite E1, recapture_state. pose proof PI_RGT_0 as Hpi. simpl. lra.
  - destruct (direction_timer_slaves_the_beam overflown 1 (overheadObject "second"))
      as [_ [Hv [_ Hon]]].
    + now rewrite overflown_state.
    + now rewrite overflown_state.
    + destruct (Hon (overheadObject_targetDistanceOf "second")) as [Hup _].
      destruct Hup as [E Hreset].
      * rewrite overflown_state. unfold targetHeightOffset. simpl. lra.
      * rewrite Hv, E. split; [reflexivity | exact Hreset].
Defined.

(** Each firing of the distance timer moves the range cursor to the
    ground distance of the object the timer follows and tells the
    distance screen, also when that distance is beyond maxDistance.
    While it is within maxDistance the captures are untouched; once it
    is beyond, both captures are reset. *)
Theorem distance_timer_slaves_the_cursor (s : state) (i : nat) (fo : FlightObject.t) :
  trackTargetDistanceInterval s = Some (Some i) ->
  nth_error (flightObjects s) i = Some fo ->
  targetDistance (fst (trackTargetDistanceInterval_callback s)) = targetDistanceOf fo /\
  In (DistanceScreen_setDistance (targetDistanceOf fo))
     (snd (trackTargetDistanceInterval_callback s)) /\
  (targetDistanceOf fo <= maxDistance s ->
   trackingTargetIdentifier (fst (trackTargetDistanceInterval_callback s)) =
     trackingTargetIdentifier s /\
   trackTargetInterval (fst (trackTargetDistanceInterval_callback s)) =
     trackTargetInterval s /\
   trackTargetDistanceInterval (fst (trackTargetDistanceInterval_callback s)) =
     Some (Some i) /\
   snd (trackTargetDistanceInterval_callback s) =
     [DistanceScreen_setDistance (targetDistanceOf fo)]) /\
  (maxDistance s < targetDistanceOf fo ->
   trackingTargetIdentifier (fst (trackTargetDistanceInterval_callback s)) = None /\
   trackTargetInterval (fst (trackTargetDistanceInterval_callback s)) = None /\
   trackTargetDistanceInterval (fst (trackTargetDistanceInterval_callback s)) = None).
Proof.
  intros Ht Hn. unfold trackTargetDistanceInterval_callback. rewrite Ht, Hn.
  rewrite !fst_andThen, !snd_andThen.
  unfold JS.gtb, JS.ltb.
  destruct (Rlt_dec (maxDistance s) (targetDistanceOf fo)) as [Hfar | Hnear].
  - split; [reflexivity |].
    split; [apply in_or_app; right; now left |].
    split; [intros H; lra |]. intros _. repeat split.
  - split; [reflexivity |].
    split; [now left |].
    split; [| intros H; lra].
    intros _. cbn. rewrite Ht. repeat split.
Qed.

(** After the recapture run the distance timer follows the object at
    50 km. *)
Lemma distance_timer_slaves_the_cursor_witness :
  targetDistance (fst (trackTargetDistanceInterval_callback (fst (run recapture tracker))))
  = targetDistanceOf (onAxis "first" 50).
Proof.
  apply (distance_timer_slaves_the_cursor (fst (run recapture tracker)) 0
           (onAxis "first" 50)).
  - now rewrite recapture_state.
  - now rewrite recapture_state.
Defined.

End Tracking.

(** ** The beam tracker: what every run keeps *)

Module TrackerRuns.
Import SNR Scenarios Steering Capture Coherence Tracking.

Lemma anchored_idle (s : state) : trackingTargetIdentifier s = None -> anchored s.
Proof. intros H id Hid. congruence. Qed.

Lemma anchored_fields (s s' : state) :
  trackingTargetIdentifier s' = trackingTargetIdentifier s ->
  trackTargetInterval s' = trackTargetInterval s ->
  (forall i fo, nth_error (flightObjects s) i = Some fo ->
                exists fo', nth_error (flightObjects s') i = Some fo' /\
                            FlightObject.identifier fo' = FlightObject.identifier fo) ->
  anchored s -> anchored s'.
Proof.
  intros H1 H2 H3 Ha id Hid. rewrite H1 in Hid.
  destruct (Ha id Hid) as [i [fo [Ht [Hn Hfo]]]].
  destruct (H3 i fo Hn) as [fo' [Hn' Hfo']].
  exists i, fo'. rewrite H2. split; [exact Ht |]. split; [exact Hn' | congruence].
Qed.

Lemma anchored_same_registry (s s' : state) :
  trackingTargetIdentifier s' = trackingTargetIdentifier s ->
  trackTargetInterval s' = trackTargetInterval s ->
  flightObjects s' = flightObjects s ->
  anchored s -> anchored s'.
Proof.
  intros H1 H2 H3. apply anchored_fields; auto.
  intros i fo Hn. exists fo. rewrite H3. auto.
Qed.

Lemma lastMatch_nth (p : FlightObject.t -> bool) (l : list FlightObject.t) :
  forall i k fo,
    lastMatch p i l = Some (k, fo) ->
    (i <= k)%nat /\ nth_error l (k - i) = Some fo.
Proof.
  induction l as [| a l IH]; intros i k fo H; [discriminate |].
  cbn [lastMatch] in H.
  destruct (lastMatch p (S i) l) as [[k' fo'] |] eqn:Hl.
  - inversion H; subst. destruct (IH (S i) k fo Hl) as [Hle Hn].
    split; [lia |]. replace (k - i)%nat with (S (k - S i)) by lia. exact Hn.
  - destruct (p a); [| discriminate]. inversion H; subst.
    split; [lia |]. replace (k - k)%nat with 0%nat by lia. reflexivity.
Qed.

Lemma anchored_captureTargetByDirection (s : state) :
  anchored s -> anchored (fst (captureTargetByDirection s)).
Proof.
  intros Ha. rewrite captureTargetByDirection_eq.
  destruct (capture_loop s (flightObjects s) 0 s (fun _ => eq_refl) eq_refl) as [H1 _].
  rewrite H1.
  destruct (lastMatch (meetsTolerances s) 0 (flightObjects s)) as [[k fo] |] eqn:Hl;
    [| exact Ha].
  destruct (lastMatch_nth _ _ _ _ _ Hl) as [_ Hn].
  replace (k - 0)%nat with k in Hn by lia.
  intros id Hid. cbn in Hid. inversion Hid; subst id.
  exists k, fo. repeat split. exact Hn.
Qed.

Lemma anchored_captureTargetByDistance (s : state) :
  anchored s -> anchored (fst (captureTargetByDistance s)).
Proof.
  intros Ha. rewrite captureTargetByDistance_fst.
  destruct (existsb (inDistanceWindow s) (flightObjects s)); [| exact Ha].
  revert Ha. now apply anchored_same_registry.
Qed.

Lemma anchored_calculateTargetsParams (random : nat -> R) (s : state) :
  anchored s -> anchored (fst (calculateTargetsParams random s)).
Proof.
  apply (forEach_keeps anchored). clear s. intros i fo s Hs.
  rewrite calculateTargetsParams_step_fst.
  destruct (FlightObject.isDestroyed fo && isTracked fo s); [| exact Hs].
  now apply anchored_idle.
Qed.

Lemma calculateMissiles_fst (s : state) : fst (calculateMissiles s) = s.
Proof.
  unfold calculateMissiles.
  generalize 0%nat. generalize (missiles s) as l.
  induction l as [| m l IH]; intros i.
  - reflexivity.
  - cbn [forEach]. rewrite fst_andThen.
    destruct (negb (SAMissile.isDestroyedMissile m)); cbn [fst]; apply IH.
Qed.

Lemma same_identifier_nth (l l' : list FlightObject.t) (i : nat) (fo : FlightObject.t) :
  map FlightObject.identifier l' = map FlightObject.identifier l ->
  nth_error l i = Some fo ->
  exists fo', nth_error l' i = Some fo' /\
              FlightObject.identifier fo' = FlightObject.identifier fo.
Proof.
  intros Hm Hn.
  pose proof (map_nth_error FlightObject.identifier i l Hn) as H.
  rewrite <- Hm in H. rewrite nth_error_map in H.
  destruct (nth_error l' i) as [fo' |]; [| discriminate].
  exists fo'. split; [reflexivity |]. simpl in H. congruence.
Qed.

Lemma anchored_perform (o : op) (s : state) :
  anchored s -> anchored (fst (perform o s)).
Proof.
  intros Ha.
  destruct o as [a | v | w | fo | m | d | | | | | random | | | fos ms];
    cbn [perform].
  - exact Ha.
  - unfold setVerticalAngle. now destruct (JS.gtb _ _ && JS.ltb _ _).
  - exact Ha.
  - revert Ha. apply anchored_fields; try reflexivity.
    intros i fo' Hn. exists fo'. split; [| reflexivity].
    cbn. rewrite nth_error_app1; [exact Hn |].
    apply nth_error_Some. congruence.
  - exact Ha.
  - unfold setIndicatorTargetDistance. now destruct (JS.gtb _ _ && JS.ltb _ _).
  - now apply anchored_captureTargetByDirection.
  - now apply anchored_idle.
  - now apply anchored_captureTargetByDistance.
  - exact Ha.
  - unfold interval_callback. rewrite fst_andThen, calculateMissiles_fst.
    now apply anchored_calculateTargetsParams.
  - unfold trackTargetInterval_callback.
    destruct (trackTargetInterval s) as [[i |] |]; try exact Ha.
    destruct (nth_error (flightObjects s) i) as [fo |]; try exact Ha.
    rewrite !fst_andThen.
    destruct (JS.nltb _ _ || JS.ngtb _ _).
    + now apply anchored_idle.
    + exact Ha.
  - unfold trackTargetDistanceInterval_callback.
    destruct (trackTargetDistanceInterval s) as [[i |] |]; try exact Ha.
    destruct (nth_error (flightObjects s) i) as [fo |]; try exact Ha.
    rewrite !fst_andThen.
    destruct (JS.gtb _ _).
    + now apply anchored_idle.
    + exact Ha.
  - destruct (sameIdentifiers fos (flightObjects s)) eqn:Hsame; cbn [andb];
      [| exact Ha].
    destruct (Nat.eqb _ _); cbn [fst]; [| exact Ha].
    unfold sameIdentifiers in Hsame.
    destruct (list_eq_dec string_dec _ _) as [E |]; [| discriminate].
    revert Ha. apply anchored_fields; try reflexivity.
    intros i fo Hn. cbn. now apply same_identifier_nth with (l := flightObjects s).
Qed.

Lemma anchored_run (ops : list op) :
  forall s, anchored s -> anchored (fst (run ops s)).
Proof.
  induction ops as [| o ops IH]; intros s Ha.
  - exact Ha.
  - rewrite run_cons. apply IH, anchored_perform, Ha.
Qed.

Lemma reachable_anchored (s : state) : reachable s -> anchored s.
Proof.
  intros [cfg [ops <-]]. apply anchored_run, anchored_idle. reflexivity.
Qed.

Lemma find_exists {A : Type} (p : A -> bool) (l : list A) (a : A) :
  In a l -> p a = true -> exists b, find p l = Some b /\ p b = true.
Proof.
  intros Hin Hp. destruct (find p l) as [b |] eqn:Hf.
  - exists b. split; [reflexivity |]. now apply find_some in Hf.
  - pose proof (find_none _ _ Hf a Hin). congruence.
Qed.

(** In every state a run of the tracker reaches, while direction
    capture tracks an identifier the direction timer follows a
    registered flight object that carries it, and the [trackedTarget]
    getter returns a registered object with that identifier: a
    tracked target is never missing from the registry. *)
Theorem tracked_target_is_registered (s : state) (id : string) :
  reachable s ->
  trackingTargetIdentifier s = Some id ->
  (exists i fo,
      trackTargetInterval s = Some (Some i) /\
      nth_error (flightObjects s) i = Some fo /\
      FlightObject.identifier fo = id) /\
  exists fo,
    trackedTarget s = Some fo /\
    In fo (flightObjects s) /\
    FlightObject.identifier fo = id.
Proof.
  intros Hr Hid. destruct (reachable_anchored s Hr id Hid) as [i [fo [Ht [Hn Hfo]]]].
  split; [now exists i, fo |].
  assert (Hp : isTracked fo s = true).
  { unfold isTracked. rewrite Hid. now apply String.eqb_eq. }
  destruct (find_exists (fun fo' => isTracked fo' s) (flightObjects s) fo
              (nth_error_In _ _ Hn) Hp) as [b [Hf Hb]].
  exists b. split; [exact Hf |].
  split; [now apply find_some in Hf |].
  unfold isTracked in Hb. rewrite Hid in Hb. now apply String.eqb_eq.
Qed.

(** After the recapture run the tracked target is the registered
    object "second". *)
Lemma tracked_target_is_registered_witness :
  exists fo,
    trackedTarget (fst (run recapture tracker)) = Some fo /\
    In fo (flightObjects (fst (run recapture tracker))) /\
    FlightObject.identifier fo = "second".
Proof.
  apply (tracked_target_is_registered (fst (run recapture tracker)) "second").
  - exists (mkISNR 2 50 4 80), recapture. reflexivity.
  - now rewrite recapture_state.
Defined.

End TrackerRuns.

(** ** The beam tracker: the per-tick projection *)

Module Projection.
Import SNR Scenarios Steering Capture Coherence Tracking TrackerRuns.

(** The effects of the reset sequence the projection runs for a
    destroyed tracked target. *)
Lemma reset_sequence_effects (a b e : effect) (s : state) :
  In e (snd ((resetCaptureTargetByDirection ;; resetCaptureTargetByDistance ;;
              call a ;; call b) s)) ->
  e = Emit_isCapturedByDirection false \/ e = Emit_isCapturedByDistance false \/
  (exists i, e = Call_destroyMissile i) \/ e = a \/ e = b.
Proof.
  rewrite !snd_andThen, resetCaptureTargetByDirection_eq,
    resetCaptureTargetByDistance_eq.
  cbn [fst snd call]. intros H.
  repeat (apply in_app_or in H; destruct H as [H | H]).
  - destruct (eventListener s); [| contradiction].
    destruct H as [<- | []]. auto.
  - apply in_map_iff in H. destruct H as [i [<- _]]. right. right. left. now exists i.
  - destruct (eventListener s); [| contradiction].
    destruct H as [<- | []]. auto.
  - destruct (eventListener _); [| contradiction].
    destruct H as [<- | []]. auto.
  - destruct H as [<- | []]. auto.
  - destruct H as [<- | []]. auto 6.
Qed.

Lemma fst_if (c : bool) (s : state) (l l' : list effect) :
  fst (if c then (s, l) else (s, l')) = s.
Proof. now destruct c. Qed.

Lemma fst_if_if (c c' : bool) (s : state) (l l' l'' : list effect) :
  fst (if c then if c' then (s, l) else (s, l') else (s, l'')) = s.
Proof. now destruct c, c'. Qed.

(** Where an effect of one turn of the projection loop comes from. *)
Lemma step_effects (random : R) (fo : FlightObject.t) (s : state) (e : effect) :
  In e (snd (calculateTargetsParams_step random fo s)) ->
  (FlightObject.isLaunched fo = true /\ FlightObject.isDestroyed fo = false /\
   inBeam s fo = true /\
   (e = TargetScreen_setTargetParams (FlightObject.identifier fo)
          (JS.ndiv (JS.Num (targetDistanceOf fo)) (JS.Num (maxDistance s)))
          (JS.ndiv (targetSize fo) (JS.Num (rayWidthAt s fo)))
          (targetOffsetX s fo) (targetOffsetY s fo) \/
    e = DistanceScreen_setTargetParams (FlightObject.identifier fo)
          (JS.ndiv (JS.Num (targetDistanceOf fo)) (JS.Num (maxDistance s)))
          (targetDistanceOf fo)
          (JS.ndiv (targetSize fo) (JS.Num (rayWidthAt s fo)))
          (JS.nmul
             (JS.nadd (JS.ndiv (targetSize fo) (JS.Num (rayWidthAt s fo)))
                      (JS.Num (distanceTrackingAccuracy s * random)))
             (JS.Num (rayWidthAt s fo))))) \/
  (e = TargetScreen_removeTarget (FlightObject.identifier fo) \/
   e = DistanceScreen_removeTarget (FlightObject.identifier fo)) \/
  (is_telemetry e = true /\ reportsTelemetry s fo = true) \/
  (e = Emit_isCapturedByDirection false \/ e = Emit_isCapturedByDistance false \/
   exists i, e = Call_destroyMissile i).
Proof.
  unfold calculateTargetsParams_step. rewrite !snd_andThen. cbv beta zeta.
  rewrite fst_if_if, fst_if.
  fold (targetAzimutOffset s fo). fold (targetVerticalOffset s fo).
  fold (inBeam s fo). fold (targetOffsetX s fo). fold (targetOffsetY s fo).
  fold (reportsTelemetry s fo).
  intros H. apply in_app_or in H. destruct H as [H | H];
    [| apply in_app_or in H; destruct H as [H | H]].
  - destruct (FlightObject.isLaunched fo); [| contradiction].
    destruct (FlightObject.isDestroyed fo); [contradiction |].
    cbn [negb andb] in H.
    destruct (inBeam s fo); cbn [snd] in H.
    + left. destruct H as [<- | [<- | []]]; auto 6.
    + right. left. destruct H as [<- | [<- | []]]; auto.
  - right. right. left.
    destruct (reportsTelemetry s fo); [| contradiction].
    destruct H as [<- | [<- | [<- | []]]]; auto.
  - destruct (FlightObject.isDestroyed fo && isTracked fo s); [| contradiction].
    apply reset_sequence_effects in H.
    destruct H as [H | [H | [H | [H | H]]]]; auto 8.
Qed.

Lemma calculateMissiles_effects (e : effect) (s : state) :
  In e (snd (calculateMissiles s)) ->
  (exists id x y, e = TargetScreen_setMissileParams id x y) \/
  (exists id d, e = DistanceScreen_setMissileParams id d) \/
  (exists id, e = TargetScreen_removeMissile id) \/
  (exists id, e = DistanceScreen_removeMissile id).
Proof.
  unfold calculateMissiles. intros H.
  apply (forEach_effects (fun _ => True)) in H; [| auto | exact I].
  destruct H as [k [m [s' [_ [_ H]]]]].
  destruct (negb (SAMissile.isDestroyedMissile m)); cbn [snd] in H;
    destruct H as [<- | [<- | []]]; eauto 8.
Qed.

Lemma isTracked_same (fo : FlightObject.t) (s s' : state) :
  trackingTargetIdentifier s' = trackingTargetIdentifier s ->
  isTracked fo s' = isTracked fo s.
Proof. intros H. unfold isTracked. now rewrite H. Qed.

Lemma isTracked_idle (fo : FlightObject.t) (s : state) :
  trackingTargetIdentifier s = None -> isTracked fo s = false.
Proof. intros H. unfold isTracked. now rewrite H. Qed.

Lemma params_loop (random : nat -> R) (l : list FlightObject.t) :
  forall i s,
    (trackingTargetIdentifier
       (fst (forEach (fun i fo => calculateTargetsParams_step (random i) fo) i l s)) =
     trackingTargetIdentifier s \/
     trackingTargetIdentifier
       (fst (forEach (fun i fo => calculateTargetsParams_step (random i) fo) i l s)) =
     None) /\
    forall fo,
      In fo l -> FlightObject.isDestroyed fo = true ->
      isTracked fo
        (fst (forEach (fun i fo => calculateTargetsParams_step (random i) fo) i l s))
      = false.
Proof.
  induction l as [| a l IH]; intros i s.
  - split; [now left | intros fo []].
  - cbn [forEach]. rewrite fst_andThen. cbv beta.
    rewrite calculateTargetsParams_step_fst.
    destruct (FlightObject.isDestroyed a && isTracked a s) eqn:Hc.
    + set (s1 := fst ((resetCaptureTargetByDirection ;; resetCaptureTargetByDistance) s)).
      assert (Hidle : trackingTargetIdentifier s1 = None) by reflexivity.
      destruct (IH (S i) s1) as [H1 H2].
      assert (Hend : trackingTargetIdentifier
                (fst (forEach (fun i fo => calculateTargetsParams_step (random i) fo)
                        (S i) l s1)) = None)
        by (destruct H1 as [H1 | H1]; congruence).
      split; [now right |].
      intros fo _ _. now apply isTracked_idle.
    + destruct (IH (S i) s) as [H1 H2]. split; [exact H1 |].
      intros fo [-> | Hin] Hd; [| now apply H2].
      rewrite Hd in Hc. cbn [andb] in Hc.
      destruct H1 as [H1 | H1].
      * now rewrite (isTracked_same fo s _ H1).
      * now apply isTracked_idle.
Qed.

Lemma interval_callback_fst (random : nat -> R) (s : state) :
  fst (interval_callback random s) = fst (calculateTargetsParams random s).
Proof. unfold interval_callback. now rewrite fst_andThen, calculateMissiles_fst. Qed.

(** After a firing of the projection timer no registered flight
    object is both destroyed and tracked: a tracked target that was
    destroyed is dropped within one tick. *)
Theorem destroyed_target_is_dropped (random : nat -> R) (s : state)
    (fo : FlightObject.t) :
  In fo (flightObjects s) ->
  FlightObject.isDestroyed fo = true ->
  isTracked fo (fst (interval_callback random s)) = false.
Proof.
  intros Hin Hd. rewrite interval_callback_fst. unfold calculateTargetsParams.
  now apply params_loop.
Qed.

Lemma lost_state :
  lost =
  mkState 0 (JS.Num 0) 50 (-5) 75 80
    [onAxis "first" 50; onAxisDowned "second" 60] 4 0.2 2 36
    (Some (Some 1%nat)) (Some (Some 0%nat)) (Some "second") true [].
Proof. unfold lost. rewrite recapture_state. reflexivity. Qed.

(** The tracker of the recapture run drops "second" once it is
    destroyed. *)
Lemma destroyed_target_is_dropped_witness :
  isTracked (onAxisDowned "second" 60) lost = true /\
  isTracked (onAxisDowned "second" 60) (fst (interval_callback (fun _ => 0) lost)) = false.
Proof.
  split; [now rewrite lost_state |].
  apply (destroyed_target_is_dropped (fun _ => 0) lost (onAxisDowned "second" 60)).
  - rewrite lost_state. right. now left.
  - reflexivity.
Defined.

(** The projection never steers and never captures: a firing of its
    timer leaves the beam, the range cursor, the beam width and the
    registry as they are, and the tracked identifier is afterwards
    what it was or null. *)
Theorem projection_never_steers (random : nat -> R) (s : state) :
  azimut (fst (interval_callback random s)) = azimut s /\
  verticalAngle (fst (interval_callback random s)) = verticalAngle s /\
  targetDistance (fst (interval_callback random s)) = targetDistance s /\
  rayWidth (fst (interval_callback random s)) = rayWidth s /\
  flightObjects (fst (interval_callback random s)) = flightObjects s /\
  (trackingTargetIdentifier (fst (interval_callback random s)) =
     trackingTargetIdentifier s \/
   trackingTargetIdentifier (fst (interval_callback random s)) = None).
Proof.
  rewrite interval_callback_fst. unfold calculateTargetsParams.
  pose proof (forEach_keeps
                (fun s' => azimut s' = azimut s /\ verticalAngle s' = verticalAngle s /\
                           targetDistance s' = targetDistance s /\
                           rayWidth s' = rayWidth s /\
                           flightObjects s' = flightObjects s)
                (fun i fo => calculateTargetsParams_step (random i) fo)) as Hk.
  destruct (Hk ltac:(
              intros i fo s' Hs'; cbv beta;
              rewrite calculateTargetsParams_step_fst;
              destruct (FlightObject.isDestroyed fo && isTracked fo s');
              [exact Hs' | exact Hs'])
              (flightObjects s) 0%nat s (conj eq_refl (conj eq_refl (conj eq_refl
                (conj eq_refl eq_refl)))))
    as [H1 [H2 [H3 [H4 H5]]]].
  destruct (params_loop random (flightObjects s) 0 s) as [H6 _].
  repeat split; assumption.
Qed.

Lemma real_offset_in_unit (w off : R) :
  0 < w -> Rabs off < w / 2 -> -1 < - (off / w * 2) < 1.
Proof.
  intros Hw Habs. apply Rabs_def2 in Habs. destruct Habs as [Hhi Hlo].
  assert (Hi : 0 < / w) by now apply Rinv_0_lt_compat.
  assert (E : w * / w = 1) by (apply Rinv_r; lra).
  unfold Rdiv.
  assert (H1 : off * / w < w / 2 * / w) by (apply Rmult_lt_compat_r; assumption).
  assert (H2 : - (w / 2) * / w < off * / w) by (apply Rmult_lt_compat_r; assumption).
  replace (w / 2 * / w) with (1 / 2) in H1 by (unfold Rdiv; nra).
  replace (- (w / 2) * / w) with (- (1 / 2)) in H2 by (unfold Rdiv; nra).
  lra.
Qed.

(** An object on the vertical of the radar is never in the beam: its
    vertical angle is an infinity or NaN, and so is its offset from
    the vertical angle of the beam, whatever that is. *)
Lemma overhead_object_is_out_of_beam (s : state) (fo : FlightObject.t) :
  targetDistanceOf fo = 0 -> inBeam s fo = false.
Proof.
  intros Hd. unfold inBeam, targetVerticalOffset, targetVerticalAngle.
  rewrite Hd, JSFacts.ndiv_zero. unfold JS.signed.
  destruct (JS.ltb 0 (targetHeightOffset s fo));
    [| destruct (JS.ltb (targetHeightOffset s fo) 0)];
    destruct (verticalAngle s); cbn; apply andb_false_r.
Qed.

(** With a beam of positive width, every spot a firing of the
    projection timer places on the target screen has both normalized
    offsets strictly between -1 and 1. *)
Theorem in_beam_spots_are_on_screen (random : nat -> R) (s : state) :
  0 < rayWidth s ->
  Forall onScreen (snd (interval_callback random s)).
Proof.
  intros Hw. apply Forall_forall. intros e Hin.
  unfold interval_callback in Hin. rewrite snd_andThen in Hin.
  apply in_app_or in Hin. destruct Hin as [Hin | Hin].
  - unfold calculateTargetsParams in Hin.
    apply (forEach_effects (fun s' => rayWidth s' = rayWidth s)) in Hin;
      [| | reflexivity].
    + destruct Hin as [k [fo [s' [_ [Hs' Hin]]]]]. cbv beta in Hin.
      apply step_effects in Hin.
      destruct Hin as [[_ [_ [Hb [-> | ->]]]] | [[-> | ->] | [[Ht _] | [-> | [-> | [i ->]]]]]];
        try exact I.
      * unfold inBeam in Hb. apply andb_true_iff in Hb. destruct Hb as [Hx Hy].
        apply JSFacts.ltb_iff in Hx.
        apply JSFacts.nabs_below in Hy. destruct Hy as [y [Ey Hy]].
        assert (Hrw : 0 < rayWidthRad s').
        { unfold rayWidthRad. rewrite Hs'. pose proof PI_RGT_0. nra. }
        cbn [onScreen]. unfold targetOffsetX, targetOffsetY. rewrite Ey.
        rewrite !JSFacts.ndiv_Num by lra. cbn [JS.nmul JS.nneg].
        eexists. eexists. split; [reflexivity |]. split; [reflexivity |].
        split; now apply real_offset_in_unit.
      * destruct e; try exact I. discriminate.
    + intros i fo s' Hs'. cbv beta. rewrite calculateTargetsParams_step_fst.
      destruct (FlightObject.isDestroyed fo && isTracked fo s'); exact Hs'.
  - apply calculateMissiles_effects in Hin.
    destruct Hin as [[id [x [y ->]]] | [[id [d ->]] | [[id ->] | [id ->]]]]; exact I.
Qed.

(** The statement at the tracker of the recapture run, whose beam is
    four degrees wide. *)
Lemma in_beam_spots_are_on_screen_witness :
  Forall onScreen (snd (interval_callback (fun _ => 0) (fst (run recapture tracker)))).
Proof.
  apply (in_beam_spots_are_on_screen (fun _ => 0) (fst (run recapture tracker))).
  rewrite recapture_state. simpl. lra.
Defined.

(** Telemetry needs both captures: when the direction timer or the
    distance timer is missing (or no listener is wired), a firing of
    the projection timer sends no [targetDistance], [targetVelocity]
    or [targetHeight] event. *)
Theorem telemetry_needs_both_captures (random : nat -> R) (s : state) :
  isSome (trackTargetInterval s) && isSome (trackTargetDistanceInterval s) &&
  eventListener s = false ->
  filter is_telemetry (snd (interval_callback random s)) = [].
Proof.
  intros Hq.
  destruct (filter is_telemetry (snd (interval_callback random s))) as [| e l] eqn:Hf;
    [reflexivity |].
  assert (Hin : In e (filter is_telemetry (snd (interval_callback random s))))
    by (rewrite Hf; now left).
  apply filter_In in Hin. destruct Hin as [Hin Ht].
  unfold interval_callback in Hin. rewrite snd_andThen in Hin.
  apply in_app_or in Hin. destruct Hin as [Hin | Hin].
  - unfold calculateTargetsParams in Hin.
    apply (forEach_effects
             (fun s' => isSome (trackTargetInterval s') &&
                        isSome (trackTargetDistanceInterval s') &&
                        eventListener s' = false)) in Hin; [| | exact Hq].
    + destruct Hin as [k [fo [s' [_ [Hs' Hin]]]]]. cbv beta in Hin.
      apply step_effects in Hin.
      destruct Hin as [[_ [_ [_ [-> | ->]]]] | [[-> | ->] | [[_ Hr] | [-> | [-> | [i ->]]]]]];
        try discriminate.
      unfold reportsTelemetry in Hr.
      rewrite <- !andb_assoc in Hr. apply andb_true_iff in Hr.
      destruct Hr as [_ Hr]. rewrite andb_assoc in Hr. congruence.
    + intros i fo s' Hs'. cbv beta. rewrite calculateTargetsParams_step_fst.
      destruct (FlightObject.isDestroyed fo && isTracked fo s'); [| exact Hs'].
      reflexivity.
  - apply calculateMissiles_effects in Hin.
    destruct Hin as [[id [x [y ->]]] | [[id [d ->]] | [[id ->] | [id ->]]]];
      discriminate.
Qed.

Lemma directionOnly_state :
  fst (run directionOnly tracker) =
  mkState 0 (JS.Num 0) 50 (-5) 75 80 [onAxis "first" 50; onAxis "second" 60]
    4 0.2 2 36 (Some (Some 1%nat)) None (Some "second") true [].
Proof.
  unfold directionOnly. rewrite !run_cons. cbn [run skip fst perform].
  rewrite setAzimut_90.
  match goal with
  | |- fst (captureTargetByDirection ?x) = _ => set (s := x)
  end.
  assert (Hm : forall id range, 0 < range -> meetsTolerances s (onAxis id range) = true).
  { intros id range Hr. apply onAxis_meetsTolerances; try reflexivity; simpl; lra. }
  rewrite captureTargetByDirection_eq.
  destruct (capture_loop s (flightObjects s) 0 s (fun _ => eq_refl) eq_refl) as [H1 _].
  rewrite H1.
  replace (flightObjects s) with [onAxis "first" 50; onAxis "second" 60]
    by reflexivity.
  cbn [lastMatch]. rewrite !Hm by lra. reflexivity.
Qed.

(** The statement at a tracker that follows the object at 60 km by
    direction and nothing by distance: the object is launched, alive
    and tracked, the listener is wired, and no telemetry is sent. *)
Lemma telemetry_needs_both_captures_witness :
  isTracked (onAxis "second" 60) (fst (run directionOnly tracker)) = true /\
  eventListener (fst (run directionOnly tracker)) = true /\
  filter is_telemetry
    (snd (interval_callback (fun _ => 0) (fst (run directionOnly tracker)))) = [].
Proof.
  split; [now rewrite directionOnly_state |].
  split; [now rewrite directionOnly_state |].
  apply (telemetry_needs_both_captures (fun _ => 0) (fst (run directionOnly tracker))).
  now rewrite directionOnly_state.
Defined.

End Projection.

(** ** The beam tracker: edges of capture and reset *)

Module CaptureEdges.
Import SNR Scenarios Steering Capture Coherence.

Lemma count_destroyMissile_calls (l : list nat) :
  count is_destroyMissile (map Call_destroyMissile l) = List.length l.
Proof. unfold count. induction l as [| i l IH]; simpl; auto. Qed.

(** A direction reset destroys every registered missile, one
    [destroyMissile()] call each, and leaves both captures idle,
    whether or not a capture was active when it was called. *)
Theorem reset_destroys_every_missile (s : state) :
  missiles (fst (resetCaptureTargetByDirection s)) =
    map SAMissile.destroyMissile (missiles s) /\
  count is_destroyMissile (snd (resetCaptureTargetByDirection s)) =
    List.length (missiles s) /\
  trackingTargetIdentifier (fst (resetCaptureTargetByDirection s)) = None /\
  trackTargetInterval (fst (resetCaptureTargetByDirection s)) = None /\
  trackTargetDistanceInterval (fst (resetCaptureTargetByDirection s)) = None.
Proof.
  rewrite resetCaptureTargetByDirection_eq. cbn [fst snd].
  split; [reflexivity |]. split; [| repeat split].
  rewrite !count_app, count_destroyMissile_calls, length_seq.
  destruct (eventListener s); cbn; lia.
Qed.

Lemma filter_none {A : Type} (p : A -> bool) (l : list A) :
  (forall a, In a l -> p a = false) -> filter p l = [].
Proof.
  induction l as [| a l IH]; intros H; [reflexivity |].
  cbn [filter]. rewrite H by now left.
  apply IH. intros b Hb. apply H. now right.
Qed.

(** When no registered flight object meets both tolerances, in
    particular when none is registered, [captureTargetByDirection]
    changes nothing and announces nothing. *)
Theorem capture_without_match_changes_nothing (s : state) :
  (forall fo, In fo (flightObjects s) -> meetsTolerances s fo = false) ->
  captureTargetByDirection s = (s, []).
Proof.
  intros Hnone. rewrite captureTargetByDirection_eq.
  destruct (capture_loop s (flightObjects s) 0 s (fun _ => eq_refl) eq_refl)
    as [H1 H2].
  rewrite (surjective_pairing (forEach _ _ _ _)), H1, H2.
  rewrite lastMatch_none, filter_none by exact Hnone.
  now destruct (eventListener s).
Qed.

(** The object due east at 50 km is a quarter turn off the beam of a
    fresh tracker, far outside the azimuth tolerance. *)
Lemma abeam_misses : meetsTolerances abeam (onAxis "first" 50) = false.
Proof.
  pose proof JSFacts.PI_gt_3 as H3. pose proof PI_RGT_0 as Hpi.
  assert (Hw : 0 < rayWidth abeam) by (simpl; lra).
  pose proof (onAxis_rayWidthAt abeam "first" 50 ltac:(lra) Hw) as Hray.
  unfold meetsTolerances, isCapturedByAzimut.
  rewrite (onAxis_targetSpotAngle_eq abeam "first" 50) by (simpl; lra).
  rewrite onAxis_targetAzimutAngle by lra.
  set (D := rayWidthAt abeam (onAxis "first" 50)) in *.
  set (N := 2 * sqrt (10 / PI) / 1000 / 50).
  assert (HD : 1 / 20 <= D).
  { unfold D, rayWidthAt, rayWidthRad.
    rewrite onAxis_targetDistanceOf by lra.
    replace (rayWidth abeam) with 4 by reflexivity. nra. }
  assert (Hs : 0 <= sqrt (10 / PI) <= 2).
  { split; [apply sqrt_pos |].
    rewrite <- (sqrt_square 2) by lra. apply sqrt_le_1_alt.
    apply Rmult_le_reg_r with PI; [lra |].
    unfold Rdiv. rewrite Rmult_assoc, Rinv_l by lra. lra. }
  assert (HN : 0 <= N <= 1 / 10000) by (unfold N; lra).
  assert (Ha : 0 <= N / D <= 1 / 2).
  { split.
    - apply Rmult_le_pos; [lra |]. apply Rlt_le, Rinv_0_lt_compat. lra.
    - apply Rmult_le_reg_r with D; [lra |].
      unfold Rdiv. rewrite Rmult_assoc, Rinv_l by lra. lra. }
  cbn [JS.nabs JS.nmul JS.nltb].
  replace (azimut abeam) with (- PI / 2) by reflexivity.
  rewrite (Rabs_right (N / D)) by lra.
  rewrite JSFacts.ltb_false; [reflexivity |].
  replace (- PI / 2 - 0) with (- (PI / 2)) by lra.
  rewrite Rabs_Ropp, Rabs_right by lra. lra.
Qed.

(** The statement at a tracker with one registered object, a quarter
    turn off its beam. *)
Lemma capture_without_match_changes_nothing_witness :
  flightObjects abeam = [onAxis "first" 50] /\
  captureTargetByDirection abeam = (abeam, []).
Proof.
  split; [reflexivity |].
  apply (capture_without_match_changes_nothing abeam).
  intros fo [<- | []]. exact abeam_misses.
Defined.

(** A beam of width 0 captures whatever it is asked to capture: the
    spot angle of an object with a positive cross-section, off the
    vertical of the radar, is then an infinity, and both tolerances
    are met wherever the beam points, as long as its vertical angle
    is a real. *)
Lemma zero_width_beam_meets_tolerances (s : state) (fo : FlightObject.t) (v : R) :
  rayWidth s = 0 ->
  0 < targetDistanceOf fo ->
  0 < FlightObject.rcs fo ->
  verticalAngle s = JS.Num v ->
  targetSpotAngle s fo = JS.PosInfinity /\
  meetsTolerances s fo = true.
Proof.
  intros Hw Hd Hrcs Hv. pose proof PI_RGT_0 as Hpi.
  assert (Hq : 0 < FlightObject.rcs fo / PI) by (apply Rdiv_lt_0_compat; lra).
  assert (Hs : 0 < sqrt (FlightObject.rcs fo / PI)) by now apply sqrt_lt_R0.
  assert (E : targetSpotAngle s fo = JS.PosInfinity).
  { unfold targetSpotAngle, targetSize, rayWidthAt, rayWidthRad.
    rewrite Hw, JSFacts.Math_sqrt_Num by lra.
    cbn [JS.nmul]. rewrite !JSFacts.ndiv_Num by lra.
    replace (PI * (0 * PI / 180) * targetDistanceOf fo / 180) with 0
      by (unfold Rdiv; ring).
    rewrite JSFacts.ndiv_zero. apply (JSFacts.signed_pos true).
    apply Rdiv_lt_0_compat; [| exact Hd]. lra. }
  split; [exact E |].
  unfold meetsTolerances, isCapturedByAzimut, isCapturedByVerticalAngle.
  rewrite E, Hv. unfold targetVerticalAngle.
  rewrite JSFacts.ndiv_Num by lra.
  cbn [JS.nabs JS.nmul JS.nsub JS.nadd JS.nneg JS.nltb].
  now rewrite (JSFacts.signed_pos true 2) by lra.
Qed.

End CaptureEdges.

(** ** The supply panel and the engine's switch *)

Module PowerSupply.
Import SupplyPanel.

Lemma supply_run_cons (o : op) (ops : list op) (s : state) :
  run (o :: ops) s =
  (fst (run ops (fst (perform o s))),
   snd (perform o s) ++ snd (run ops (fst (perform o s)))).
Proof.
  cbn [run]. destruct (perform o s) as [s1 e1]. cbn [fst snd].
  now destruct (run ops s1).
Qed.

Lemma engine_step_keeps_switch (o : SAM.op) (e : SAM.state) :
  switchedByStore (Engine o) = true ->
  SAM.isEnabled (fst (SAM.perform o e)) = SAM.isEnabled e.
Proof.
  intros H. destruct o; cbn [SAM.perform fst]; try reflexivity.
  - discriminate H.
  - apply EngineRuns.tick_isEnabled.
  - unfold SAM.tickBIP. now destruct (SAM.isEnabled e) eqn:En.
  - now destruct (SAM.sameObjects _ _ && SAM.sameMissiles _ _).
Qed.

Lemma perform_keeps_power (o : op) (s : state) :
  switchedByStore o = true ->
  SAM.isEnabled (sam s) = isEnabledPower s ->
  SAM.isEnabled (sam (fst (perform o s))) = isEnabledPower (fst (perform o s)).
Proof.
  intros Ho H. destruct o as [v | v | v | i | o]; cbn [perform].
  - unfold setEnabledPower. destruct v; cbn; [exact H | reflexivity].
  - unfold setEnablerMainRadar.
    destruct (negb (isEnabledPower s)); [exact H |].
    destruct v; exact H.
  - unfold setIsEnabledTargetRadarTransmitter.
    destruct (negb (isEnabledPower s)); [exact H |].
    destruct v; exact H.
  - unfold timeoutFires.
    destruct (nth_error (timeouts s) i) as [[| |] |]; cbn; auto.
  - cbn [fst sam isEnabledPower].
    rewrite (engine_step_keeps_switch o (sam s) Ho). exact H.
Qed.

Lemma run_keeps_power (ops : list op) :
  forall s, forallb switchedByStore ops = true ->
  SAM.isEnabled (sam s) = isEnabledPower s ->
  SAM.isEnabled (sam (fst (run ops s))) = isEnabledPower (fst (run ops s)).
Proof.
  induction ops as [| o ops IH]; intros s Hops H.
  - exact H.
  - cbn [forallb] in Hops. apply andb_prop in Hops as [Ho Hops].
    rewrite supply_run_cons. cbn [fst].
    apply IH; [exact Hops |]. now apply perform_keeps_power.
Qed.

(** Along every run of the store from its creation, made of button
    presses, timeouts firing in any order and steps of the engine other
    than a foreign call of [setIsEnabled], the engine is enabled
    exactly when the store shows the power as on. *)
Theorem engine_follows_power (ops : list op) :
  forallb switchedByStore ops = true ->
  SAM.isEnabled (sam (fst (run ops initial))) =
  isEnabledPower (fst (run ops initial)).
Proof.
  intros Hops. now apply run_keeps_power.
Qed.

Lemma engine_follows_power_witness :
  SAM.isEnabled
    (sam (fst (run [SetEnabledPower true; Engine SAM.TickFires; TimeoutFires 0;
                    SetEnablerMainRadar true; Engine SAM.BIPFires;
                    SetEnabledPower false; TimeoutFires 0] initial))) =
  isEnabledPower
    (fst (run [SetEnabledPower true; Engine SAM.TickFires; TimeoutFires 0;
               SetEnablerMainRadar true; Engine SAM.BIPFires;
               SetEnabledPower false; TimeoutFires 0] initial)).
Proof.
  apply (engine_follows_power
           [SetEnabledPower true; Engine SAM.TickFires; TimeoutFires 0;
            SetEnablerMainRadar true; Engine SAM.BIPFires;
            SetEnabledPower false; TimeoutFires 0]).
  reflexivity.
Defined.

(** While the power is off, the main radar switch and the transmitter
    switch are dead: any sequence of presses on them, on or off,
    leaves the store as it is, schedules no timeout and calls
    nothing. *)
Theorem switches_dead_without_power (ops : list op) (s : state) :
  forallb is_dependentSwitch ops = true ->
  isEnabledPower s = false ->
  run ops s = (s, []).
Proof.
  intros Hops Hp. induction ops as [| o ops IH]; [reflexivity |].
  cbn [forallb] in Hops. apply andb_prop in Hops as [Ho Hops].
  rewrite supply_run_cons.
  assert (E : perform o s = (s, [])).
  { destruct o as [v | v | v | i | o]; try discriminate Ho; cbn [perform].
    - unfold setEnablerMainRadar. now rewrite Hp.
    - unfold setIsEnabledTargetRadarTransmitter. now rewrite Hp. }
  rewrite E. cbn [fst snd]. now rewrite (IH Hops).
Qed.

Lemma switches_dead_without_power_witness :
  run [SetEnablerMainRadar true; SetIsEnabledTargetRadarTransmitter true;
       SetEnablerMainRadar false] initial = (initial, []).
Proof.
  apply (switches_dead_without_power
           [SetEnablerMainRadar true; SetIsEnabledTargetRadarTransmitter true;
            SetEnablerMainRadar false] initial); reflexivity.
Defined.

Lemma newest_timeout (t : timeout) (l : list timeout) :
  nth_error (l ++ [t]) (List.length l) = Some t /\
  firstn (List.length l) (l ++ [t]) ++ skipn (S (List.length l)) (l ++ [t]) = l.
Proof.
  induction l as [| a l [IH1 IH2]]; [now split |].
  split; [exact IH1 |].
  cbn [List.length app firstn skipn]. cbn [skipn] in IH2.
  change ((a :: firstn (List.length l) (l ++ [t])) ++
          skipn (S (List.length l)) (l ++ [t]))
    with (a :: (firstn (List.length l) (l ++ [t]) ++
                skipn (S (List.length l)) (l ++ [t]))).
  now rewrite IH2.
Qed.

(** Switching the power off does not cancel a power-on that is still
    pending: from any state of the store, power on, then power off,
    then the timeout of the first press firing leaves the power shown
    as on and the engine enabled, with the pending timeouts as they
    were before. *)
Theorem pending_power_on_survives_power_off (s : state) :
  let s' := fst (run [SetEnabledPower true; SetEnabledPower false;
                      TimeoutFires (List.length (timeouts s))] s) in
  isEnabledPower s' = true /\
  SAM.isEnabled (sam s') = true /\
  isEnabledMainRadar s' = false /\
  isEnabledTargetRadarTransmitter s' = false /\
  timeouts s' = timeouts s.
Proof.
  cbv zeta. rewrite !supply_run_cons. cbn [fst run perform].
  unfold setEnabledPower at 2. cbn [fst].
  unfold setEnabledPower. cbn [fst setDefaultValues sam timeouts isEnabledPower
    isEnabledMainRadar isEnabledTargetRadarTransmitter].
  unfold timeoutFires, setDefaultValues.
  cbn [sam timeouts isEnabledPower isEnabledMainRadar
       isEnabledTargetRadarTransmitter].
  destruct (newest_timeout PowerOn (timeouts s)) as [E1 E2].
  rewrite E1, E2. cbn. repeat split; reflexivity.
Qed.

(** A main radar switch-on requested while the power is on takes
    effect even when the power is cut before its timeout fires: the
    store then shows the main radar as on and the power as off. *)
Theorem main_radar_on_can_outlive_power (s : state) :
  isEnabledPower s = true ->
  let s' := fst (run [SetEnablerMainRadar true; SetEnabledPower false;
                      TimeoutFires (List.length (timeouts s))] s) in
  isEnabledMainRadar s' = true /\
  isEnabledPower s' = false /\
  SAM.isEnabled (sam s') = false.
Proof.
  intros Hp. cbv zeta. rewrite !supply_run_cons. cbn [fst run perform].
  unfold setEnablerMainRadar. rewrite Hp. cbn [negb fst].
  unfold setEnabledPower. cbn [fst setDefaultValues sam timeouts isEnabledPower
    isEnabledMainRadar isEnabledTargetRadarTransmitter].
  unfold timeoutFires, setDefaultValues.
  cbn [sam timeouts isEnabledPower isEnabledMainRadar
       isEnabledTargetRadarTransmitter].
  destruct (newest_timeout MainRadarOn (timeouts s)) as [E1 E2].
  rewrite E1, E2. cbn. repeat split; reflexivity.
Qed.

Lemma main_radar_on_can_outlive_power_witness :
  let s := fst (run [SetEnabledPower true; TimeoutFires 0] initial) in
  let s' := fst (run [SetEnablerMainRadar true; SetEnabledPower false;
                      TimeoutFires (List.length (timeouts s))] s) in
  isEnabledMainRadar s' = true /\
  isEnabledPower s' = false /\
  SAM.isEnabled (sam s') = false.
Proof.
  apply (main_radar_on_can_outlive_power
           (fst (run [SetEnabledPower true; TimeoutFires 0] initial))).
  reflexivity.
Defined.

End PowerSupply.

(** ** The earlier version of the engine beside the current one *)

Module Versions.
Import Scenarios.

Lemma legacy_run_cons (o : LegacySAM.op) (ops : list LegacySAM.op)
    (s : LegacySAM.state) :
  LegacySAM.run (o :: ops) s =
  (fst (LegacySAM.run ops (fst (LegacySAM.perform o s))),
   snd (LegacySAM.perform o s) ++
   snd (LegacySAM.run ops (fst (LegacySAM.perform o s)))).
Proof.
  cbn [LegacySAM.run]. destruct (LegacySAM.perform o s) as [s1 e1]. cbn [fst snd].
  now destruct (LegacySAM.run ops s1).
Qed.

Lemma legacy_gate (fo : FlightObject.t) :
  LegacySAM.isTargetVisible fo && LegacySAM.inAllowedElevation fo = true ->
  SAM.isTargetVisible fo && SAM.inAllowedElevation fo = true.
Proof.
  intros H. apply andb_true_iff in H. destruct H as [Hv He].
  apply andb_true_iff. split; [exact Hv |].
  unfold LegacySAM.inAllowedElevation in He. unfold SAM.inAllowedElevation.
  apply andb_true_iff in He. destruct He as [Hd He].
  apply andb_true_iff in He. destruct He as [Hlo Hhi].
  rewrite Hd. cbn [andb]. apply andb_true_iff. split.
  - apply JSFacts.gtb_iff in Hlo. apply JSFacts.gtb_true.
    change (SAM.targetElevation fo) with (LegacySAM.targetElevation fo).
    unfold LegacySAM_PARAMS.MIN_ELEVATION in Hlo.
    unfold SAM_PARAMS.MIN_ELEVATION. pose proof PI_RGT_0. lra.
  - exact Hhi.
Qed.

Lemma legacy_entry_carried (fo : FlightObject.t) :
  LegacySAM.carries (SAM.recognizedTarget fo) (LegacySAM.recognizedTarget fo).
Proof. unfold LegacySAM.carries. repeat split. Qed.

Lemma embeds_delete (id : string) legacy table :
  LegacySAM.embeds legacy table ->
  LegacySAM.embeds (JSObject.delete String.eqb id legacy)
                   (JSObject.delete String.eqb id table).
Proof.
  intros H id' entry Hg.
  destruct (string_dec id id') as [E | Hne].
  - subst id'.
    rewrite JSObjectFacts.get_delete_same in Hg by auto using String.eqb_eq.
    discriminate.
  - rewrite JSObjectFacts.get_delete_other in Hg by auto using String.eqb_eq.
    rewrite JSObjectFacts.get_delete_other by auto using String.eqb_eq.
    now apply H.
Qed.

Lemma embeds_delete_set (id : string) (v : IRecognizedTargets.t) legacy table :
  LegacySAM.embeds legacy table ->
  LegacySAM.embeds (JSObject.delete String.eqb id legacy)
                   (JSObject.set String.eqb id v table).
Proof.
  intros H id' entry Hg.
  destruct (string_dec id id') as [E | Hne].
  - subst id'.
    rewrite JSObjectFacts.get_delete_same in Hg by auto using String.eqb_eq.
    discriminate.
  - rewrite JSObjectFacts.get_delete_other in Hg by auto using String.eqb_eq.
    rewrite JSObjectFacts.get_set_other by auto using String.eqb_eq.
    now apply H.
Qed.

Lemma embeds_set (id : string) (v : IRecognizedTargets.t)
    (v0 : LegacyRecognizedTargets.t) legacy table :
  LegacySAM.carries v v0 ->
  LegacySAM.embeds legacy table ->
  LegacySAM.embeds (JSObject.set String.eqb id v0 legacy)
                   (JSObject.set String.eqb id v table).
Proof.
  intros Hc H id' entry Hg.
  destruct (string_dec id id') as [E | Hne].
  - subst id'.
    rewrite JSObjectFacts.get_set_same in Hg by auto using String.eqb_eq.
    injection Hg as <-.
    exists v. split; [| exact Hc].
    apply JSObjectFacts.get_set_same; auto using String.eqb_eq.
  - rewrite JSObjectFacts.get_set_other in Hg by auto using String.eqb_eq.
    rewrite JSObjectFacts.get_set_other by auto using String.eqb_eq.
    now apply H.
Qed.

Lemma step_embeds (fo : FlightObject.t) legacy table :
  LegacySAM.embeds legacy table ->
  LegacySAM.embeds (LegacySAM.recalculateTargets_step fo legacy)
                   (fst (SAM.recalculateTargets_step fo table)).
Proof.
  intros H. unfold LegacySAM.recalculateTargets_step, SAM.recalculateTargets_step.
  destruct (FlightObject.isLaunched fo); cbn [negb fst]; [| exact H].
  destruct (FlightObject.isDestroyed fo); cbn [negb fst].
  - now apply embeds_delete.
  - destruct (LegacySAM.isTargetVisible fo && LegacySAM.inAllowedElevation fo) eqn:Hl.
    + rewrite (legacy_gate fo Hl). cbn [fst].
      apply embeds_set; [apply legacy_entry_carried | exact H].
    + destruct (SAM.isTargetVisible fo && SAM.inAllowedElevation fo); cbn [fst].
      * now apply embeds_delete_set.
      * now apply embeds_delete.
Qed.

Lemma loop_embeds (fos : list FlightObject.t) :
  forall legacy table,
    LegacySAM.embeds legacy table ->
    LegacySAM.embeds (LegacySAM.recalculateTargets_loop fos legacy)
                     (fst (SAM.recalculateTargets_loop fos table)).
Proof.
  induction fos as [| fo fos IH]; intros legacy table H.
  - exact H.
  - rewrite SAMFacts.targets_loop_cons. cbn [fst].
    unfold LegacySAM.recalculateTargets_loop. cbn [fold_left].
    apply IH. now apply step_embeds.
Qed.

Lemma perform_abreast (o : LegacySAM.op) (l : LegacySAM.state) (c : SAM.state) :
  LegacySAM.abreast l c ->
  LegacySAM.abreast (fst (LegacySAM.perform o l)) (fst (SAM.perform (LegacySAM.current o) c)).
Proof.
  intros [He [Ho [Hm Ht]]]. destruct o as [v | fo | | objects];
    cbn [LegacySAM.perform LegacySAM.current SAM.perform fst].
  - split; [reflexivity |]. split; [exact Ho |]. split; [exact Hm | exact Ht].
  - split; [exact He |]. split; [| split; [exact Hm | exact Ht]].
    cbn [LegacySAM.addFlightObject LegacySAM.flightObjects SAM.addFlightObject
         SAM.flightObjects]. now rewrite Ho.
  - unfold LegacySAM.tick. rewrite He.
    destruct (SAM.isEnabled c) eqn:En.
    + rewrite (Recognition.tick_without_missiles c En Hm). cbn [fst].
      unfold LegacySAM.abreast.
      cbn [LegacySAM.recalculateMissiles LegacySAM.recalculateTargets
           LegacySAM.isEnabled LegacySAM.flightObjects LegacySAM.recognizedTargets
           SAM.isEnabled SAM.flightObjects SAM.missiles SAM.recognizedTargets].
      split; [exact He |]. split; [exact Ho |]. split; [reflexivity |].
      rewrite Ho. now apply loop_embeds.
    + rewrite (SAMFacts.tick_disabled c En). cbn [fst].
      split; [congruence |]. split; [exact Ho |]. split; [exact Hm | exact Ht].
  - rewrite Ho, Hm.
    replace (SAM.sameMissiles [] []) with true by reflexivity.
    rewrite andb_true_r.
    destruct (SAM.sameObjects objects (SAM.flightObjects c)); cbn [fst].
    + split; [exact He |]. split; [reflexivity |]. split; [reflexivity | exact Ht].
    + split; [exact He |]. split; [exact Ho |]. split; [exact Hm | exact Ht].
Qed.

Lemma run_abreast (ops : list LegacySAM.op) :
  forall l c, LegacySAM.abreast l c ->
  LegacySAM.abreast (fst (LegacySAM.run ops l))
          (fst (SAM.run (map LegacySAM.current ops) c)).
Proof.
  induction ops as [| o ops IH]; intros l c H.
  - exact H.
  - rewrite legacy_run_cons. cbn [map fst].
    rewrite EngineRuns.engine_run_cons.
    apply IH. now apply perform_abreast.
Qed.

(** Whatever history the earlier version of the engine goes through,
    the current version taken through the same calls, ticks and
    movements recognizes every target the earlier one does, under the
    same identifier and with the same distance, elevation, velocities,
    height, parameter, position, rotation and size; only the azimuth
    differs, by a full turn when the earlier one is negative. *)
Theorem current_version_keeps_legacy_targets (ops : list LegacySAM.op) :
  LegacySAM.embeds
    (LegacySAM.recognizedTargets (fst (LegacySAM.run ops LegacySAM.initial)))
    (SAM.recognizedTargets
       (fst (SAM.run (map LegacySAM.current ops) SAM.initial))).
Proof.
  apply run_abreast.
  split; [reflexivity |]. split; [reflexivity |]. split; [reflexivity |].
  intros id entry H. discriminate H.
Qed.

Lemma perform_no_missiles (o : LegacySAM.op) (s : LegacySAM.state) :
  LegacySAM.missiles s = [] -> LegacySAM.flightMissiles s = [] ->
  LegacySAM.missiles (fst (LegacySAM.perform o s)) = [] /\
  LegacySAM.flightMissiles (fst (LegacySAM.perform o s)) = [] /\
  Forall (fun e => LegacySAM.reportedMissiles e = [])
         (snd (LegacySAM.perform o s)).
Proof.
  intros Hm Hf. destruct o as [v | fo | | objects]; cbn [LegacySAM.perform].
  - repeat split; auto.
  - repeat split; auto.
  - unfold LegacySAM.tick. destruct (LegacySAM.isEnabled s); [| repeat split; auto].
    cbn [fst snd]. unfold LegacySAM.recalculateMissiles, LegacySAM.recalculateTargets.
    cbn [LegacySAM.missiles LegacySAM.flightMissiles].
    rewrite Hm, Hf. cbn [fold_left].
    repeat split. constructor; [reflexivity | constructor].
  - destruct (SAM.sameObjects objects (LegacySAM.flightObjects s));
      repeat split; auto.
Qed.

(** The earlier version has no way to register a missile: along every
    run its missile table stays empty, and every update it hands to
    the listener carries an empty missile table. *)
Theorem legacy_reports_no_missile (ops : list LegacySAM.op) :
  LegacySAM.flightMissiles (fst (LegacySAM.run ops LegacySAM.initial)) = [] /\
  Forall (fun e => LegacySAM.reportedMissiles e = [])
         (snd (LegacySAM.run ops LegacySAM.initial)).
Proof.
  assert (G : forall s, LegacySAM.missiles s = [] -> LegacySAM.flightMissiles s = [] ->
              LegacySAM.flightMissiles (fst (LegacySAM.run ops s)) = [] /\
              Forall (fun e => LegacySAM.reportedMissiles e = [])
                     (snd (LegacySAM.run ops s))).
  { induction ops as [| o ops IH]; intros s Hm Hf.
    - split; [exact Hf | constructor].
    - rewrite legacy_run_cons. cbn [fst snd].
      destruct (perform_no_missiles o s Hm Hf) as [Hm' [Hf' He]].
      destruct (IH _ Hm' Hf') as [H1 H2].
      split; [exact H1 |]. apply Forall_app. now split. }
  now apply G.
Qed.

Lemma legacy_entry_in_range (fo : FlightObject.t) :
  LegacySAM.isTargetVisible fo && LegacySAM.inAllowedElevation fo = true ->
  LegacySAM.inLegacyRange (LegacySAM.recognizedTarget fo).
Proof.
  intros H. apply andb_true_iff in H. destruct H as [_ He].
  unfold LegacySAM.inAllowedElevation in He.
  apply andb_true_iff in He. destruct He as [Hd He].
  apply andb_true_iff in He. destruct He as [Hlo Hhi].
  apply JSFacts.gtb_iff in Hlo. apply JSFacts.ltb_iff in Hhi.
  assert (Hd' : SAM.targetDistance fo <> 0).
  { unfold JS.eqb in Hd. destruct (Req_dec_T (SAM.targetDistance fo) 0);
      [discriminate | assumption]. }
  pose proof (JSFacts.hypot_nonneg (Point.x (FlightObject.currentPoint fo))
                (Point.y (FlightObject.currentPoint fo))) as Hnn.
  fold (SAM.targetDistance fo) in Hnn.
  pose proof (JSFacts.atan2_bound (Point.y (FlightObject.currentPoint fo))
                (Point.x (FlightObject.currentPoint fo))) as Hb.
  fold (SAM.targetAzimut fo) in Hb.
  assert (Hpos : 0 < SAM.targetDistance fo) by lra.
  unfold LegacySAM.inLegacyRange.
  cbn [LegacySAM.recognizedTarget LegacyRecognizedTargets.elevation
       LegacyRecognizedTargets.distance LegacyRecognizedTargets.height
       LegacyRecognizedTargets.azimut].
  split; [lra |]. split; [exact Hpos |]. split; [| exact Hb].
  unfold LegacySAM.targetElevation, LegacySAM.targetHeightOffset in Hlo.
  unfold LegacySAM_PARAMS.MIN_ELEVATION in Hlo.
  assert (Hh : 0 < Point.z (FlightObject.currentPoint fo) -
                   LegacySAM_PARAMS.RADAR_HEIGHT).
  { replace (Point.z (FlightObject.currentPoint fo) - LegacySAM_PARAMS.RADAR_HEIGHT)
      with ((Point.z (FlightObject.currentPoint fo) - LegacySAM_PARAMS.RADAR_HEIGHT) /
            SAM.targetDistance fo * SAM.targetDistance fo) by (field; exact Hd').
    apply Rmult_lt_0_compat; assumption. }
  lra.
Qed.

Lemma legacy_step_in_range (fo : FlightObject.t) rt :
  Forall (fun kv => LegacySAM.inLegacyRange (snd kv)) rt ->
  Forall (fun kv => LegacySAM.inLegacyRange (snd kv))
         (LegacySAM.recalculateTargets_step fo rt).
Proof.
  intros H. unfold LegacySAM.recalculateTargets_step.
  destruct (FlightObject.isLaunched fo); cbn [negb]; [| exact H].
  destruct (FlightObject.isDestroyed fo); cbn [negb].
  - now apply EngineRuns.Forall_delete.
  - destruct (LegacySAM.isTargetVisible fo && LegacySAM.inAllowedElevation fo) eqn:Hl.
    + apply EngineRuns.Forall_set; [exact H |].
      cbn [snd]. now apply legacy_entry_in_range.
    + now apply EngineRuns.Forall_delete.
Qed.

Lemma legacy_perform_in_range (o : LegacySAM.op) (s : LegacySAM.state) :
  Forall (fun kv => LegacySAM.inLegacyRange (snd kv)) (LegacySAM.recognizedTargets s) ->
  Forall (fun kv => LegacySAM.inLegacyRange (snd kv))
         (LegacySAM.recognizedTargets (fst (LegacySAM.perform o s))).
Proof.
  intros H. destruct o as [v | fo | | objects]; cbn [LegacySAM.perform fst].
  - exact H.
  - exact H.
  - unfold LegacySAM.tick. destruct (LegacySAM.isEnabled s); [| exact H].
    cbn [fst LegacySAM.recalculateMissiles LegacySAM.recalculateTargets
         LegacySAM.recognizedTargets LegacySAM.flightObjects].
    unfold LegacySAM.recalculateTargets_loop.
    revert H. generalize (LegacySAM.recognizedTargets s).
    induction (LegacySAM.flightObjects s) as [| fo fos IH]; intros rt H.
    + exact H.
    + cbn [fold_left]. apply IH. now apply legacy_step_in_range.
  - now destruct (SAM.sameObjects objects (LegacySAM.flightObjects s)).
Qed.

(** Every entry the earlier version holds, along any run, belongs to
    an object strictly above the radar: the elevation is strictly
    between 0 and MAX_ELEVATION, the ground distance positive, the
    height above RADAR_HEIGHT; its azimuth is in (-PI, PI], so it can
    be negative. *)
Theorem legacy_targets_are_above_the_radar (ops : list LegacySAM.op)
    (id : string) (entry : LegacyRecognizedTargets.t) :
  JSObject.get String.eqb id
    (LegacySAM.recognizedTargets (fst (LegacySAM.run ops LegacySAM.initial))) =
    Some entry ->
  LegacySAM.inLegacyRange entry.
Proof.
  intros Hg. apply EngineRuns.get_in in Hg.
  assert (G : forall s,
             Forall (fun kv => LegacySAM.inLegacyRange (snd kv))
                    (LegacySAM.recognizedTargets s) ->
             Forall (fun kv => LegacySAM.inLegacyRange (snd kv))
                    (LegacySAM.recognizedTargets (fst (LegacySAM.run ops s)))).
  { clear Hg. induction ops as [| o ops IH]; intros s H.
    - exact H.
    - rewrite legacy_run_cons. cbn [fst]. apply IH.
      now apply legacy_perform_in_range. }
  specialize (G LegacySAM.initial (Forall_nil _)).
  rewrite Forall_forall in G. exact (G (id, entry) Hg).
Qed.

Lemma legacy_first_tick (id : string) :
  LegacySAM.recognizedTargets
    (fst (LegacySAM.run [LegacySAM.AddFlightObject (inbound id);
                         LegacySAM.SetIsEnabled true; LegacySAM.TickFires]
                        LegacySAM.initial)) =
  [(id, LegacySAM.recognizedTarget (inbound id))].
Proof.
  cbn [LegacySAM.run LegacySAM.perform LegacySAM.tick LegacySAM.setIsEnabled
       LegacySAM.addFlightObject LegacySAM.isEnabled LegacySAM.initial fst snd
       LegacySAM.flightObjects LegacySAM.missiles LegacySAM.recognizedTargets
       LegacySAM.flightMissiles app LegacySAM.recalculateMissiles
       LegacySAM.recalculateTargets LegacySAM.recalculateTargets_loop fold_left].
  unfold LegacySAM.recalculateTargets_step.
  replace (LegacySAM.isTargetVisible (inbound id)) with true
    by (symmetry; apply (ScenarioFacts.inbound_isTargetVisible id)).
  replace (LegacySAM.inAllowedElevation (inbound id)) with true.
  - reflexivity.
  - symmetry. unfold LegacySAM.inAllowedElevation.
    change (LegacySAM.targetElevation (inbound id))
      with (SAM.targetElevation (inbound id)).
    rewrite ScenarioFacts.inbound_targetElevation,
            ScenarioFacts.inbound_targetDistance.
    pose proof JSFacts.PI_gt_3 as H3.
    unfold LegacySAM_PARAMS.MIN_ELEVATION, LegacySAM_PARAMS.MAX_ELEVATION.
    rewrite JSFacts.eqb_false, JSFacts.gtb_true, JSFacts.ltb_true by lra.
    reflexivity.
Qed.

(** The statement at the entry of the scenario's object after the
    first tick. *)
Lemma legacy_targets_are_above_the_radar_witness :
  LegacySAM.inLegacyRange (LegacySAM.recognizedTarget (inbound "a")).
Proof.
  apply (legacy_targets_are_above_the_radar
           [LegacySAM.AddFlightObject (inbound "a");
            LegacySAM.SetIsEnabled true; LegacySAM.TickFires] "a").
  rewrite legacy_first_tick. reflexivity.
Defined.

(** The statement at the scenario's object after the first tick of
    both versions. *)
Lemma current_version_keeps_legacy_targets_witness :
  exists entry',
    JSObject.get String.eqb "a"
      (SAM.recognizedTargets
         (fst (SAM.run (map LegacySAM.current
                          [LegacySAM.AddFlightObject (inbound "a");
                           LegacySAM.SetIsEnabled true; LegacySAM.TickFires])
                       SAM.initial))) = Some entry' /\
    LegacySAM.carries entry' (LegacySAM.recognizedTarget (inbound "a")).
Proof.
  apply (current_version_keeps_legacy_targets
           [LegacySAM.AddFlightObject (inbound "a");
            LegacySAM.SetIsEnabled true; LegacySAM.TickFires] "a").
  rewrite legacy_first_tick. reflexivity.
Defined.

End Versions.

(** ** The clock: hands and dial *)

Module Dial.
Import Clock.

Lemma pointAt_period (length angle : R) (k : nat) :
  pointAt length (angle + 2 * INR k * PI) = pointAt length angle.
Proof. unfold pointAt. now rewrite cos_period, sin_period. Qed.

Lemma hoursAngle_split (hour minutes : nat) :
  hoursAngle hour minutes =
  numeralAngle (hour mod 12) + (2 * PI / 12) * (INR minutes / 60) +
  2 * INR (hour / 12) * PI.
Proof.
  unfold hoursAngle, numeralAngle.
  rewrite (Nat.div_mod_eq hour 12) at 1.
  rewrite plus_INR, mult_INR.
  replace (INR 12) with 12 by (simpl; lra).
  field.
Qed.

(** The hands agree with the dial: at a full hour, whichever of the
    24, the hour hand runs from the centre towards the anchor of the
    numeral drawn at turn [hour mod 12] of the loop, whose text is the
    hour on a 12-hour clock; the minute hand at minute [5 * j] and the
    second hand at second [5 * j] run towards the anchor of the
    numeral of turn [j]. *)
Theorem hands_point_at_numerals (hour j : nat) :
  hourHand hour 0 = pointAt 30 (numeralAngle (hour mod 12)) /\
  (1 <= numeralText (hour mod 12) <= 12)%nat /\
  (numeralText (hour mod 12) mod 12 = hour mod 12)%nat /\
  minuteHand (5 * j) = pointAt 40 (numeralAngle j) /\
  secondHand (5 * j) = pointAt 38 (numeralAngle j).
Proof.
  assert (Hh : (hour mod 12 < 12)%nat) by (apply Nat.mod_upper_bound; lia).
  split; [| split; [| split; [| split]]].
  - unfold hourHand. rewrite hoursAngle_split.
    replace (INR 0 / 60) with 0 by (simpl; lra).
    rewrite Rmult_0_r, Rplus_0_r. apply pointAt_period.
  - unfold numeralText. destruct (Nat.eqb_spec (hour mod 12) 0); lia.
  - unfold numeralText. destruct (Nat.eqb_spec (hour mod 12) 0) as [E | E].
    + now rewrite E.
    + now apply Nat.mod_small.
  - unfold minuteHand, minutesAngle, numeralAngle. f_equal.
    rewrite mult_INR. replace (INR 5) with 5 by (simpl; lra). field.
  - unfold secondHand, secondsAngle, numeralAngle. f_equal.
    rewrite mult_INR. replace (INR 5) with 5 by (simpl; lra). field.
Qed.

(** Within an hour the hour hand sweeps from the numeral of the hour
    towards the next one without reaching it: up to the full turns of
    the afternoon, its angle is at least the angle of numeral
    [hour mod 12] and less than that angle plus a twelfth of a turn. *)
Theorem hour_hand_stays_in_its_sector (hour minutes : nat) :
  (minutes < 60)%nat ->
  numeralAngle (hour mod 12) <=
    hoursAngle hour minutes - 2 * INR (hour / 12) * PI <
  numeralAngle (hour mod 12) + 2 * PI / 12.
Proof.
  intros Hm. rewrite hoursAngle_split.
  assert (H0 : 0 <= INR minutes) by apply pos_INR.
  assert (H1 : INR minutes < 60).
  { replace 60 with (INR 60) by (simpl; lra). now apply lt_INR. }
  pose proof PI_RGT_0 as Hpi.
  assert (Hlo : 0 <= 2 * PI / 12 * (INR minutes / 60)).
  { apply Rmult_le_pos; lra. }
  assert (Hhi : 2 * PI / 12 * (INR minutes / 60) < 2 * PI / 12 * 1).
  { apply Rmult_lt_compat_l; lra. }
  lra.
Qed.

Lemma hour_hand_stays_in_its_sector_witness :
  numeralAngle (17 mod 12) <=
    hoursAngle 17 45 - 2 * INR (17 / 12) * PI <
  numeralAngle (17 mod 12) + 2 * PI / 12.
Proof.
  apply (hour_hand_stays_in_its_sector 17 45). lia.
Defined.

End Dial.
